(** * ciftify_recon_all: a shallow embedding of the mesh build pipeline

  The development follows [ciftify/bin/ciftify_recon_all.py].  The program
  is a driver: it inspects the file system, takes decisions, and issues
  external commands (wb_command, FSL, FreeSurfer, msm).  It is embedded as
  state-passing code over a [world] made of a flat file system, the list
  of external commands issued so far with their return codes, the records
  handed to the logger so far and the files of the log handlers attached
  to it; [sys.exit] and Python exceptions are explicit outcomes. *)

From Stdlib Require Import ZArith List String Ascii Bool Lia.
From Stdlib Require Import Reals Lra.
From stdpp Require Import base strings list gmap pretty.

Local Open Scope string_scope.
Local Open Scope list_scope.

(** ** Python strings *)

Module PyStr.

(** [s.startswith(p)] *)
Fixpoint startswith (p s : string) : bool :=
  match p, s with
  | EmptyString, _ => true
  | String a p', String b s' => if Ascii.eqb a b then startswith p' s' else false
  | String _ _, EmptyString => false
  end.

(** [s.endswith(suf)]: some tail of [s] is [suf]. *)
Fixpoint endswith (suf s : string) : bool :=
  String.eqb suf s ||
  match s with
  | EmptyString => false
  | String _ s' => endswith suf s'
  end.

(** [a in s] on strings: [a] occurs as a contiguous substring of [s]. *)
Fixpoint contains (a s : string) : bool :=
  startswith a s ||
  match s with
  | EmptyString => false
  | String _ s' => contains a s'
  end.

(** [c] occurs in [s] *)
Fixpoint has_char (c : ascii) (s : string) : bool :=
  match s with
  | EmptyString => false
  | String b s' => Ascii.eqb c b || has_char c s'
  end.

(** [s.rfind(c)] for a one-character needle: the index of the last
    occurrence, or -1. *)
Fixpoint rfind_from (c : ascii) (s : string) (i : Z) (last : Z) : Z :=
  match s with
  | EmptyString => last
  | String b s' => rfind_from c s' (i + 1) (if Ascii.eqb c b then i else last)
  end.

Definition rfind (c : ascii) (s : string) : Z := rfind_from c s 0 (-1).

(** the first [n] characters of [s] *)
Fixpoint take (n : nat) (s : string) : string :=
  match n, s with
  | O, _ => EmptyString
  | S n', String b s' => String b (take n' s')
  | S _, EmptyString => EmptyString
  end.

(** [s[0:k]]: a negative [k] counts from the end; the bounds are clipped. *)
Definition slice_to (s : string) (k : Z) : string :=
  let len := Z.of_nat (String.length s) in
  let stop := if (k <? 0)%Z then Z.max 0 (len + k) else Z.min k len in
  take (Z.to_nat stop) s.

(** [s.split(c)] for a one-character separator *)
Fixpoint split_on (c : ascii) (s : string) : list string :=
  match s with
  | EmptyString => [EmptyString]
  | String b s' =>
      if Ascii.eqb b c then EmptyString :: split_on c s'
      else match split_on c s' with
           | [] => [String b EmptyString]
           | x :: xs => String b x :: xs
           end
  end.

(** [s.replace(c, '')] for a one-character [c] *)
Fixpoint remove_char (c : ascii) (s : string) : string :=
  match s with
  | EmptyString => EmptyString
  | String b s' => if Ascii.eqb b c then remove_char c s' else String b (remove_char c s')
  end.

(** [s.lower()] on ASCII letters *)
Definition lower_ascii (c : ascii) : ascii :=
  let n := nat_of_ascii c in
  if (65 <=? n)%nat && (n <=? 90)%nat then ascii_of_nat (n + 32) else c.

Fixpoint lower (s : string) : string :=
  match s with
  | EmptyString => EmptyString
  | String b s' => String (lower_ascii b) (lower s')
  end.

(** the double-quote character, and a text between double quotes *)
Definition dquote : string := String "034"%char EmptyString.

Definition quoted (s : string) : string := dquote +:+ s +:+ dquote.

(** truthiness of an optional string argument: [None] and [''] are falsy *)
Definition truthy (o : option string) : bool :=
  match o with
  | None => false
  | Some s => negb (String.eqb s "")
  end.

End PyStr.

(** ** os.path (POSIX) *)

Module OsPath.
Import PyStr.

(** one step of [posixpath.join] *)
Definition join2 (path b : string) : string :=
  if startswith "/" b then b
  else if String.eqb path "" || endswith "/" path then path +:+ b
  else path +:+ "/" +:+ b.

(** [os.path.join(a, *p)] *)
Definition join (a : string) (p : list string) : string :=
  fold_left join2 p a.

(** [p] is [dir] itself or lies below it *)
Definition underb (dir p : string) : bool :=
  String.eqb p dir || startswith (dir +:+ "/") p.

Definition under (dir p : string) : Prop := underb dir p = true.

End OsPath.

(** ** The world: file system, issued commands, log *)

(** An entry of the flat file system.  A path is present when it is a key
    of the map; parents of a present path are taken to be present. *)
Inductive node :=
| Dir
| File (content : string)
| Link (target : string).

(** Levels of the log calls. *)
Inductive level := Debug | Info | Warning | Error | Critical.

(** The places where the program calls [sys.exit(1)]. *)
Inductive exit_site :=
| ToolFailure                (* run: non-zero return code *)
| MsmConfigMissing           (* __set_registration_mode *)
| MsmConfigMismatch          (* __set_registration_mode *)
| NoFreesurferSubjectsDir    (* __set_fs_subjects_dir *)
| FsFolderMissing            (* Subject.__set_fs_folder *)
| IncompleteOutput           (* __has_been_run_before *)
| OutputExists               (* __has_been_run_before *)
| CannotMakeSubjectPath      (* __has_been_run_before *)
| MissingRegistrationKey (key : string)  (* __define_registration_settings *)
| TransformPairIncomplete    (* __define_registration_settings *)
| RegSphereMissing           (* resampling_to_t1w_32k *)
| FsT1Missing                (* convert_freesurfer_T1 *)
| WmparcMissing              (* convert_freesurfer_mgz *)
| CollaboratorExit (name : string). (* an exit inside ciftify.utils / ciftify.config *)

(** Python exceptions that are not caught by the program. *)
Inductive pyexn :=
| KeyError (key : string)
| IndexError
| NameError (name : string)
| OSError (path : string).

(** The state of the run: the file system; the commands issued through
    [ciftify.utils.run], in order, and the return code that each one gave;
    the records handed to the logger; the paths of the files on which a
    [logging.FileHandler] is attached to the logger, in the order of
    [addHandler]. *)
Record world := World {
  fs : gmap string node;
  cmds : list (list string);
  logs : list (level * string);
  codes : list Z;
  handlers : list string
}.

Inductive outcome (A : Type) :=
| Done (a : A) (w : world)
| Exited (site : exit_site) (w : world)
| Raised (e : pyexn) (w : world).
Arguments Done {A} a w.
Arguments Exited {A} site w.
Arguments Raised {A} e w.

Definition final {A} (o : outcome A) : world :=
  match o with
  | Done _ w => w
  | Exited _ w => w
  | Raised _ w => w
  end.

(** Computations of the program. *)
Definition M (A : Type) : Type := world -> outcome A.

#[global] Instance M_ret : MRet M := fun A a w => Done a w.

#[global] Instance M_bind : MBind M := fun A B f m w =>
  match m w with
  | Done a w' => f a w'
  | Exited s w' => Exited s w'
  | Raised e w' => Raised e w'
  end.

Definition sys_exit {A} (site : exit_site) : M A := fun w => Exited site w.

Definition raise {A} (e : pyexn) : M A := fun w => Raised e w.

Definition newline : string := String "010"%char EmptyString.

(** The file handlers are created by [Subject.get_subject_log_handler]
    with [fh.setLevel(logging.INFO)]; the logger itself is at DEBUG. *)
Definition reaches_file (l : level) : bool :=
  match l with
  | Debug => false
  | _ => true
  end.

(** [FileHandler.emit] with the formatter ['%(message)s']: the message and
    a line end are appended to the file of the handler.  The stream of a
    handler is the regular file at its path: when the path no longer names
    one, the line is not found in the file system. *)
Definition append_line (p msg : string) (f : gmap string node) : gmap string node :=
  match f !! p with
  | Some (File content) => <[p := File (content +:+ msg +:+ newline)]> f
  | _ => f
  end.

(** the file system after a record has been handed to the attached file
    handlers *)
Definition emit (hs : list string) (l : level) (msg : string) (f : gmap string node)
  : gmap string node :=
  if reaches_file l then foldl (fun g p => append_line p msg g) f hs else f.

(** the world with file system [f] *)
Definition wrote (f : gmap string node) (w : world) : world :=
  World f (cmds w) (logs w) (codes w) (handlers w).

(** the world after one call of the logger *)
Definition logged (l : level) (msg : string) (w : world) : world :=
  World (emit (handlers w) l msg (fs w)) (cmds w) (logs w ++ [(l, msg)]) (codes w)
        (handlers w).

(** [logger.debug], [logger.info], [logger.warning], [logger.error] and
    [logger.critical] *)
Definition log (l : level) (msg : string) : M unit :=
  fun w => Done tt (logged l msg w).

Definition get_fs : M (gmap string node) := fun w => Done (fs w) w.

Definition set_fs (f : gmap string node) : M unit :=
  fun w => Done tt (wrote f w).

(** [for x in l: f x] *)
Fixpoint for_each {A} (l : list A) (f : A -> M unit) : M unit :=
  match l with
  | [] => mret tt
  | x :: l' => f x;; for_each l' f
  end.

(** [os.path.exists] and [os.path.isfile]; a link made by the pipeline
    points at a regular template file. *)
Definition path_exists (f : gmap string node) (p : string) : bool :=
  match f !! p with
  | Some _ => true
  | None => false
  end.

Definition path_isfile (f : gmap string node) (p : string) : bool :=
  match f !! p with
  | Some (File _) | Some (Link _) => true
  | _ => false
  end.

(** A value of a configuration dictionary: a string, or [False]. *)
Inductive cfgval :=
| VStr (s : string)
| VFalse.

Definition cfg_truthy (v : cfgval) : bool :=
  match v with
  | VStr s => negb (String.eqb s "")
  | VFalse => false
  end.

Definition cfg_str (v : cfgval) : string :=
  match v with
  | VStr s => s
  | VFalse => "False"
  end.

(** ** Data model *)

(** A mesh space descriptor (one value of the [meshes] dictionary). *)
Record mesh := Mesh {
  meshname : string;
  Folder : string;
  tmpdir : string;
  T1wImage : string;
  DenseMapsFolder : option string
}.

(** One entry of the [dscalars] configuration. *)
Record dscalar := Dscalar {
  mapname : string;
  fsname : option string;
  map_postfix : string;
  palette_mode : string;
  palette_options : string;
  mask_medialwall : bool
}.

Record subject := Subject {
  id : string;
  fs_folder : string;
  path : string;
  T1w_dir : string;
  atlas_space_dir : string;
  subject_log : string
}.

(** The command line, as parsed by docopt. *)
Record arguments := MkArguments {
  arg_Subject : string;
  arg_resample_to_T1w32k : bool;
  arg_no_symlinks : bool;
  arg_fs_subjects_dir : option string;
  arg_fs_license : option string;
  arg_read_non_lin_xfm : option string;
  arg_read_lin_premat : option string;
  arg_MSM_config : option string;
  arg_surf_reg : string
}.

(** What [WorkFlowSettings.__init__] leaves in the object. *)
Record workflow := WorkFlow {
  work_dir : string;
  high_res : string;
  low_res : list string;
  grayord_res : list string;
  n_cpus : Z
}.

Record settings := Settings {
  base : workflow;
  reg_name : string;
  msm_config : option string;
  resample : bool;
  no_symlinks : bool;
  fs_root_dir : string;
  subj : subject;
  ciftify_data_dir : string;
  fs_license : option string;
  use_T2 : option string;
  dscalars : list (string * dscalar);
  registration : gmap string cfgval;
  skip_main_wf : bool
}.

(** What [ciftify.config.FSLog] exposes. *)
Record fslog := FSLog {
  fslog_start : string;
  fslog_build : string;
  fslog_version : string;
  fslog_cmdargs : string;
  fslog_status : string
}.

(** ** Collaborators

    Code that the program imports and that is not part of this file:
    [ciftify.filenames], [ciftify.utils], [ciftify.config], the external
    tools, and the parts of [os] whose result depends on the machine. *)
Class Collaborators := {
  (* process-wide flag set once by main() *)
  DRYRUN : bool;
  (* ciftify.filenames *)
  surf_file : string -> string -> string -> mesh -> string;
  metric_file : string -> string -> string -> mesh -> string;
  label_file : string -> string -> string -> mesh -> string;
  medial_wall_roi_file : string -> string -> mesh -> string;
  spec_file : string -> mesh -> string;
  define_meshes : string -> string -> string -> list string -> bool -> list (string * mesh);
  (* external tools behind ciftify.utils.run *)
  tool_returncode : list string -> gmap string node -> Z;
  tool_effect : list string -> gmap string node -> gmap string node;
  get_stdout : list string -> gmap string node -> string;
  msm_printoptions : gmap string node -> string;
  (* ciftify.utils *)
  make_dir_effect : string -> bool -> bool -> gmap string node -> gmap string node;
  has_ciftify_recon_all_run : string -> string -> gmap string node -> bool;
  section_header : string -> string;
  ciftify_logo : string;
  check_input_readable : string -> gmap string node -> bool;
  get_registration_mode : arguments -> option string;
  workflow_init : arguments -> gmap string node -> option workflow;
  get_config_entry : workflow -> string -> option (gmap string cfgval);
  get_dscalars_entry : workflow -> option (list (string * dscalar));
  get_resolution_config : workflow -> string -> string -> option (gmap string cfgval);
  (* ciftify.config *)
  find_ciftify_global : option string;
  find_freesurfer_data : option string;
  verify_msm_available : bool;
  read_fslog : string -> gmap string node -> fslog;
  system_info : string;
  ciftify_version : string -> string;
  wb_command_version : string;
  freesurfer_version : string;
  fsl_version : string;
  (* os *)
  makedirs_raises : string -> gmap string node -> bool;
  realpath : gmap string node -> string -> string;
  relpath : string -> string -> string;
  dirname : string -> string;
  basename : string -> string;
  mkdtemp : gmap string node -> string;
  uname_nodename : string;
  environ_FS_LICENSE : option string
}.

(** ** The program *)

Section Program.
Context `{Collaborators}.
Import PyStr OsPath.

(** A call into a collaborator that either returns or ends the process. *)
Definition collaborator {A} (name : string) (r : option A) : M A :=
  match r with
  | Some a => mret a
  | None => sys_exit (CollaboratorExit name)
  end.

(** [d[key]] on a dictionary *)
Definition getitem (d : gmap string cfgval) (key : string) : M cfgval :=
  match d !! key with
  | Some v => mret v
  | None => raise (KeyError key)
  end.

(** Modelled from the spec: [ciftify.utils.run], the blocking call to an
    external tool that returns its failure signal; in dry-run mode no
    external call is issued. *)
Definition utils_run (cmd : list string) (dryrun : bool) : M Z :=
  fun w =>
    if dryrun then Done 0%Z w
    else Done (tool_returncode cmd (fs w))
              (World (tool_effect cmd (fs w)) (cmds w ++ [cmd]) (logs w)
                     (codes w ++ [tool_returncode cmd (fs w)]) (handlers w)).

(** [run(cmd, dryrun=...)] *)
Definition run (cmd : list string) (dryrun : bool) : M Z :=
  returncode ← utils_run cmd (DRYRUN || dryrun);
  if (returncode =? 0)%Z then mret returncode else sys_exit ToolFailure.

(** [ciftify.utils.make_dir(path, dry_run, suppress_exists_error)] *)
Definition make_dir (p : string) (dry_run suppress_exists_error : bool) : M unit :=
  f ← get_fs; set_fs (make_dir_effect p dry_run suppress_exists_error f).

(** *** class Settings *)

(** The successive results of [msm_fp.readline()] until it returns the
    empty string: the lines of the text, each with its terminator. *)
Fixpoint readlines (text : string) : list string :=
  match text with
  | EmptyString => []
  | String c rest =>
      if Ascii.eqb c "010"%char then String c EmptyString :: readlines rest
      else match readlines rest with
           | [] => [String c EmptyString]
           | l :: ls => String c l :: ls
           end
  end.

(** the [arg_list] built by the loop of [check_msm_config] *)
Definition msm_arg_list (text : string) : list string :=
  map (fun arg => slice_to arg (rfind "=" arg)) (readlines text).

(** the test of [check_msm_config] on one option *)
Definition msm_arg_ok (err arg : string) : bool :=
  contains arg err || String.eqb arg "--dopt".

(** [Settings.check_msm_config]; the options are asked from the tool with
    [msm --printoptions], outside of [run]. *)
Definition check_msm_config (msm_conf : string) : M bool :=
  f ← get_fs;
  match f !! msm_conf with
  | Some (File text) =>
      let arg_list := msm_arg_list text in
      let err := msm_printoptions f in
      mret (forallb (msm_arg_ok err) arg_list)
  | _ => raise (OSError msm_conf)
  end.

(** [Settings.__set_registration_mode]: returns [surf_reg] and the value
    left in [self.msm_config]. *)
Definition set_registration_mode (args : arguments) : M (string * option string) :=
  surf_reg ← collaborator "get_registration_mode" (get_registration_mode args);
  if String.eqb surf_reg "MSMSulc" then
    (if verify_msm_available then mret tt
     else sys_exit (CollaboratorExit "verify_msm_available"));;
    let user_config := arg_MSM_config args in
    f ← get_fs;
    msm_conf ←
      (if negb (truthy user_config) then
         g ← collaborator "find_ciftify_global" find_ciftify_global;
         mret (join g ["hcp_config"; "MSMSulcStrainFinalconf"])
       else if truthy user_config && negb (path_exists f (default "" user_config)) then
         log Error ("MSM config file " +:+ default "" user_config +:+ " does not exist");;
         sys_exit MsmConfigMissing
       else mret (default "" user_config));
    ok ← check_msm_config msm_conf;
    if negb ok then
      log Error ("Running version of MSM does not match config " +:+ msm_conf);;
      sys_exit MsmConfigMismatch
    else mret (surf_reg, Some msm_conf)
  else mret (surf_reg, None).

(** [Settings.__get_freesurfer_license] *)
Definition get_freesurfer_license (fs_license_arg : option string) : M (option string) :=
  if truthy fs_license_arg then
    f ← get_fs;
    (if check_input_readable (default "" fs_license_arg) f then mret tt
     else sys_exit (CollaboratorExit "check_input_readable"));;
    mret fs_license_arg
  else mret environ_FS_LICENSE.

(** [Settings.__set_fs_subjects_dir] *)
Definition set_fs_subjects_dir (args : arguments) : M string :=
  if truthy (arg_fs_subjects_dir args) then mret (default "" (arg_fs_subjects_dir args))
  else match find_freesurfer_data with
       | None =>
           log Error "Cannot find freesurfer subjects dir, exiting.";;
           sys_exit NoFreesurferSubjectsDir
       | Some d => mret d
       end.

(** [Subject.__init__] with [__set_fs_folder] and [__set_path] *)
Definition Subject_init (work fs_root subject_id : string) (resample_to_T1w32k : bool)
  : M subject :=
  let fs_path := join fs_root [subject_id] in
  f ← get_fs;
  (if negb (path_exists f fs_path) then
     log Error (subject_id +:+ " freesurfer folder does not exist, exiting.");;
     sys_exit FsFolderMissing
   else mret tt);;
  let p := join work [subject_id] in
  mret (Subject subject_id fs_path p (join p ["T1w"]) (join p ["MNINonLinear"])
                (join p ["cifti_recon_all.log"])).

(** [Settings.__get_subject] *)
Definition get_subject (wf : workflow) (fs_root : string) (rs : bool) (args : arguments)
  : M subject :=
  Subject_init (work_dir wf) fs_root (arg_Subject args) rs.

(** [Settings.__has_been_run_before] *)
Definition has_been_run_before (wf : workflow) (s : subject) (rs : bool) : M bool :=
  f ← get_fs;
  if path_exists f (path s) then
    if rs then
      if has_ciftify_recon_all_run (work_dir wf) (id s) f then
        log Info "Found completed ciftify output, only resampling to T1w/fsaverage_LR32k";;
        mret true
      else
        log Error ("Found incomplete ciftify output at " +:+ work_dir wf +:+ "/" +:+ id s
                   +:+ ", an error may have occurred - aborting");;
        sys_exit IncompleteOutput
    else
      log Error ("Subject output " +:+ path s +:+ " already exists."
                 +:+ "If you wish to re-run, you must first delete old outputs.");;
      sys_exit OutputExists
  else
    (if makedirs_raises (path s) f then
       log Error ("Cannot make subject path " +:+ path s +:+ ", exiting");;
       sys_exit CannotMakeSubjectPath
     else set_fs (<[path s := Dir]> f));;
    mret false.

(** [del d[key]] on an ordered dictionary *)
Definition del_key {V} (key : string) (d : list (string * V)) : option (list (string * V)) :=
  if existsb (fun kv => String.eqb (fst kv) key) d
  then Some (List.filter (fun kv => negb (String.eqb (fst kv) key)) d)
  else None.

(** [Settings.__define_dscalars] *)
Definition define_dscalars (wf : workflow) (rn : string) : M (list (string * dscalar)) :=
  dscalars_config ← collaborator "get_config_entry" (get_dscalars_entry wf);
  if negb (String.eqb rn "MSMSulc") then
    match del_key "ArealDistortion_MSMSulc" dscalars_config with
    | None => mret dscalars_config
    | Some d1 =>
        match del_key "EdgeDistortion_MSMSulc" d1 with
        | None => mret d1
        | Some d2 => mret d2
        end
    end
  else mret dscalars_config.

(** the body of the loop over ['src_dir', 'dest_dir', 'xfms_dir'] *)
Definition join_subfolder (subject_path : string) (cfg : gmap string cfgval) (key : string)
  : M (gmap string cfgval) :=
  match cfg !! key with
  | None =>
      log Critical ("registration config does not contain expectedkey " +:+ key);;
      sys_exit (MissingRegistrationKey key)
  | Some subfolders => mret (<[key := VStr (join subject_path [cfg_str subfolders])]> cfg)
  end.

Fixpoint fold_keys (f : gmap string cfgval -> string -> M (gmap string cfgval))
  (keys : list string) (cfg : gmap string cfgval) : M (gmap string cfgval) :=
  match keys with
  | [] => mret cfg
  | k :: ks => cfg' ← f cfg k; fold_keys f ks cfg'
  end.

(** [Settings.__define_registration_settings] *)
Definition define_registration_settings (wf : workflow) (s : subject)
  (read_nonlin_xfm read_lin_xfm : option string) (method standard_res : string)
  : M (gmap string cfgval) :=
  registration_config ← collaborator "get_config_entry" (get_config_entry wf "registration");
  registration_config ←
    fold_keys (join_subfolder (path s)) ["src_dir"; "dest_dir"; "xfms_dir"] registration_config;
  resolution_config ←
    collaborator "get_resolution_config" (get_resolution_config wf method standard_res);
  let registration_config := resolution_config ∪ registration_config in
  if truthy read_nonlin_xfm || truthy read_lin_xfm then
    if truthy read_nonlin_xfm && truthy read_lin_xfm then
      f ← get_fs;
      (if check_input_readable (default "" read_nonlin_xfm) f then mret tt
       else sys_exit (CollaboratorExit "check_input_readable"));;
      let registration_config :=
        <["User_AtlasTransform_NonLinear" := VStr (default "" read_nonlin_xfm)]>
          registration_config in
      (if check_input_readable (default "" read_lin_xfm) f then mret tt
       else sys_exit (CollaboratorExit "check_input_readable"));;
      mret (<["User_AtlasTransform_Linear" := VStr (default "" read_lin_xfm)]>
              registration_config)
    else
      log Critical
        "if inputing user transforms, both linear and non-linear input files are needed";;
      sys_exit TransformPairIncomplete
  else
    mret (<["User_AtlasTransform_Linear" := VFalse]>
            (<["User_AtlasTransform_NonLinear" := VFalse]> registration_config)).

(** [Settings.__get_T2] *)
Definition get_T2 (args : arguments) (s : subject) : option string := None.

(** [Settings.__init__] *)
Definition Settings_init (args : arguments) : M settings :=
  f ← get_fs;
  wf ← collaborator "WorkFlowSettings.__init__" (workflow_init args f);
  '(rn, msm) ← set_registration_mode args;
  let rs := arg_resample_to_T1w32k args in
  let nosym := arg_no_symlinks args in
  fs_root ← set_fs_subjects_dir args;
  s ← get_subject wf fs_root rs args;
  data_dir ← collaborator "find_ciftify_global" find_ciftify_global;
  lic ← get_freesurfer_license (arg_fs_license args);
  let t2 := get_T2 args s in
  ds ← define_dscalars wf rn;
  reg ← define_registration_settings wf s
          (arg_read_non_lin_xfm args) (arg_read_lin_premat args) "FSL_fnirt" "2mm";
  skip ← has_been_run_before wf s rs;
  mret (Settings wf rn msm rs nosym fs_root s data_dir lic t2 ds reg skip).


(** *** wb_command -metric-math expressions

    The expressions that the program passes to [wb_command -metric-math],
    as syntax; [show] prints an expression as the text found in the
    source. *)

Inductive mfun := Fln | Fabs.

Inductive mexpr :=
| Var (x : string)
| Num (n : Z)
| Add (a b : mexpr)
| Mul (a b : mexpr)
| Div (a b : mexpr)
| Gt (a b : mexpr)
| Fn (f : mfun) (a : mexpr)
| Paren (a : mexpr).

Definition show_fun (f : mfun) : string :=
  match f with
  | Fln => "ln"
  | Fabs => "abs"
  end.

Fixpoint show (e : mexpr) : string :=
  match e with
  | Var x => x
  | Num n => pretty n
  | Add a b => show a +:+ " + " +:+ show b
  | Mul a b => show a +:+ " * " +:+ show b
  | Div a b => show a +:+ " / " +:+ show b
  | Gt a b => show a +:+ " > " +:+ show b
  | Fn f a => show_fun f +:+ "(" +:+ show a +:+ ")"
  | Paren a => "(" +:+ show a +:+ ")"
  end.

(** ["(var * -1)"] in convert_freesurfer_maps *)
Definition negate_expr : mexpr := Paren (Mul (Var "var") (Num (-1))).

(** ["(abs(thickness))"] in convert_freesurfer_maps *)
Definition abs_thickness_expr : mexpr := Paren (Fn Fabs (Var "thickness")).

(** ["(thickness > 0)"] in medial_wall_rois_from_thickness_maps *)
Definition thickness_roi_expr : mexpr := Paren (Gt (Var "thickness") (Num 0)).

(** ["(ln(spherereg / sphere) / ln(2))"] in calc_areal_distortion_gii *)
Definition areal_distortion_expr : mexpr :=
  Paren (Div (Fn Fln (Div (Var "spherereg") (Var "sphere"))) (Fn Fln (Num 2))).

(** ["(atlas + individual) > 0"] in merge_subject_medial_wall_with_atlas_template *)
Definition merge_roi_expr : mexpr :=
  Gt (Paren (Add (Var "atlas") (Var "individual"))) (Num 0).

(** the two hemispheres with their structure names *)
Definition hemispheres : list (string * string) :=
  [("L", "CORTEX_LEFT"); ("R", "CORTEX_RIGHT")].

(** *** Step 0: settings and logging *)

(** [log_inputs]; the entries of the registration settings are read with
    [registration_config[key]] *)
Definition log_inputs (fs_dir work_dir subject_id : string)
  (registration_config : gmap string cfgval) (msm_config : option string) : M unit :=
  log Info "Arguments: ";;
  log Info ("    freesurfer SUBJECTS_DIR: " +:+ fs_dir);;
  log Info ("    CIFTIFY_WORKDIR directory: " +:+ work_dir);;
  log Info ("    Subject: " +:+ subject_id);;
  (if truthy msm_config then log Info ("    MSM config file: " +:+ default "" msm_config)
   else mret tt);;
  nonlin ← getitem registration_config "User_AtlasTransform_NonLinear";
  if cfg_truthy nonlin then
    log Info "User given transforms (to be copied to MNINonLinear/xfm):";;
    lin ← getitem registration_config "User_AtlasTransform_Linear";
    log Info ("     User given linear tranform: " +:+ cfg_str lin);;
    nonlin ← getitem registration_config "User_AtlasTransform_NonLinear";
    log Info ("     User given non-linear tranform: " +:+ cfg_str nonlin)
  else mret tt.

(** [log_build_environment]; the user name is asked with
    [get_stdout(['whoami'])], outside of [run] *)
Definition log_build_environment (st : settings) : M unit :=
  log Info (newline +:+ "---### Environment Settings ###---");;
  f ← get_fs;
  log Info ("Username: " +:+ remove_char "010" (get_stdout ["whoami"] f));;
  log Info system_info;;
  log Info (ciftify_version "ciftify_recon_all.py");;
  log Info wb_command_version;;
  log Info freesurfer_version;;
  log Info fsl_version;;
  log Info ("---### End of Environment Settings ###---" +:+ newline).

(** [pars_recon_all_logs] *)
Definition pars_recon_all_logs (fs_dir : string) : M string :=
  f ← get_fs;
  let fl := read_fslog fs_dir f in
  let sep := newline +:+ "    " in
  let freesurfer_info :=
    "recon_all was run " +:+ fslog_start fl +:+ " with settings:" +:+ sep
    +:+ "Build Stamp: " +:+ fslog_build fl +:+ sep
    +:+ "Version parsed as: " +:+ fslog_version fl +:+ sep
    +:+ "CMD args: " +:+ fslog_cmdargs fl +:+ sep in
  log Info freesurfer_info;;
  (if (0 <? String.length (fslog_status fl))%nat then log Warning (fslog_status fl)
   else mret tt);;
  mret (fslog_version fl).

(** [l.remove(x)]: drops the first occurrence *)
Fixpoint list_remove (x : string) (l : list string) : list string :=
  match l with
  | [] => []
  | y :: l' => if String.eqb x y then l' else y :: list_remove x l'
  end.

(** [define_expected_labels] *)
Definition define_expected_labels (fs_version : string) : list string :=
  let expected_labels := ["aparc"; "aparc.a2009s"; "BA"; "aparc.DKTatlas"; "BA_exvivo"] in
  let expected_labels :=
    if String.eqb fs_version "v6.0.0" then list_remove "BA" expected_labels
    else expected_labels in
  if contains "v5." fs_version
  then list_remove "BA_exvivo" (list_remove "aparc.DKTatlas" expected_labels)
  else expected_labels.

(** [meshes[name]] *)
Definition get_mesh (meshes : list (string * mesh)) (name : string) : M mesh :=
  match List.find (fun kv => String.eqb (fst kv) name) meshes with
  | Some kv => mret (snd kv)
  | None => raise (KeyError name)
  end.

(** [reg_settings[key]] read as a path component *)
Definition reg_get (reg_settings : gmap string cfgval) (key : string) : M string :=
  v ← getitem reg_settings key; mret (cfg_str v).

(** [create_output_directories] *)
Definition create_output_directories (meshes : list (string * mesh))
  (xfms_dir rois_dir results_dir : string) : M unit :=
  for_each meshes (fun kv =>
    make_dir (Folder (snd kv)) DRYRUN true;;
    make_dir (tmpdir (snd kv)) DRYRUN true);;
  make_dir xfms_dir DRYRUN false;;
  make_dir rois_dir DRYRUN false;;
  make_dir results_dir DRYRUN false.

(** [os.symlink(target, link)] *)
Definition os_symlink (target link : string) : M unit :=
  f ← get_fs;
  if path_exists f link then raise (OSError link)
  else set_fs (<[link := Link target]> f).

(** [link_to_template_file] *)
Definition link_to_template_file (st : settings) (subject_file global_file via_file : string)
  : M unit :=
  if no_symlinks st then
    run ["cp"; global_file; subject_file] DRYRUN;; mret tt
  else
    let via_folder := join (work_dir (base st)) ["zz_templates"] in
    let via_path := join via_folder [via_file] in
    f ← get_fs;
    (if negb (path_isfile f via_path) then
       (if negb (path_exists f via_folder) then
          run ["mkdir"; "-p"; via_folder] DRYRUN;; mret tt
        else mret tt);;
       run ["cp"; global_file; via_path] DRYRUN;; mret tt
     else mret tt);;
    if negb DRYRUN then
      os_symlink (relpath via_path (dirname subject_file)) subject_file
    else mret tt.

(** *** Step 1: conversion from FreeSurfer format *)

(** [resample_freesurfer_mgz] *)
Definition resample_freesurfer_mgz (T1w_nii freesurfer_mgz image_nii : string) : M unit :=
  run ["mri_convert"; "-rt"; "nearest"; "-rl"; T1w_nii; freesurfer_mgz; image_nii] DRYRUN;;
  mret tt.

(** [convert_freesurfer_T1] *)
Definition convert_freesurfer_T1 (fs_dir T1w_nii : string) : M unit :=
  let fs_T1 := join fs_dir ["mri"; "T1.mgz"] in
  f ← get_fs;
  (if negb (path_exists f fs_T1) then
     log Error ("Cannot find freesurfer T1 " +:+ fs_T1 +:+ ", exiting");;
     sys_exit FsT1Missing
   else mret tt);;
  run ["mri_convert"; fs_T1; T1w_nii] DRYRUN;;
  run ["fslreorient2std"; T1w_nii; T1w_nii] DRYRUN;;
  mret tt.

(** [convert_freesurfer_mgz] *)
Definition convert_freesurfer_mgz (image_name T1w_nii hcp_templates freesurfer_folder
  out_dir : string) : M unit :=
  let freesurfer_mgz := join freesurfer_folder ["mri"; image_name +:+ ".mgz"] in
  f ← get_fs;
  if negb (path_isfile f freesurfer_mgz) then
    if String.eqb freesurfer_mgz "wmparc.mgz" then
      log Error (freesurfer_mgz +:+ " not found, exiting.");;
      sys_exit WmparcMissing
    else
      log Warning (freesurfer_mgz +:+ " not found")
  else
    let image_nii := join out_dir [image_name +:+ ".nii.gz"] in
    resample_freesurfer_mgz T1w_nii freesurfer_mgz image_nii;;
    run ["wb_command"; "-logging"; "SEVERE"; "-volume-label-import"; image_nii;
         join hcp_templates ["hcp_config"; "FreeSurferAllLut.txt"];
         image_nii; "-drop-unused-labels"] DRYRUN;;
    mret tt.

(** [convert_T1_and_freesurfer_inputs] *)
Definition convert_T1_and_freesurfer_inputs (T1w_nii : string) (s : subject)
  (hcp_templates : string) (T2_raw : option string) : M unit :=
  log Info (section_header "Converting T1wImage and Segmentations from freesurfer");;
  convert_freesurfer_T1 (fs_folder s) T1w_nii;;
  for_each ["wmparc"; "aparc.a2009s+aseg"; "aparc+aseg"] (fun image =>
    convert_freesurfer_mgz image T1w_nii hcp_templates (fs_folder s) (T1w_dir s));;
  if truthy T2_raw then
    let T2w_nii := join (T1w_dir s) ["T2w.nii.gz"] in
    resample_freesurfer_mgz T1w_nii (default "" T2_raw) T2w_nii
  else mret tt.

(** [make_brain_mask_from_wmparc] *)
Definition make_brain_mask_from_wmparc (wmparc_nii brain_mask : string) : M unit :=
  run ["fslmaths"; wmparc_nii; "-bin"; "-dilD"; "-dilD"; "-dilD"; "-ero"; "-ero";
       brain_mask] DRYRUN;;
  run ["wb_command"; "-volume-fill-holes"; brain_mask; brain_mask] false;;
  run ["fslmaths"; brain_mask; "-bin"; brain_mask] false;;
  mret tt.

(** [mask_T1w_image] *)
Definition mask_T1w_image (T1w_image brain_mask T1w_brain : string) : M unit :=
  run ["fslmaths"; T1w_image; "-mul"; brain_mask; T1w_brain] false;; mret tt.

(** [prepare_T1_image] *)
Definition prepare_T1_image (wmparc T1w_nii : string) (reg_settings : gmap string cfgval)
  : M unit :=
  src ← reg_get reg_settings "src_dir";
  bm ← reg_get reg_settings "BrainMask";
  let T1w_brain_mask := join src [bm] in
  src' ← reg_get reg_settings "src_dir";
  tb ← reg_get reg_settings "T1wBrain";
  let T1w_brain_nii := join src' [tb] in
  log Info (section_header "Creating brainmask from freesurfer wmparc segmentation");;
  make_brain_mask_from_wmparc wmparc T1w_brain_mask;;
  mask_T1w_image T1w_nii T1w_brain_mask T1w_brain_nii.

(** [run_T1_FNIRT_registration] *)
Definition run_T1_FNIRT_registration (reg_settings : gmap string cfgval) (temp_dir : string)
  : M unit :=
  src_dir ← reg_get reg_settings "src_dir";
  T1wBrain ← reg_get reg_settings "T1wBrain";
  standard_T1wBrain ← reg_get reg_settings "standard_T1wBrain";
  xfms_dir ← reg_get reg_settings "xfms_dir";
  AtlasTransform_Linear ← reg_get reg_settings "AtlasTransform_Linear";
  standard_BrainMask ← reg_get reg_settings "standard_BrainMask";
  AtlasTransform_NonLinear ← reg_get reg_settings "AtlasTransform_NonLinear";
  FNIRTConfig ← reg_get reg_settings "FNIRTConfig";
  InverseAtlasTransform_NonLinear ← reg_get reg_settings "InverseAtlasTransform_NonLinear";
  standard_T1wImage ← reg_get reg_settings "standard_T1wImage";
  T1wImg ← reg_get reg_settings "T1wImage";
  dest_dir ← reg_get reg_settings "dest_dir";
  User_AtlasTransform_Linear ← getitem reg_settings "User_AtlasTransform_Linear";
  User_AtlasTransform_NonLinear ← getitem reg_settings "User_AtlasTransform_NonLinear";
  let T1w2_standard_linear := join temp_dir ["T1w2StandardLinearImage.nii.gz"] in
  (if cfg_truthy User_AtlasTransform_Linear then
     run ["cp"; cfg_str User_AtlasTransform_Linear; join xfms_dir [AtlasTransform_Linear]]
         false;;
     run ["cp"; cfg_str User_AtlasTransform_NonLinear;
          join xfms_dir [AtlasTransform_NonLinear]] false;;
     mret tt
   else
     run ["flirt"; "-interp"; "spline"; "-dof"; "12";
          "-in"; join src_dir [T1wBrain]; "-ref"; standard_T1wBrain;
          "-omat"; join xfms_dir [AtlasTransform_Linear];
          "-o"; T1w2_standard_linear] DRYRUN;;
     run ["fnirt"; "--in=" +:+ T1w2_standard_linear;
          "--ref=" +:+ standard_T1wImage;
          "--refmask=" +:+ standard_BrainMask;
          "--fout=" +:+ join xfms_dir [AtlasTransform_NonLinear];
          "--logout=" +:+ join xfms_dir ["NonlinearReg_fromlinear.log"];
          "--config=" +:+ FNIRTConfig] DRYRUN;;
     mret tt);;
  run ["invwarp"; "-w"; join xfms_dir [AtlasTransform_NonLinear];
       "-o"; join xfms_dir [InverseAtlasTransform_NonLinear];
       "-r"; standard_T1wImage] DRYRUN;;
  run ["applywarp"; "--rel"; "--interp=trilinear";
       "-i"; join src_dir [T1wImg];
       "-r"; standard_T1wImage; "-w"; join xfms_dir [AtlasTransform_NonLinear];
       "--premat=" +:+ join xfms_dir [AtlasTransform_Linear];
       "-o"; join dest_dir [T1wImg]] DRYRUN;;
  mret tt.

(** [apply_nonlinear_warp_to_nifti_rois] *)
Definition apply_nonlinear_warp_to_nifti_rois (image : string)
  (reg_settings : gmap string cfgval) (hcp_templates : string) (import_labels : bool)
  : M unit :=
  src_dir ← reg_get reg_settings "src_dir";
  let image_src := join src_dir [image +:+ ".nii.gz"] in
  let fs_labels := join hcp_templates ["hcp_config"; "FreeSurferAllLut.txt"] in
  f ← get_fs;
  if path_isfile f image_src then
    dest_dir ← reg_get reg_settings "dest_dir";
    let image_dest := join dest_dir [image +:+ ".nii.gz"] in
    dest_dir' ← reg_get reg_settings "dest_dir";
    T1wImg ← reg_get reg_settings "T1wImage";
    xfms_dir ← reg_get reg_settings "xfms_dir";
    nonlin ← reg_get reg_settings "AtlasTransform_NonLinear";
    xfms_dir' ← reg_get reg_settings "xfms_dir";
    lin ← reg_get reg_settings "AtlasTransform_Linear";
    run ["applywarp"; "--rel"; "--interp=nn";
         "-i"; image_src;
         "-r"; join dest_dir' [T1wImg];
         "-w"; join xfms_dir [nonlin];
         "--premat=" +:+ join xfms_dir' [lin];
         "-o"; image_dest] DRYRUN;;
    if import_labels then
      run ["wb_command"; "-volume-label-import"; "-logging"; "SEVERE";
           image_dest; fs_labels; image_dest; "-drop-unused-labels"] DRYRUN;;
      mret tt
    else mret tt
  else mret tt.

(** [convert_inputs_to_MNI_space] *)
Definition convert_inputs_to_MNI_space (reg_settings : gmap string cfgval)
  (hcp_templates temp_dir : string) (use_t2 : option string) : M unit :=
  log Info (section_header "Registering T1wImage to MNI template using FSL FNIRT");;
  run_T1_FNIRT_registration reg_settings temp_dir;;
  log Info (section_header "Applying MNI transform to label files");;
  for_each ["wmparc"; "aparc.a2009s+aseg"; "aparc+aseg"] (fun image =>
    apply_nonlinear_warp_to_nifti_rois image reg_settings hcp_templates true);;
  apply_nonlinear_warp_to_nifti_rois "brainmask_fs" reg_settings hcp_templates false;;
  if truthy use_t2 then
    apply_nonlinear_warp_to_nifti_rois "T2w" reg_settings hcp_templates false
  else mret tt.

(** [mesh[img_type]]: a descriptor holds the key 'T1wImage' *)
Definition mesh_image (m : mesh) (img_type : string) : M string :=
  if String.eqb img_type "T1wImage" then mret (T1wImage m)
  else raise (KeyError img_type).

(** [add_anat_images_to_spec_files] *)
Definition add_anat_images_to_spec_files (meshes : list (string * mesh))
  (subject_id img_type : string) : M unit :=
  for_each meshes (fun kv =>
    let m := snd kv in
    f ← get_fs;
    img ← mesh_image m img_type;
    run ["wb_command"; "-add-to-spec-file";
         realpath f (spec_file subject_id m);
         "INVALID"; realpath f img] DRYRUN;;
    mret tt).

(** [create_cifti_subcortical_ROIs] *)
Definition create_cifti_subcortical_ROIs (atlas_space_folder : string) (st : settings)
  (temp_dir : string) : M unit :=
  let freesurfer_labels := join (ciftify_data_dir st) ["hcp_config"; "FreeSurferAllLut.txt"] in
  let grayord_space_dir := join (ciftify_data_dir st) ["91282_Greyordinates"] in
  let subcortical_gray_labels :=
    join (ciftify_data_dir st) ["hcp_config"; "FreeSurferSubcorticalLabelTableLut.txt"] in
  for_each (grayord_res (base st)) (fun res =>
    let atlas_ROIs := join atlas_space_folder ["ROIs"; "Atlas_ROIs." +:+ res +:+ ".nii.gz"] in
    let wmparc_ROIs := join temp_dir ["wmparc." +:+ res +:+ ".nii.gz"] in
    let ROIs_nii := join atlas_space_folder ["ROIs"; "ROIs." +:+ res +:+ ".nii.gz"] in
    link_to_template_file st atlas_ROIs
      (join grayord_space_dir ["Atlas_ROIs." +:+ res +:+ ".nii.gz"])
      ("Atlas_ROIs." +:+ res +:+ ".nii.gz");;
    run ["applywarp"; "--interp=nn"; "-i"; join atlas_space_folder ["wmparc.nii.gz"];
         "-r"; atlas_ROIs; "-o"; wmparc_ROIs] DRYRUN;;
    run ["wb_command"; "-logging"; "SEVERE"; "-volume-label-import"; wmparc_ROIs;
         freesurfer_labels; wmparc_ROIs; "-drop-unused-labels"] DRYRUN;;
    run ["wb_command"; "-logging"; "SEVERE"; "-volume-label-import"; wmparc_ROIs;
         subcortical_gray_labels; ROIs_nii; "-discard-others"] DRYRUN;;
    mret tt).

(** the field after the fourth '=' of a line of mri_info, without blanks *)
Definition cras_field (line : string) : M string :=
  match split_on "=" line !! 4%nat with
  | Some bits => mret (remove_char " " bits)
  | None => raise IndexError
  end.

(** the loop of [write_cras_file] over the lines of mri_info *)
Fixpoint cras_scan (lines : list string) (x y z : option string)
  : M (option string * option string * option string) :=
  match lines with
  | [] => mret (x, y, z)
  | line :: rest =>
      if contains "c_r" line then v ← cras_field line; cras_scan rest (Some v) y z
      else if contains "c_a" line then v ← cras_field line; cras_scan rest x (Some v) z
      else if contains "c_s" line then v ← cras_field line; cras_scan rest x y (Some v)
      else cras_scan rest x y z
  end.

(** a local variable that may not have been assigned *)
Definition local_var (name : string) (v : option string) : M string :=
  match v with
  | Some s => mret s
  | None => raise (NameError name)
  end.

(** [cfile.write(text)] on a file opened for writing *)
Definition file_write (p text : string) : M unit :=
  f ← get_fs;
  match f !! p with
  | Some (File content) => set_fs (<[p := File (content +:+ text)]> f)
  | _ => set_fs (<[p := File text]> f)
  end.

(** [write_cras_file]; the file is opened (and emptied) before the first
    line is formatted *)
Definition write_cras_file (freesurfer_folder cras_mat : string) : M unit :=
  f ← get_fs;
  let mri_info :=
    get_stdout ["mri_info"; join freesurfer_folder ["mri"; "brain.finalsurfs.mgz"]] f in
  '(x, y, z) ← cras_scan (split_on "010" mri_info) None None None;
  f ← get_fs;
  set_fs (<[cras_mat := File ""]> f);;
  matrix_x ← local_var "matrix_x" x;
  file_write cras_mat ("1 0 0 " +:+ matrix_x +:+ newline);;
  matrix_y ← local_var "matrix_y" y;
  file_write cras_mat ("0 1 0 " +:+ matrix_y +:+ newline);;
  matrix_z ← local_var "matrix_z" z;
  file_write cras_mat ("0 0 1 " +:+ matrix_z +:+ newline);;
  file_write cras_mat ("0 0 0 1{}" +:+ newline).

(** [convert_freesurfer_annot] *)
Definition convert_freesurfer_annot (subject_id label_name fs_dir : string)
  (dest_mesh_settings : mesh) : M unit :=
  for_each hemispheres (fun '(hemisphere, structure) =>
    let fs_annot :=
      join fs_dir ["label"; lower hemisphere +:+ "h." +:+ label_name +:+ ".annot"] in
    f ← get_fs;
    if path_exists f fs_annot then
      let label_gii := label_file subject_id label_name hemisphere dest_mesh_settings in
      run ["mris_convert"; "--annot"; fs_annot;
           join fs_dir ["surf"; lower hemisphere +:+ "h.white"];
           label_gii] DRYRUN;;
      run ["wb_command"; "-set-structure"; label_gii; structure] DRYRUN;;
      run ["wb_command"; "-set-map-names"; label_gii;
           "-map"; "1"; subject_id +:+ "_" +:+ hemisphere +:+ "_" +:+ label_name] DRYRUN;;
      run ["wb_command"; "-gifti-label-add-prefix";
           label_gii; hemisphere +:+ "_"; label_gii] DRYRUN;;
      mret tt
    else mret tt).

(** [apply_nonlinear_warp_to_surface] *)
Definition apply_nonlinear_warp_to_surface (subject_id surface : string)
  (reg_settings : gmap string cfgval) (meshes : list (string * mesh)) : M unit :=
  src_name ← reg_get reg_settings "src_mesh";
  src_mesh_settings ← get_mesh meshes src_name;
  dest_name ← reg_get reg_settings "dest_mesh";
  dest_mesh_settings ← get_mesh meshes dest_name;
  xfms_dir ← reg_get reg_settings "xfms_dir";
  for_each hemispheres (fun '(hemisphere, structure) =>
    let surf_src := surf_file subject_id surface hemisphere src_mesh_settings in
    let surf_dest := surf_file subject_id surface hemisphere dest_mesh_settings in
    lin ← reg_get reg_settings "AtlasTransform_Linear";
    std ← reg_get reg_settings "standard_T1wImage";
    run ["wb_command"; "-surface-apply-affine"; surf_src;
         join xfms_dir [lin];
         surf_dest; "-flirt"; T1wImage src_mesh_settings; std] false;;
    inv ← reg_get reg_settings "InverseAtlasTransform_NonLinear";
    nonlin ← reg_get reg_settings "AtlasTransform_NonLinear";
    run ["wb_command"; "-surface-apply-warpfield"; surf_dest;
         join xfms_dir [inv];
         surf_dest; "-fnirt"; join xfms_dir [nonlin]] false;;
    run ["wb_command"; "-add-to-spec-file"; spec_file subject_id dest_mesh_settings;
         structure; surf_dest] false;;
    mret tt).

(** [convert_freesurfer_surface] *)
Definition convert_freesurfer_surface (subject_id surface surface_type fs_subject_dir : string)
  (dest_mesh_settings : mesh) (surface_secondary_type cras_mat : option string)
  (add_to_spec : bool) : M unit :=
  for_each hemispheres (fun '(hemisphere, structure) =>
    let surf_fs := join fs_subject_dir ["surf"; lower hemisphere +:+ "h." +:+ surface] in
    let surf_native := surf_file subject_id surface hemisphere dest_mesh_settings in
    run ["mris_convert"; surf_fs; surf_native] DRYRUN;;
    let set_structure_command :=
      (["wb_command"; "-set-structure"; surf_native; structure; "-surface-type"; surface_type]
       ++ (if truthy surface_secondary_type
           then ["-surface-secondary-type"; default "" surface_secondary_type]
           else []))%list in
    run set_structure_command DRYRUN;;
    (if truthy cras_mat then
       run ["wb_command"; "-surface-apply-affine"; surf_native;
            default "" cras_mat; surf_native] DRYRUN;;
       mret tt
     else mret tt);;
    if add_to_spec then
      run ["wb_command"; "-add-to-spec-file"; spec_file subject_id dest_mesh_settings;
           structure; surf_native] DRYRUN;;
      mret tt
    else mret tt).

(** [convert_FS_surfaces_to_gifti] *)
Definition convert_FS_surfaces_to_gifti (subject_id freesurfer_subject_dir : string)
  (meshes : list (string * mesh)) (reg_settings : gmap string cfgval) (temp_dir : string)
  : M unit :=
  log Info (section_header "Converting freesurfer surfaces to gifti");;
  let cras_mat := join temp_dir ["cras.mat"] in
  write_cras_file freesurfer_subject_dir cras_mat;;
  for_each [("white", "GRAY_WHITE"); ("pial", "PIAL")] (fun '(surface, secondary_type) =>
    t1 ← get_mesh meshes "T1wNative";
    convert_freesurfer_surface subject_id surface "ANATOMICAL" freesurfer_subject_dir t1
      (Some secondary_type) (Some cras_mat) true;;
    apply_nonlinear_warp_to_surface subject_id surface reg_settings meshes);;
  an ← get_mesh meshes "AtlasSpaceNative";
  convert_freesurfer_surface subject_id "sphere" "SPHERICAL" freesurfer_subject_dir an
    None None true;;
  an' ← get_mesh meshes "AtlasSpaceNative";
  convert_freesurfer_surface subject_id "sphere.reg" "SPHERICAL" freesurfer_subject_dir an'
    None None false.

(** [convert_freesurfer_maps] *)
Definition convert_freesurfer_maps (subject_id : string) (map_dict : dscalar)
  (fs_dir : string) (dest_mesh_settings : mesh) : M unit :=
  for_each hemispheres (fun '(hemisphere, structure) =>
    let map_gii := metric_file subject_id (mapname map_dict) hemisphere dest_mesh_settings in
    fsn ← match fsname map_dict with
          | Some n => mret n
          | None => raise (KeyError "fsname")
          end;
    run ["mris_convert"; "-c";
         join fs_dir ["surf"; lower hemisphere +:+ "h." +:+ fsn];
         join fs_dir ["surf"; lower hemisphere +:+ "h.white"];
         map_gii] DRYRUN;;
    run ["wb_command"; "-set-structure"; map_gii; structure] DRYRUN;;
    run ["wb_command"; "-metric-math"; quoted (show negate_expr);
         map_gii; "-var"; "var"; map_gii] DRYRUN;;
    run ["wb_command"; "-set-map-names"; map_gii;
         "-map"; "1"; subject_id +:+ "_" +:+ hemisphere +:+ map_postfix map_dict] DRYRUN;;
    (if String.eqb (mapname map_dict) "thickness" then
       run ["wb_command"; "-metric-math"; quoted (show abs_thickness_expr);
            map_gii; "-var"; "thickness"; map_gii] DRYRUN;;
       mret tt
     else mret tt);;
    run ["wb_command"; "-metric-palette"; map_gii; palette_mode map_dict;
         palette_options map_dict] DRYRUN;;
    mret tt).

(** *** Step 2.0: functions called several times *)

(** [make_midthickness_surfaces] *)
Definition make_midthickness_surfaces (subject_id : string) (mesh_settings : mesh) : M unit :=
  for_each hemispheres (fun '(hemisphere, structure) =>
    let mid_surf := surf_file subject_id "midthickness" hemisphere mesh_settings in
    run ["wb_command"; "-surface-average"; mid_surf;
         "-surf"; surf_file subject_id "white" hemisphere mesh_settings;
         "-surf"; surf_file subject_id "pial" hemisphere mesh_settings] DRYRUN;;
    run ["wb_command"; "-set-structure"; mid_surf; structure;
         "-surface-type"; "ANATOMICAL"; "-surface-secondary-type"; "MIDTHICKNESS"] DRYRUN;;
    run ["wb_command"; "-add-to-spec-file"; spec_file subject_id mesh_settings;
         structure; mid_surf] DRYRUN;;
    mret tt).

(** [make_inflated_surfaces]; [iterations_scale] is given as printed by [str] *)
Definition make_inflated_surfaces (subject_id : string) (mesh_settings : mesh)
  (iterations_scale : string) : M unit :=
  for_each hemispheres (fun '(hemisphere, structure) =>
    let infl_surf := surf_file subject_id "inflated" hemisphere mesh_settings in
    let vinfl_surf := surf_file subject_id "very_inflated" hemisphere mesh_settings in
    run ["wb_command"; "-surface-generate-inflated";
         surf_file subject_id "midthickness" hemisphere mesh_settings;
         infl_surf; vinfl_surf; "-iterations-scale"; iterations_scale] DRYRUN;;
    run ["wb_command"; "-add-to-spec-file"; spec_file subject_id mesh_settings;
         structure; infl_surf] DRYRUN;;
    run ["wb_command"; "-add-to-spec-file"; spec_file subject_id mesh_settings;
         structure; vinfl_surf] DRYRUN;;
    mret tt).

(** [create_dscalar] *)
Definition create_dscalar (subject_id : string) (mesh_settings : mesh) (dscalar_entry : dscalar)
  : M unit :=
  let dscalar_file :=
    join (Folder mesh_settings)
      [subject_id +:+ "." +:+ mapname dscalar_entry +:+ "." +:+ meshname mesh_settings
       +:+ ".dscalar.nii"] in
  let left_metric := metric_file subject_id (mapname dscalar_entry) "L" mesh_settings in
  let right_metric := metric_file subject_id (mapname dscalar_entry) "R" mesh_settings in
  (if mask_medialwall dscalar_entry then
     run ["wb_command"; "-cifti-create-dense-scalar"; dscalar_file;
          "-left-metric"; left_metric; "-roi-left";
          medial_wall_roi_file subject_id "L" mesh_settings;
          "-right-metric"; right_metric; "-roi-right";
          medial_wall_roi_file subject_id "R" mesh_settings] DRYRUN
   else
     run ["wb_command"; "-cifti-create-dense-scalar"; dscalar_file;
          "-left-metric"; left_metric; "-right-metric"; right_metric] DRYRUN);;
  run ["wb_command"; "-set-map-names"; dscalar_file;
       "-map"; "1"; subject_id +:+ map_postfix dscalar_entry] DRYRUN;;
  run ["wb_command"; "-cifti-palette"; dscalar_file;
       palette_mode dscalar_entry; dscalar_file; palette_options dscalar_entry] DRYRUN;;
  mret tt.

(** [create_dlabel] *)
Definition create_dlabel (subject_id : string) (mesh_settings : mesh) (label_name : string)
  : M unit :=
  let dlabel_file :=
    join (Folder mesh_settings)
      [subject_id +:+ "." +:+ label_name +:+ "." +:+ meshname mesh_settings
       +:+ ".dlabel.nii"] in
  let left_label := label_file subject_id label_name "L" mesh_settings in
  let right_label := label_file subject_id label_name "R" mesh_settings in
  f ← get_fs;
  if negb (path_exists f left_label) then
    log Warning ("label file " +:+ left_label +:+ " does not exist. Skipping dlabel creation.")
  else
    run ["wb_command"; "-cifti-create-label"; dlabel_file;
         "-left-label"; left_label; "-roi-left";
         medial_wall_roi_file subject_id "L" mesh_settings;
         "-right-label"; right_label; "-roi-right";
         medial_wall_roi_file subject_id "R" mesh_settings] DRYRUN;;
    run ["wb_command"; "-set-map-names"; dlabel_file; "-map"; "1";
         subject_id +:+ "_" +:+ label_name] DRYRUN;;
    mret tt.

(** [add_dense_maps_to_spec_file] *)
Definition add_dense_maps_to_spec_file (subject_id : string) (mesh_settings : mesh)
  (dscalar_types expected_labels : list string) : M unit :=
  let maps_folder :=
    match DenseMapsFolder mesh_settings with
    | Some d => d
    | None => Folder mesh_settings
    end in
  for_each dscalar_types (fun ds =>
    f ← get_fs;
    run ["wb_command"; "-add-to-spec-file";
         realpath f (spec_file subject_id mesh_settings); "INVALID";
         realpath f (join maps_folder
           [subject_id +:+ "." +:+ ds +:+ "." +:+ meshname mesh_settings +:+ ".dscalar.nii"])]
        DRYRUN;;
    mret tt);;
  for_each expected_labels (fun label_name =>
    let file_name :=
      subject_id +:+ "." +:+ label_name +:+ "." +:+ meshname mesh_settings +:+ ".dlabel.nii" in
    f ← get_fs;
    let dlabel_file := realpath f (join maps_folder [file_name]) in
    if negb (path_exists f dlabel_file) then
      log Debug ("dlabel file " +:+ dlabel_file +:+ " does not exist, skipping")
    else
      run ["wb_command"; "-add-to-spec-file";
           realpath f (spec_file subject_id mesh_settings); "INVALID"; dlabel_file] DRYRUN;;
      mret tt).

(** [copy_colin_flat_and_add_to_spec] *)
Definition copy_colin_flat_and_add_to_spec (subject_id : string) (st : settings)
  (mesh_settings : mesh) : M unit :=
  for_each hemispheres (fun '(hemisphere, structure) =>
    let colin_src :=
      join (ciftify_data_dir st)
        ["standard_mesh_atlases";
         "colin.cerebral." +:+ hemisphere +:+ ".flat." +:+ meshname mesh_settings
         +:+ ".surf.gii"] in
    f ← get_fs;
    if negb (path_exists f colin_src) then mret tt
    else
      let colin_dest := surf_file subject_id "flat" hemisphere mesh_settings in
      link_to_template_file st colin_dest colin_src (basename colin_src);;
      run ["wb_command"; "-add-to-spec-file"; spec_file subject_id mesh_settings;
           structure; colin_dest] DRYRUN;;
      mret tt).

(** [make_dense_map] *)
Definition make_dense_map (subject_id : string) (m : mesh) (ds : list (string * dscalar))
  (expected_labels : list string) : M unit :=
  for_each expected_labels (fun map_type => create_dlabel subject_id m map_type);;
  for_each ds (fun kv => create_dscalar subject_id m (snd kv));;
  add_dense_maps_to_spec_file subject_id m (map fst ds) expected_labels.

(** *** Step 2.1: working with the native mesh *)

(** [copy_sphere_mesh_from_template] *)
Definition copy_sphere_mesh_from_template (st : settings) (mesh_settings : mesh) : M unit :=
  let mesh_name := meshname mesh_settings in
  for_each hemispheres (fun '(hemisphere, structure) =>
    let sphere_basename :=
      if String.eqb mesh_name "164k_fs_LR"
      then "fsaverage." +:+ hemisphere +:+ "_LR.spherical_std." +:+ mesh_name +:+ ".surf.gii"
      else hemisphere +:+ ".sphere." +:+ mesh_name +:+ ".surf.gii" in
    let sphere_src := join (ciftify_data_dir st) ["standard_mesh_atlases"; sphere_basename] in
    let sphere_dest := surf_file (id (subj st)) "sphere" hemisphere mesh_settings in
    link_to_template_file st sphere_dest sphere_src sphere_basename;;
    run ["wb_command"; "-add-to-spec-file"; spec_file (id (subj st)) mesh_settings;
         structure; sphere_dest] DRYRUN;;
    mret tt).

(** [copy_atlas_roi_from_template] *)
Definition copy_atlas_roi_from_template (st : settings) (mesh_settings : mesh) : M unit :=
  for_each ["L"; "R"] (fun hemisphere =>
    let roi_basename :=
      hemisphere +:+ ".atlasroi." +:+ meshname mesh_settings +:+ ".shape.gii" in
    let roi_src := join (ciftify_data_dir st) ["standard_mesh_atlases"; roi_basename] in
    f ← get_fs;
    if path_exists f roi_src then
      let roi_dest := medial_wall_roi_file (id (subj st)) hemisphere mesh_settings in
      link_to_template_file st roi_dest roi_src roi_basename
    else mret tt).

(** [medial_wall_rois_from_thickness_maps] *)
Definition medial_wall_rois_from_thickness_maps (subject_id : string) (mesh_settings : mesh)
  : M unit :=
  for_each hemispheres (fun '(hemisphere, structure) =>
    let native_roi := medial_wall_roi_file subject_id hemisphere mesh_settings in
    let midthickness_gii := surf_file subject_id "midthickness" hemisphere mesh_settings in
    run ["wb_command"; "-metric-math"; quoted (show thickness_roi_expr); native_roi;
         "-var"; "thickness";
         metric_file subject_id "thickness" hemisphere mesh_settings] DRYRUN;;
    run ["wb_command"; "-metric-fill-holes"; midthickness_gii; native_roi; native_roi]
        DRYRUN;;
    run ["wb_command"; "-metric-remove-islands"; midthickness_gii; native_roi; native_roi]
        DRYRUN;;
    run ["wb_command"; "-set-map-names"; native_roi; "-map"; "1";
         subject_id +:+ "_" +:+ hemisphere +:+ "_ROI"] DRYRUN;;
    mret tt).

(** [process_native_meshes] *)
Definition process_native_meshes (s : subject) (meshes : list (string * mesh))
  (ds : list (string * dscalar)) (expected_labels : list string) : M unit :=
  log Info (section_header "Creating midthickness, inflated and very_inflated surfaces");;
  for_each ["T1wNative"; "AtlasSpaceNative"] (fun mesh_name =>
    m ← get_mesh meshes mesh_name;
    make_midthickness_surfaces (id s) m;;
    m' ← get_mesh meshes mesh_name;
    make_inflated_surfaces (id s) m' "2.5");;
  log Info (section_header "Converting Freesurfer measures to gifti");;
  for_each expected_labels (fun label_name =>
    an ← get_mesh meshes "AtlasSpaceNative";
    convert_freesurfer_annot (id s) label_name (fs_folder s) an);;
  for_each (map snd ds) (fun map_dict =>
    match fsname map_dict with
    | None => mret tt
    | Some _ =>
        an ← get_mesh meshes "AtlasSpaceNative";
        convert_freesurfer_maps (id s) map_dict (fs_folder s) an
    end);;
  an ← get_mesh meshes "AtlasSpaceNative";
  medial_wall_rois_from_thickness_maps (id s) an.

(** *** Step 3.0: surface registration *)

(** [get_reg_sphere_names] *)
Definition get_reg_sphere_names : string * string :=
  let FS_reg_sphere_name := "sphere.reg.reg_LR" in
  let MSMSulc_reg_sphere_name := "sphere.MSMSulc" in
  (FS_reg_sphere_name, MSMSulc_reg_sphere_name).

(** Modelled from the spec: [ciftify.utils.TempDir], a scratch directory
    that exists for the duration of the block and is removed when the block
    is left, however it is left. *)
Definition with_TempDir {A} (body : string -> M A) : M A :=
  fun w =>
    let d := mkdtemp (fs w) in
    let clean (w' : world) :=
      wrote (filter (fun kv => underb d (fst kv) = false) (fs w')) w' in
    match body d (wrote (<[d := Dir]> (fs w)) w) with
    | Done a w' => Done a (clean w')
    | Exited s w' => Exited s (clean w')
    | Raised e w' => Raised e (clean w')
    end.

(** [calc_areal_distortion_gii] *)
Definition calc_areal_distortion_gii (sphere_pre sphere_reg AD_gii_out map_prefix
  map_postfix : string) : M unit :=
  with_TempDir (fun va_tmpdir =>
    let pre_va := join va_tmpdir ["sphere_pre_va.shape.gii"] in
    let reg_va := join va_tmpdir ["sphere_reg_va.shape.gii"] in
    run ["wb_command"; "-surface-vertex-areas"; sphere_pre; pre_va] DRYRUN;;
    run ["wb_command"; "-surface-vertex-areas"; sphere_reg; reg_va] DRYRUN;;
    run ["wb_command"; "-metric-math"; quoted (show areal_distortion_expr);
         AD_gii_out; "-var"; "sphere"; pre_va; "-var"; "spherereg"; reg_va] DRYRUN;;
    run ["wb_command"; "-set-map-names"; AD_gii_out;
         "-map"; "1"; map_prefix +:+ "_Areal_Distortion_" +:+ map_postfix] DRYRUN;;
    run ["wb_command"; "-metric-palette"; AD_gii_out; "MODE_AUTO_SCALE";
         "-palette-name"; "ROY-BIG-BL"; "-thresholding";
         "THRESHOLD_TYPE_NORMAL"; "THRESHOLD_TEST_SHOW_OUTSIDE"; "-1"; "1"] DRYRUN;;
    mret tt).

(** [run_fs_reg_LR] *)
Definition run_fs_reg_LR (subject_id data_dir high_res_mesh reg_sphere : string)
  (native_mesh_settings : mesh) : M unit :=
  log Info (section_header "Concatenating Freesurfer Reg with template to get fs_LR reg");;
  let surface_atlas_dir := join data_dir ["standard_mesh_atlases"] in
  for_each ["L"; "R"] (fun hemisphere =>
    let fs_reg_sphere := surf_file subject_id reg_sphere hemisphere native_mesh_settings in
    run ["wb_command"; "-surface-sphere-project-unproject";
         surf_file subject_id "sphere.reg" hemisphere native_mesh_settings;
         join surface_atlas_dir
           ["fs_" +:+ hemisphere;
            "fsaverage." +:+ hemisphere +:+ ".sphere." +:+ high_res_mesh +:+ "k_fs_"
            +:+ hemisphere +:+ ".surf.gii"];
         join surface_atlas_dir
           ["fs_" +:+ hemisphere;
            "fs_" +:+ hemisphere +:+ "-to-fs_LR_fsaverage." +:+ hemisphere
            +:+ "_LR.spherical_std." +:+ high_res_mesh +:+ "k_fs_" +:+ hemisphere
            +:+ ".surf.gii"];
         fs_reg_sphere] DRYRUN;;
    calc_areal_distortion_gii
      (surf_file subject_id "sphere" hemisphere native_mesh_settings)
      fs_reg_sphere
      (metric_file subject_id "ArealDistortion_FS" hemisphere native_mesh_settings)
      (subject_id +:+ "_" +:+ hemisphere) "FS").

(** [run_MSMSulc_registration]; [cd] only changes the working directory *)
Definition run_MSMSulc_registration (sid data_dir : string)
  (mesh_settings : list (string * mesh)) (reg_sphere_name FS_reg_sphere msm_conf : string)
  : M unit :=
  log Info (section_header "Running MSMSulc surface registration");;
  native_settings ← get_mesh mesh_settings "AtlasSpaceNative";
  highres_settings ← get_mesh mesh_settings "HighResMesh";
  let MSMSulc_dir := join (Folder native_settings) ["MSMSulc"] in
  make_dir MSMSulc_dir DRYRUN false;;
  for_each hemispheres (fun '(hemisphere, structure) =>
    let native_sphere := surf_file sid "sphere" hemisphere native_settings in
    let fs_LR_sphere := surf_file sid FS_reg_sphere hemisphere native_settings in
    let affine_mat := join MSMSulc_dir [hemisphere +:+ ".mat"] in
    let affine_rot_gii := join MSMSulc_dir [hemisphere +:+ ".sphere_rot.surf.gii"] in
    run ["wb_command"; "-surface-affine-regression";
         native_sphere; fs_LR_sphere; affine_mat] DRYRUN;;
    run ["wb_command"; "-surface-apply-affine";
         native_sphere; affine_mat; affine_rot_gii] DRYRUN;;
    run ["wb_command"; "-surface-modify-sphere"; "-logging"; "SEVERE";
         affine_rot_gii; "100"; affine_rot_gii] DRYRUN;;
    let native_rot_sphere := surf_file sid "sphere.rot" hemisphere native_settings in
    let refsulc_metric :=
      join data_dir
        ["standard_mesh_atlases";
         hemisphere +:+ ".refsulc." +:+ meshname highres_settings +:+ ".shape.gii"] in
    run ["cp"; affine_rot_gii; native_rot_sphere] DRYRUN;;
    (if negb DRYRUN then
       run ["msm"; "--conf=" +:+ msm_conf;
            "--inmesh=" +:+ native_rot_sphere;
            "--refmesh=" +:+ surf_file sid "sphere" hemisphere highres_settings;
            "--indata=" +:+ metric_file sid "sulc" hemisphere native_settings;
            "--refdata=" +:+ refsulc_metric;
            "--out=" +:+ join MSMSulc_dir [hemisphere +:+ "."]] DRYRUN;;
       mret tt
     else mret tt);;
    let conf_log := join MSMSulc_dir [hemisphere +:+ ".logdir"; "conf"] in
    run ["cp"; msm_conf; conf_log] DRYRUN;;
    let MSMsulc_sphere := surf_file sid reg_sphere_name hemisphere native_settings in
    run ["cp"; join MSMSulc_dir [hemisphere +:+ ".sphere.reg.surf.gii"]; MSMsulc_sphere]
        DRYRUN;;
    run ["wb_command"; "-set-structure"; MSMsulc_sphere; structure] DRYRUN;;
    calc_areal_distortion_gii native_sphere MSMsulc_sphere
      (metric_file sid "ArealDistortion_MSMSulc" hemisphere native_settings)
      (sid +:+ "_" +:+ hemisphere +:+ "_") "_MSMSulc";;
    run ["wb_command"; "-surface-distortion";
         native_sphere; MSMsulc_sphere;
         metric_file sid "EdgeDistortion_MSMSulc" hemisphere native_settings;
         "-edge-method"] DRYRUN;;
    mret tt).

(** [create_reg_sphere] *)
Definition create_reg_sphere (st : settings) (subject_id : string)
  (meshes : list (string * mesh)) : M string :=
  let '(FS_reg_sphere_name, MSMSulc_reg_sphere_name) := get_reg_sphere_names in
  an ← get_mesh meshes "AtlasSpaceNative";
  run_fs_reg_LR subject_id (ciftify_data_dir st) (high_res (base st)) FS_reg_sphere_name an;;
  if String.eqb (reg_name st) "MSMSulc" then
    let reg_sphere_name := MSMSulc_reg_sphere_name in
    run_MSMSulc_registration subject_id (ciftify_data_dir st) meshes reg_sphere_name
      FS_reg_sphere_name (default "None" (msm_config st));;
    mret reg_sphere_name
  else mret FS_reg_sphere_name.

(** *** Step 4.0: post-registration native mesh *)

(** [merge_subject_medial_wall_with_atlas_template] *)
Definition merge_subject_medial_wall_with_atlas_template (subject_id high_res_mesh : string)
  (meshes : list (string * mesh)) (reg_sphere temp_dir : string) : M unit :=
  native_settings ← get_mesh meshes "AtlasSpaceNative";
  high_res_settings ← get_mesh meshes "HighResMesh";
  for_each ["L"; "R"] (fun hemisphere =>
    let atlas_roi_native_gii := metric_file subject_id "atlasroi" hemisphere native_settings in
    let native_roi := medial_wall_roi_file subject_id hemisphere native_settings in
    run ["wb_command"; "-metric-resample";
         medial_wall_roi_file subject_id hemisphere high_res_settings;
         surf_file subject_id "sphere" hemisphere high_res_settings;
         surf_file subject_id reg_sphere hemisphere native_settings;
         "BARYCENTRIC"; atlas_roi_native_gii; "-largest"] false;;
    run ["wb_command"; "-metric-math"; quoted (show merge_roi_expr);
         native_roi; "-var"; "atlas"; atlas_roi_native_gii; "-var";
         "individual"; native_roi] false;;
    mret tt).

(** [dilate_and_mask_metric] *)
Definition dilate_and_mask_metric (subject_id : string) (native_mesh_settings : mesh)
  (ds : list (string * dscalar)) : M unit :=
  for_each ds (fun '(map_name, entry) =>
    if negb (mask_medialwall entry) then mret tt
    else
      for_each ["L"; "R"] (fun hemisphere =>
        let metric_map := metric_file subject_id map_name hemisphere native_mesh_settings in
        run ["wb_command"; "-metric-dilate"; metric_map;
             surf_file subject_id "midthickness" hemisphere native_mesh_settings;
             "10"; metric_map; "-nearest"] false;;
        run ["wb_command"; "-metric-mask"; metric_map;
             medial_wall_roi_file subject_id hemisphere native_mesh_settings;
             metric_map] DRYRUN;;
        mret tt)).

(** *** Step 4.1: resampling a mesh to other spaces *)

(** [resample_surfs_and_add_to_spec] *)
Definition resample_surfs_and_add_to_spec (subject_id : string) (source_mesh dest_mesh : mesh)
  (current_sphere dest_sphere : string) (current_sphere_mesh : option mesh) : M unit :=
  let current_sphere_mesh := default source_mesh current_sphere_mesh in
  for_each ["white"; "midthickness"; "pial"] (fun surface =>
    for_each hemispheres (fun '(hemisphere, structure) =>
      let surf_in := surf_file subject_id surface hemisphere source_mesh in
      let surf_out := surf_file subject_id surface hemisphere dest_mesh in
      let current_sphere_surf :=
        surf_file subject_id current_sphere hemisphere current_sphere_mesh in
      let dest_sphere_surf := surf_file subject_id dest_sphere hemisphere dest_mesh in
      run ["wb_command"; "-surface-resample"; surf_in;
           current_sphere_surf; dest_sphere_surf; "BARYCENTRIC"; surf_out] false;;
      run ["wb_command"; "-add-to-spec-file";
           spec_file subject_id dest_mesh; structure; surf_out] false;;
      mret tt)).

(** [resample_and_mask_metric] *)
Definition resample_and_mask_metric (subject_id : string) (entry : dscalar)
  (hemisphere : string) (source_mesh dest_mesh : mesh) (current_sphere dest_sphere : string)
  : M unit :=
  let map_name := mapname entry in
  let metric_in := metric_file subject_id map_name hemisphere source_mesh in
  let metric_out := metric_file subject_id map_name hemisphere dest_mesh in
  let current_midthickness := surf_file subject_id "midthickness" hemisphere source_mesh in
  let new_midthickness := surf_file subject_id "midthickness" hemisphere dest_mesh in
  let current_sphere_surf := surf_file subject_id current_sphere hemisphere source_mesh in
  let dest_sphere_surf := surf_file subject_id dest_sphere hemisphere dest_mesh in
  if mask_medialwall entry then
    run ["wb_command"; "-metric-resample"; metric_in; current_sphere_surf;
         dest_sphere_surf; "ADAP_BARY_AREA"; metric_out;
         "-area-surfs"; current_midthickness; new_midthickness;
         "-current-roi"; medial_wall_roi_file subject_id hemisphere source_mesh] false;;
    run ["wb_command"; "-metric-mask"; metric_out;
         medial_wall_roi_file subject_id hemisphere dest_mesh; metric_out] DRYRUN;;
    mret tt
  else
    run ["wb_command"; "-metric-resample"; metric_in; current_sphere_surf;
         dest_sphere_surf; "ADAP_BARY_AREA"; metric_out;
         "-area-surfs"; current_midthickness; new_midthickness] false;;
    mret tt.

(** [resample_label] *)
Definition resample_label (subject_id label_name hemisphere : string)
  (source_mesh dest_mesh : mesh) (current_sphere dest_sphere : string) : M unit :=
  let label_in := label_file subject_id label_name hemisphere source_mesh in
  f ← get_fs;
  if path_exists f label_in then
    run ["wb_command"; "-label-resample"; label_in;
         surf_file subject_id current_sphere hemisphere source_mesh;
         surf_file subject_id dest_sphere hemisphere dest_mesh;
         "BARYCENTRIC";
         label_file subject_id label_name hemisphere dest_mesh;
         "-largest"] false;;
    mret tt
  else mret tt.

(** [resample_metric_and_label] *)
Definition resample_metric_and_label (subject_id : string) (ds : list (string * dscalar))
  (expected_labels : list string) (source_mesh dest_mesh : mesh) (current_sphere : string)
  : M unit :=
  for_each ["L"; "R"] (fun hemisphere =>
    for_each ds (fun kv =>
      resample_and_mask_metric subject_id (snd kv) hemisphere source_mesh dest_mesh
        current_sphere "sphere");;
    for_each expected_labels (fun map_name =>
      resample_label subject_id map_name hemisphere source_mesh dest_mesh
        current_sphere "sphere")).

(** [deform_to_native]; [scale] is given as printed by [str] *)
Definition deform_to_native (native_mesh dest_mesh : mesh) (ds : list (string * dscalar))
  (expected_labels : list string) (subject_id sphere scale : string) : M unit :=
  resample_surfs_and_add_to_spec subject_id native_mesh dest_mesh sphere "sphere" None;;
  make_inflated_surfaces subject_id dest_mesh scale;;
  resample_metric_and_label subject_id ds expected_labels native_mesh dest_mesh sphere;;
  make_dense_map subject_id dest_mesh ds expected_labels.

(** [populate_low_res_spec_file] *)
Definition populate_low_res_spec_file (source_mesh dest_mesh : mesh) (s : subject)
  (st : settings) (sphere : string) (expected_labels : list string) : M unit :=
  copy_atlas_roi_from_template st dest_mesh;;
  copy_sphere_mesh_from_template st dest_mesh;;
  copy_colin_flat_and_add_to_spec (id s) st dest_mesh;;
  deform_to_native source_mesh dest_mesh (dscalars st) expected_labels (id s) sphere "0.75".

(** [resample_to_native] *)
Definition resample_to_native (native_mesh dest_mesh : mesh) (st : settings)
  (subject_id sphere : string) (expected_labels : list string) (reg_sphere_mesh : mesh)
  : M unit :=
  copy_sphere_mesh_from_template st dest_mesh;;
  resample_surfs_and_add_to_spec subject_id native_mesh dest_mesh sphere "sphere"
    (Some reg_sphere_mesh);;
  make_inflated_surfaces subject_id dest_mesh "0.75";;
  add_dense_maps_to_spec_file subject_id dest_mesh (map fst (dscalars st)) expected_labels.

(** *** The workflows *)

(** [run_default_workflow] *)
Definition run_default_workflow (temp_dir : string) (st : settings)
  (meshes : list (string * mesh)) (expected_labels : list string) (fs_version : string)
  : M unit :=
  let s := subj st in
  xfms ← reg_get (registration st) "xfms_dir";
  create_output_directories meshes xfms
    (join (atlas_space_dir s) ["ROIs"]) (join (atlas_space_dir s) ["Results"]);;
  t1img ← reg_get (registration st) "T1wImage";
  let T1w_nii := join (T1w_dir s) [t1img] in
  let wmparc := join (T1w_dir s) ["wmparc.nii.gz"] in
  convert_T1_and_freesurfer_inputs T1w_nii s (ciftify_data_dir st) (use_T2 st);;
  prepare_T1_image wmparc T1w_nii (registration st);;
  convert_inputs_to_MNI_space (registration st) (ciftify_data_dir st) temp_dir (use_T2 st);;
  add_anat_images_to_spec_files meshes (id s) "T1wImage";;
  (if truthy (use_T2 st) then add_anat_images_to_spec_files meshes (id s) "T2wImage"
   else mret tt);;
  create_cifti_subcortical_ROIs (atlas_space_dir s) st temp_dir;;
  convert_FS_surfaces_to_gifti (id s) (fs_folder s) meshes (registration st) temp_dir;;
  process_native_meshes s meshes (dscalars st) expected_labels;;
  hr ← get_mesh meshes "HighResMesh";
  copy_atlas_roi_from_template st hr;;
  hr ← get_mesh meshes "HighResMesh";
  copy_sphere_mesh_from_template st hr;;
  reg_sphere ← create_reg_sphere st (id s) meshes;
  log Info (section_header "Importing HighRes Template Sphere and Medial Wall ROI");;
  merge_subject_medial_wall_with_atlas_template (id s) (high_res (base st)) meshes
    reg_sphere temp_dir;;
  an ← get_mesh meshes "AtlasSpaceNative";
  dilate_and_mask_metric (id s) an (dscalars st);;
  log Info (section_header "Creating Native Space Dense Maps");;
  an ← get_mesh meshes "AtlasSpaceNative";
  make_dense_map (id s) an (dscalars st) expected_labels;;
  t1 ← get_mesh meshes "T1wNative";
  add_dense_maps_to_spec_file (id s) t1 (map fst (dscalars st)) expected_labels;;
  hr ← get_mesh meshes "HighResMesh";
  log Info (section_header ("Resampling data from Native to " +:+ meshname hr));;
  hr ← get_mesh meshes "HighResMesh";
  copy_colin_flat_and_add_to_spec (id s) st hr;;
  an ← get_mesh meshes "AtlasSpaceNative";
  hr ← get_mesh meshes "HighResMesh";
  deform_to_native an hr (dscalars st) expected_labels (id s) reg_sphere "2.5";;
  for_each (low_res (base st)) (fun res =>
    let low_res_name := res +:+ "k_fs_LR" in
    log Info (section_header ("Resampling data from Native to " +:+ low_res_name));;
    an ← get_mesh meshes "AtlasSpaceNative";
    lr ← get_mesh meshes low_res_name;
    populate_low_res_spec_file an lr s st reg_sphere expected_labels).

(** [resampling_to_t1w_32k] *)
Definition resampling_to_t1w_32k (temp_dir : string) (st : settings)
  (meshes : list (string * mesh)) (expected_labels : list string) : M unit :=
  let s := subj st in
  let '(FS_reg_sphere_name, MSMSulc_reg_sphere_name) := get_reg_sphere_names in
  let reg_sphere :=
    if String.eqb (reg_name st) "MSMSulc" then MSMSulc_reg_sphere_name
    else FS_reg_sphere_name in
  an ← get_mesh meshes "AtlasSpaceNative";
  let reg_sphere_file := surf_file (id s) reg_sphere "L" an in
  f ← get_fs;
  (if negb (path_exists f reg_sphere_file) then
     log Critical ("Cannot find registration sphere " +:+ reg_sphere_file +:+ ", exiting");;
     sys_exit RegSphereMissing
   else mret tt);;
  for_each (low_res (base st)) (fun res =>
    let low_res_name := res +:+ "k_fs_LR" in
    log Info (section_header ("Resampling data from Native to T1w -" +:+ low_res_name));;
    let dest_mesh_name := "Native" +:+ res +:+ "k_fs_LR" in
    dm ← get_mesh meshes dest_mesh_name;
    f ← get_fs;
    (if negb (path_exists f (Folder dm)) then
       dm' ← get_mesh meshes dest_mesh_name;
       make_dir (Folder dm') DRYRUN false
     else mret tt);;
    dm ← get_mesh meshes dest_mesh_name;
    add_anat_images_to_spec_files [("mesh", dm)] (id s) "T1wImage";;
    t1 ← get_mesh meshes "T1wNative";
    dm ← get_mesh meshes dest_mesh_name;
    an ← get_mesh meshes "AtlasSpaceNative";
    resample_to_native t1 dm st (id s) reg_sphere expected_labels an).

(** [run_ciftify_recon_all] *)
Definition run_ciftify_recon_all (temp_dir : string) (st : settings) : M Z :=
  let s := subj st in
  log_inputs (fs_root_dir st) (work_dir (base st)) (id s) (registration st) (msm_config st);;
  log_build_environment st;;
  fs_version ← pars_recon_all_logs (fs_folder s);
  log Debug "Defining Settings";;
  let meshes :=
    define_meshes (path s) temp_dir (high_res (base st)) (low_res (base st)) (resample st) in
  let expected_labels := define_expected_labels fs_version in
  (if skip_main_wf st then
     log Info "Found completed ciftify output, only resampling to T1w/fsaverage_LR32k"
   else run_default_workflow temp_dir st meshes expected_labels fs_version);;
  (if resample st then resampling_to_t1w_32k temp_dir st meshes expected_labels
   else mret tt);;
  log Info (section_header "Done");;
  mret 0%Z.

(** [Subject.get_subject_log_handler]: [logging.FileHandler(self.log)]
    opens the log file of the subject for appending, and makes it when it
    is not there; the handler is known by the path of its file. *)
Definition get_subject_log_handler (s : subject) : M string :=
  f ← get_fs;
  match f !! subject_log s with
  | Some Dir => raise (OSError (subject_log s))
  | Some _ => mret (subject_log s)
  | None => set_fs (<[subject_log s := File ""]> f);; mret (subject_log s)
  end.

(** [logger.addHandler(fh)] *)
Definition addHandler (fh : string) : M unit :=
  fun w => Done tt (World (fs w) (cmds w) (logs w) (codes w) (handlers w ++ [fh])).

(** [main], after the command line is parsed.  The stream handler that it
    adds first prints records on the terminal, at the level that the
    command line asks for. *)
Definition main (args : arguments) : M Z :=
  st ← Settings_init args;
  fh ← get_subject_log_handler (subj st);
  addHandler fh;;
  log Info ciftify_logo;;
  log Info (section_header "Starting cifti_recon_all");;
  with_TempDir (fun tmpdir =>
    log Info ("Creating tempdir:" +:+ tmpdir +:+ " on host:" +:+ uname_nodename);;
    run_ciftify_recon_all tmpdir st).

End Program.

(** ** Meaning of the metric-math expressions

    A metric file holds one value per vertex.  [wb_command -metric-math]
    evaluates the expression at every vertex, each variable standing for
    the value of its file at that vertex; a comparison yields 1 or 0.  The
    values are real numbers; the expressions without [ln] and division are
    also given an executable meaning on integer-valued files (ROI masks). *)

Definition file_of {V} (bindings : list (string * list V)) (x : string) : list V :=
  match List.find (fun kv => String.eqb (fst kv) x) bindings with
  | Some kv => snd kv
  | None => []
  end.

Definition nvertices {V} (bindings : list (string * list V)) : nat :=
  match bindings with
  | [] => 0
  | kv :: _ => length (snd kv)
  end.

Fixpoint evalR (e : mexpr) (env : string -> R) : R :=
  match e with
  | Var x => env x
  | Num n => IZR n
  | Add a b => evalR a env + evalR b env
  | Mul a b => evalR a env * evalR b env
  | Div a b => evalR a env / evalR b env
  | Gt a b => if Rlt_dec (evalR b env) (evalR a env) then 1 else 0
  | Fn Fln a => ln (evalR a env)
  | Fn Fabs a => Rabs (evalR a env)
  | Paren a => evalR a env
  end%R.

Definition metric_mathR (e : mexpr) (bindings : list (string * list R)) : list R :=
  map (fun v => evalR e (fun x => nth v (file_of bindings x) 0%R))
      (seq 0 (nvertices bindings)).

Fixpoint evalZ (e : mexpr) (env : string -> Z) : option Z :=
  match e with
  | Var x => Some (env x)
  | Num n => Some n
  | Add a b => x ← evalZ a env; y ← evalZ b env; Some (x + y)%Z
  | Mul a b => x ← evalZ a env; y ← evalZ b env; Some (x * y)%Z
  | Div _ _ => None
  | Gt a b => x ← evalZ a env; y ← evalZ b env; Some (if (y <? x)%Z then 1 else 0)%Z
  | Fn Fln _ => None
  | Fn Fabs a => x ← evalZ a env; Some (Z.abs x)
  | Paren a => evalZ a env
  end.

Definition metric_mathZ (e : mexpr) (bindings : list (string * list Z))
  : option (list Z) :=
  mapM (fun v => evalZ e (fun x => nth v (file_of bindings x) 0%Z))
       (seq 0 (nvertices bindings)).

(** The areal distortion file written by [calc_areal_distortion_gii], from
    the vertex areas of the sphere before and after registration. *)
Definition areal_distortion (pre_va reg_va : list R) : list R :=
  metric_mathR areal_distortion_expr [("sphere", pre_va); ("spherereg", reg_va)].

(** The ROI written by [medial_wall_rois_from_thickness_maps], before the
    holes are filled: 1 where the cortex has positive thickness. *)
Definition thickness_roi (thickness : list Z) : option (list Z) :=
  metric_mathZ thickness_roi_expr [("thickness", thickness)].

(** The ROI written by [merge_subject_medial_wall_with_atlas_template], from
    the resampled atlas ROI and the subject's ROI. *)
Definition merge_roi (atlas individual : list Z) : option (list Z) :=
  metric_mathZ merge_roi_expr [("atlas", atlas); ("individual", individual)].

(** A boolean vertex mask as the 0/1 values of an ROI file. *)
Definition roi_of_mask (m : list bool) : list Z :=
  (fun b : bool => if b then 1%Z else 0%Z) <$> m.

(** In an ROI file the value 1 keeps the vertex (cortex) and the value 0
    leaves it out (medial wall, no cortex). *)
Definition in_roi (roi : list Z) (v : nat) : Prop := roi !! v = Some 1%Z.

Definition non_cortex (roi : list Z) (v : nat) : Prop := roi !! v = Some 0%Z.

(** The scalar map that [convert_freesurfer_maps] leaves in the metric
    file: the values converted from FreeSurfer are negated, and for the
    thickness map the result is then made absolute. *)
Definition converted_map (map_name : string) (fs_values : list R) : list R :=
  let negated := metric_mathR negate_expr [("var", fs_values)] in
  if String.eqb map_name "thickness"
  then metric_mathR abs_thickness_expr [("thickness", negated)]
  else negated.

(** The ROI of [medial_wall_rois_from_thickness_maps] on a real-valued
    thickness map, before the holes are filled. *)
Definition thickness_roiR (thickness : list R) : list R :=
  metric_mathR thickness_roi_expr [("thickness", thickness)].

(** ** Vocabulary of the statements *)

(** the descriptor registered under a name, if any *)
Definition mesh_of (meshes : list (string * mesh)) (name : string) : option mesh :=
  snd <$> List.find (fun kv => String.eqb (fst kv) name) meshes.

(** the wb_command operation (or first operand) of a command *)
Definition operation (cmd : list string) : string := nth 1 cmd "".

(** The operands that a command writes, for the commands of the resampling
    step (cp, mkdir -p, and the wb_command operations -add-to-spec-file,
    -surface-resample, -surface-generate-inflated); any other command may
    write any of its operands. *)
Definition cmd_outputs (cmd : list string) : list string :=
  match cmd with
  | [c; a; b] =>
      if String.eqb c "cp" then [b]
      else if String.eqb c "mkdir" && String.eqb a "-p" then [b]
      else cmd
  | [c; op; spec; _; _] =>
      if String.eqb c "wb_command" && String.eqb op "-add-to-spec-file" then [spec]
      else cmd
  | [c; op; _; infl; vinfl; _; out] =>
      if String.eqb c "wb_command" && String.eqb op "-surface-generate-inflated"
      then [infl; vinfl]
      else if String.eqb c "wb_command" && String.eqb op "-surface-resample"
      then [out]
      else cmd
  | _ => cmd
  end.

(** nothing was written and no command was issued between two worlds *)
Definition same_state (w w' : world) : Prop :=
  fs w' = fs w /\ cmds w' = cmds w.

(** Nothing happened between two worlds but calls of the logger: no
    command was issued, no handler was attached, and the only files that
    differ are those of the attached log handlers. *)
Definition only_logged (w w' : world) : Prop :=
  cmds w' = cmds w /\ codes w' = codes w /\ handlers w' = handlers w
  /\ forall p, ~ In p (handlers w) -> fs w' !! p = fs w !! p.

(** no command was issued between two worlds *)
Definition same_cmds (w w' : world) : Prop := cmds w' = cmds w.

(** the commands issued between two worlds all satisfy [P] *)
Definition issued_only (P : list string -> Prop) (w w' : world) : Prop :=
  exists l, cmds w' = cmds w ++ l /\ Forall P l.

(** The paths that differ between two worlds all satisfy [T], but for the
    files of the attached log handlers, which stay the same handlers. *)
Definition written_within (T : string -> Prop) (w w' : world) : Prop :=
  handlers w' = handlers w
  /\ forall p, ~ T p -> ~ In p (handlers w) -> fs w' !! p = fs w !! p.

(** a computation relates the world it starts in to the world it ends in,
    however it ends *)
Definition preserves (R : world -> world -> Prop) {A} (m : M A) : Prop :=
  forall w, R w (final (m w)).

Definition is_Done {A} (o : outcome A) : Prop :=
  match o with
  | Done _ _ => True
  | _ => False
  end.

(** a computation that ends the run, from every world *)
Definition never_returns {A} (m : M A) : Prop := forall w, ~ is_Done (m w).

(** a computation that, when it returns, has left the world as it was *)
Definition returns_unchanged {A} (m : M A) : Prop :=
  forall w a w', m w = Done a w' -> w' = w.

Section Expected.
Context `{Collaborators}.

(** the world after a command has been issued *)
Definition issued (cmd : list string) (w : world) : world :=
  World (tool_effect cmd (fs w)) (cmds w ++ [cmd]) (logs w)
        (codes w ++ [tool_returncode cmd (fs w)]) (handlers w).

(** the command that resamples one surface of one hemisphere *)
Definition surface_resample_cmd (sid : string) (src dest : mesh) (sphere surface h : string)
  : list string :=
  ["wb_command"; "-surface-resample"; surf_file sid surface h src;
   surf_file sid sphere h src; surf_file sid "sphere" h dest; "BARYCENTRIC";
   surf_file sid surface h dest].

Definition add_surface_to_spec_cmd (sid : string) (dest : mesh) (structure surface h : string)
  : list string :=
  ["wb_command"; "-add-to-spec-file"; spec_file sid dest; structure;
   surf_file sid surface h dest].

(** the command that regenerates the inflated surfaces of one hemisphere
    from the midthickness surface of the same mesh *)
Definition generate_inflated_cmd (sid : string) (dest : mesh) (scale h : string)
  : list string :=
  ["wb_command"; "-surface-generate-inflated"; surf_file sid "midthickness" h dest;
   surf_file sid "inflated" h dest; surf_file sid "very_inflated" h dest;
   "-iterations-scale"; scale].

(** the surface phase of a resampling pass, in order *)
Definition surface_phase (sid : string) (src dest : mesh) (sphere : string)
  : list (list string) :=
  [ surface_resample_cmd sid src dest sphere "white" "L";
    add_surface_to_spec_cmd sid dest "CORTEX_LEFT" "white" "L";
    surface_resample_cmd sid src dest sphere "white" "R";
    add_surface_to_spec_cmd sid dest "CORTEX_RIGHT" "white" "R";
    surface_resample_cmd sid src dest sphere "midthickness" "L";
    add_surface_to_spec_cmd sid dest "CORTEX_LEFT" "midthickness" "L";
    surface_resample_cmd sid src dest sphere "midthickness" "R";
    add_surface_to_spec_cmd sid dest "CORTEX_RIGHT" "midthickness" "R";
    surface_resample_cmd sid src dest sphere "pial" "L";
    add_surface_to_spec_cmd sid dest "CORTEX_LEFT" "pial" "L";
    surface_resample_cmd sid src dest sphere "pial" "R";
    add_surface_to_spec_cmd sid dest "CORTEX_RIGHT" "pial" "R" ].

(** the inflation phase, in order *)
Definition inflation_phase (sid : string) (dest : mesh) (scale : string)
  : list (list string) :=
  [ generate_inflated_cmd sid dest scale "L";
    add_surface_to_spec_cmd sid dest "CORTEX_LEFT" "inflated" "L";
    add_surface_to_spec_cmd sid dest "CORTEX_LEFT" "very_inflated" "L";
    generate_inflated_cmd sid dest scale "R";
    add_surface_to_spec_cmd sid dest "CORTEX_RIGHT" "inflated" "R";
    add_surface_to_spec_cmd sid dest "CORTEX_RIGHT" "very_inflated" "R" ].

(** the commands of a list, issued one after the other *)
Definition run_all (cs : list (list string)) (d : bool) : M unit :=
  for_each cs (fun c => run c d;; mret tt).

(** a command that is issued for real and that neither resamples a surface
    nor generates inflated surfaces *)
Definition after_surfaces (c : list string) : Prop :=
  DRYRUN = false
  /\ operation c <> "-surface-resample"
  /\ operation c <> "-surface-generate-inflated".

(** a command that resamples no scalar map and no label map *)
Definition before_maps (c : list string) : Prop :=
  operation c <> "-metric-resample" /\ operation c <> "-label-resample".

(** the command of [resample_label] *)
Definition label_resample_cmd (sid label_name h : string) (src dest : mesh)
  (current_sphere dest_sphere : string) : list string :=
  ["wb_command"; "-label-resample"; label_file sid label_name h src;
   surf_file sid current_sphere h src; surf_file sid dest_sphere h dest;
   "BARYCENTRIC"; label_file sid label_name h dest; "-largest"].

(** the MSM configuration file that [__set_registration_mode] ends up
    with: the user's, or the default one of the ciftify data directory *)
Definition msm_config_in_use (args : arguments) : option string :=
  if PyStr.truthy (arg_MSM_config args) then arg_MSM_config args
  else (fun g => OsPath.join g ["hcp_config"; "MSMSulcStrainFinalconf"])
         <$> find_ciftify_global.

(** The options of an MSM configuration in the words of the
    specification: the option that a line names is its text up to the
    first '=', without the line end; the options that the tool reports are
    the words of the text that [msm --printoptions] prints. *)
Definition spec_option_named (line : string) : string :=
  hd "" (PyStr.split_on "=" (PyStr.remove_char "010" line)).

Definition spec_options_named (text : string) : list string :=
  map spec_option_named (readlines text).

Definition spec_options_reported (err : string) : list string :=
  List.filter (fun o => negb (String.eqb o ""))
    (concat (map (PyStr.split_on " ") (PyStr.split_on "010" err))).

(** the shared template cache *)
Definition zz_templates (st : settings) : string :=
  OsPath.join (work_dir (base st)) ["zz_templates"].

(** a destination mesh space of the resampling step: one of the
    ['Native{res}k_fs_LR'] descriptors of the registry *)
Definition dest_mesh (st : settings) (meshes : list (string * mesh)) (m : mesh) : Prop :=
  exists res, In res (low_res (base st))
    /\ mesh_of meshes ("Native" +:+ res +:+ "k_fs_LR") = Some m.

(** the surfaces and the manifest of a mesh space are named inside its
    folder, and the manifest is reached by its own path *)
Definition files_in_folder (sid : string) (m : mesh) : Prop :=
  (forall surface h, OsPath.under (Folder m) (surf_file sid surface h m))
  /\ OsPath.under (Folder m) (spec_file sid m)
  /\ (forall f, realpath f (spec_file sid m) = spec_file sid m).

(** the resample-only run writes only under the folders of the
    ['Native{res}k_fs_LR'] mesh spaces *)
Definition native_lowres_target (st : settings) (meshes : list (string * mesh)) (p : string)
  : Prop :=
  exists m, dest_mesh st meshes m /\ OsPath.under (Folder m) p.

(** where the resample-only run may write: the folders of the
    ['Native{res}k_fs_LR'] mesh spaces and the shared template cache *)
Definition resample_target (st : settings) (meshes : list (string * mesh)) (p : string)
  : Prop :=
  native_lowres_target st meshes p \/ OsPath.under (zz_templates st) p.

(** the commands of the resampling step: templates copied into place, the
    manifest, surfaces resampled, inflated surfaces generated *)
Definition resampling_command (c : list string) : Prop :=
  hd "" c = "cp" \/ hd "" c = "mkdir"
  \/ (hd "" c = "wb_command"
      /\ In (operation c)
            ["-add-to-spec-file"; "-surface-resample"; "-surface-generate-inflated"]).

(** external tools write their output operands only, and
    [ciftify.utils.make_dir] the directory it is given *)
Definition tools_write_outputs : Prop :=
  (forall cmd f p, ~ In p (cmd_outputs cmd) -> tool_effect cmd f !! p = f !! p)
  /\ (forall d dry s f p, p <> d -> make_dir_effect d dry s f !! p = f !! p).

End Expected.

(** ** Vocabulary for the whole run *)

Section Inventory.
Context `{Collaborators}.

(** the program that a command calls *)
Definition program (c : list string) : string := hd "" c.

(** the programs that the pipeline calls through [run] *)
Definition known_tools : list string :=
  ["wb_command"; "mri_convert"; "fslreorient2std"; "fslmaths"; "flirt"; "fnirt";
   "invwarp"; "applywarp"; "mris_convert"; "cp"; "mkdir"; "msm"].

(** What can be said of every command of a run with given settings: it is
    issued for real, it calls a known program, msm is only called in
    MSMSulc mode with the configuration of the settings, and flirt and
    fnirt only when the settings hold no linear transform of the user. *)
Definition expected_command (st : settings) (c : list string) : Prop :=
  DRYRUN = false
  /\ In (program c) known_tools
  /\ (program c = "msm" ->
      reg_name st = "MSMSulc"
      /\ nth 1 c "" = "--conf=" +:+ default "None" (msm_config st))
  /\ (program c = "flirt" \/ program c = "fnirt" ->
      exists v, registration st !! "User_AtlasTransform_Linear" = Some v
                /\ cfg_truthy v = false).

(** a return code of success *)
Definition succeeded (returncode : Z) : Prop := returncode = 0%Z.

(** The commands that a computation issues, with the return code that each
    one gave when it ran, all succeeded, except that the computation ends
    at once, with the exit of [run], on a command that failed. *)
Definition stops_at_failure {A} (m : M A) : Prop :=
  forall w, exists l rc,
    cmds (final (m w)) = cmds w ++ l
    /\ codes (final (m w)) = codes w ++ rc
    /\ length rc = length l
    /\ match m w with
       | Exited ToolFailure _ =>
           exists rc0 r, rc = rc0 ++ [r] /\ Forall succeeded rc0 /\ ~ succeeded r
       | _ => Forall succeeded rc
       end.

(** a computation that issues no command and does not end with the exit of
    [run] *)
Definition quiet {A} (m : M A) : Prop :=
  forall w, cmds (final (m w)) = cmds w /\ codes (final (m w)) = codes w
            /\ forall w', m w <> Exited ToolFailure w'.

(** a computation that, when it does not return, has done nothing but
    calls of the logger *)
Definition fails_clean {A} (m : M A) : Prop :=
  forall w, ~ is_Done (m w) -> only_logged w (final (m w)).

(** the exceptions that a computation can raise *)
Definition raises_only (X : pyexn -> Prop) {A} (m : M A) : Prop :=
  forall w e w', m w = Raised e w' -> X e.

(** the keys of the registration settings that the workflow reads *)
Definition registration_keys : list string :=
  ["src_dir"; "dest_dir"; "xfms_dir"; "src_mesh"; "dest_mesh"; "T1wImage"; "T1wBrain";
   "BrainMask"; "standard_T1wImage"; "standard_T1wBrain"; "standard_BrainMask";
   "AtlasTransform_Linear"; "AtlasTransform_NonLinear"; "InverseAtlasTransform_NonLinear";
   "FNIRTConfig"; "User_AtlasTransform_Linear"; "User_AtlasTransform_NonLinear"].

(** the settings that [run_T1_FNIRT_registration] reads, in the order in
    which it reads them *)
Definition fnirt_keys : list string :=
  ["src_dir"; "T1wBrain"; "standard_T1wBrain"; "xfms_dir"; "AtlasTransform_Linear";
   "standard_BrainMask"; "AtlasTransform_NonLinear"; "FNIRTConfig";
   "InverseAtlasTransform_NonLinear"; "standard_T1wImage"; "T1wImage"; "dest_dir";
   "User_AtlasTransform_Linear"; "User_AtlasTransform_NonLinear"].

(** a key that a dictionary does not hold *)
Definition missing_key (d : gmap string cfgval) (key : string) : bool :=
  match d !! key with
  | None => true
  | Some _ => false
  end.

(** The two commands with which [run_T1_FNIRT_registration] copies the
    transforms of the user to their place in the xfms directory, for
    registration settings that hold them: the linear one, then the
    non-linear one. *)
Definition copied_transforms (reg : gmap string cfgval) : list string * list string :=
  let get key := cfg_str (default VFalse (reg !! key)) in
  (["cp"; get "User_AtlasTransform_Linear";
    OsPath.join (get "xfms_dir") [get "AtlasTransform_Linear"]],
   ["cp"; get "User_AtlasTransform_NonLinear";
    OsPath.join (get "xfms_dir") [get "AtlasTransform_NonLinear"]]).

(** the names under which the workflow looks a mesh space up: the three
    fixed ones, the two per low resolution, and the two that the
    registration settings name *)
Definition mesh_name_read (st : settings) (k : string) : Prop :=
  In k ["T1wNative"; "AtlasSpaceNative"; "HighResMesh"]
  \/ (exists res, In res (low_res (base st))
        /\ (k = res +:+ "k_fs_LR" \/ k = "Native" +:+ res +:+ "k_fs_LR"))
  \/ (exists key v, In key ["src_mesh"; "dest_mesh"]
        /\ registration st !! key = Some v /\ k = cfg_str v).

(** The exceptions that can end [run_ciftify_recon_all]: a key that the
    workflow reads and that the registration settings or the mesh registry
    do not hold (or the T2 image of a mesh descriptor, when a T2 image is
    in use), the parsing of the output of mri_info, and a link whose path
    is taken. *)
Definition workflow_exception (st : settings) (meshes : list (string * mesh)) (e : pyexn)
  : Prop :=
  match e with
  | KeyError k =>
      (In k registration_keys /\ registration st !! k = None)
      \/ (mesh_name_read st k /\ mesh_of meshes k = None)
      \/ (k = "T2wImage" /\ PyStr.truthy (use_T2 st) = true)
  | IndexError => True
  | NameError name => In name ["matrix_x"; "matrix_y"; "matrix_z"]
  | OSError p => True
  end.

End Inventory.

(** ** A reference platform

    Modelled from the spec: [define_meshes] and the naming functions of
    [ciftify.filenames], after the registry of section 4.2 and the directory
    layout of section 6; tools that succeed and write their output operands;
    a completeness marker in the low-resolution mesh space.  It is used to
    run the program on examples. *)

Module Reference.
Import PyStr OsPath.

(** Modelled from the spec: [ciftify.filenames.surf_file], a surface of a
    mesh space lives in its folder. *)
Definition ref_surf_file (sid surface h : string) (m : mesh) : string :=
  join (Folder m) [sid +:+ "." +:+ h +:+ "." +:+ surface +:+ "." +:+ meshname m +:+ ".surf.gii"].

(** Modelled from the spec: [ciftify.filenames.metric_file], a scalar map of
    one hemisphere, kept in the scratch directory of the mesh space. *)
Definition ref_metric_file (sid map_name h : string) (m : mesh) : string :=
  join (tmpdir m) [sid +:+ "." +:+ h +:+ "." +:+ map_name +:+ "." +:+ meshname m +:+ ".shape.gii"].

(** Modelled from the spec: [ciftify.filenames.label_file], a label map of
    one hemisphere, kept in the scratch directory of the mesh space. *)
Definition ref_label_file (sid label_name h : string) (m : mesh) : string :=
  join (tmpdir m) [sid +:+ "." +:+ h +:+ "." +:+ label_name +:+ "." +:+ meshname m +:+ ".label.gii"].

(** Modelled from the spec: [ciftify.filenames.spec_file], the manifest
    [<SubjectID>.<meshname>.wb.spec] in the folder of the mesh space. *)
Definition ref_spec_file (sid : string) (m : mesh) : string :=
  join (Folder m) [sid +:+ "." +:+ meshname m +:+ ".wb.spec"].

(** Modelled from the spec: [define_meshes], the registry of section 4.2
    with the folders of section 6: the native meshes of the two anatomical
    spaces, the high-resolution space, one space per low resolution, and
    one ['Native{res}k_fs_LR'] space per low resolution when asked for. *)
Definition ref_define_meshes (subject_path temp_dir high : string) (low : list string)
  (make_low_res : bool) : list (string * mesh) :=
  [ ("T1wNative",
     Mesh "native" (join subject_path ["T1w"; "Native"]) (join temp_dir ["native"])
          (join subject_path ["T1w"; "T1w.nii.gz"]) None);
    ("AtlasSpaceNative",
     Mesh "native" (join subject_path ["MNINonLinear"; "Native"]) (join temp_dir ["native"])
          (join subject_path ["MNINonLinear"; "T1w.nii.gz"]) None);
    ("HighResMesh",
     Mesh (high +:+ "k_fs_LR") (join subject_path ["MNINonLinear"; high +:+ "k_fs_LR"])
          (join temp_dir [high +:+ "k_fs_LR"])
          (join subject_path ["MNINonLinear"; "T1w.nii.gz"]) None) ]
  ++ map (fun res =>
       (res +:+ "k_fs_LR",
        Mesh (res +:+ "k_fs_LR")
             (join subject_path ["MNINonLinear"; "fsaverage_LR" +:+ res +:+ "k"])
             (join temp_dir [res +:+ "k_fs_LR"])
             (join subject_path ["MNINonLinear"; "T1w.nii.gz"]) None)) low
  ++ (if make_low_res then
        map (fun res =>
          ("Native" +:+ res +:+ "k_fs_LR",
           Mesh (res +:+ "k_fs_LR")
                (join subject_path ["T1w"; "fsaverage_LR" +:+ res +:+ "k"])
                (join temp_dir ["native" +:+ res +:+ "k_fs_LR"])
                (join subject_path ["T1w"; "T1w.nii.gz"])
                (Some (join subject_path ["MNINonLinear"; "fsaverage_LR" +:+ res +:+ "k"]))))
          low
      else []).

(** tools that write their output operands, each file holding the name of
    the operation that wrote it *)
Definition ref_tool_effect (cmd : list string) (f : gmap string node) : gmap string node :=
  foldr (fun p g => <[p := File (operation cmd)]> g) f (cmd_outputs cmd).

Definition ref_make_dir_effect (p : string) (dry_run suppress : bool) (f : gmap string node)
  : gmap string node :=
  if dry_run then f
  else match f !! p with
       | Some _ => f
       | None => <[p := Dir]> f
       end.

(** Modelled from the spec: the completeness marker of
    [has_ciftify_recon_all_run], a low-resolution output that only a full
    run leaves behind. *)
Definition ref_marker (work sid : string) : string :=
  join work [sid; "MNINonLinear"; "fsaverage_LR32k"; sid +:+ ".32k_fs_LR.wb.spec"].

Definition ref_registration : gmap string cfgval :=
  {[ "src_dir" := VStr "T1w"; "dest_dir" := VStr "MNINonLinear";
     "xfms_dir" := VStr "MNINonLinear/xfms"; "src_mesh" := VStr "T1wNative";
     "dest_mesh" := VStr "AtlasSpaceNative"; "T1wImage" := VStr "T1w.nii.gz";
     "T1wBrain" := VStr "T1w_brain.nii.gz"; "BrainMask" := VStr "brainmask_fs.nii.gz";
     "AtlasTransform_Linear" := VStr "T1w2StandardLinear.mat";
     "AtlasTransform_NonLinear" := VStr "T1w2Standard_warp_noaffine.nii.gz";
     "InverseAtlasTransform_NonLinear" := VStr "Standard2T1w_warp_noaffine.nii.gz" ]}.

Definition ref_resolution : gmap string cfgval :=
  {[ "FNIRTConfig" := VStr "/data/T1_2_MNI152_2mm.cnf";
     "standard_T1wImage" := VStr "/data/MNI152_T1_2mm.nii.gz";
     "standard_BrainMask" := VStr "/data/MNI152_T1_2mm_brain_mask_dil.nii.gz";
     "standard_T1wBrain" := VStr "/data/MNI152_T1_2mm_brain.nii.gz" ]}.

Definition ref_dscalars : list (string * dscalar) :=
  [ ("sulc", Dscalar "sulc" (Some "sulc") "_Sulc" "MODE_AUTO_SCALE_PERCENTAGE" "-pos-percent" false);
    ("thickness",
     Dscalar "thickness" (Some "thickness") "_Thickness" "MODE_AUTO_SCALE_PERCENTAGE"
             "-pos-percent" true);
    ("ArealDistortion_FS",
     Dscalar "ArealDistortion_FS" None "_ArealDistortion_FS" "MODE_USER_SCALE" "-pos-user" false);
    ("ArealDistortion_MSMSulc",
     Dscalar "ArealDistortion_MSMSulc" None "_ArealDistortion_MSMSulc" "MODE_USER_SCALE"
             "-pos-user" false) ].

Definition ref_mri_info : string :=
  "x_r = -1, y_r = 0, z_r = 0, c_r = -0.5" +:+ String "010"%char ""
  +:+ "x_a = 0, y_a = 0, z_a = 1, c_a = 17.5" +:+ String "010"%char ""
  +:+ "x_s = 0, y_s = -1, z_s = 0, c_s = 2.0" +:+ String "010"%char "".

Definition ref_basename (p : string) : string :=
  List.last (split_on "/" p) "".

#[local] Instance platform : Collaborators := {|
  DRYRUN := false;
  surf_file := ref_surf_file;
  metric_file := ref_metric_file;
  label_file := ref_label_file;
  medial_wall_roi_file := fun sid h m => ref_metric_file sid "roi" h m;
  spec_file := ref_spec_file;
  define_meshes := ref_define_meshes;
  tool_returncode := fun _ _ => 0%Z;
  tool_effect := ref_tool_effect;
  get_stdout := fun _ _ => ref_mri_info;
  msm_printoptions := fun _ => "--simval --sigma_in --sigma_ref --lambda --it --opt --CPgrid";
  make_dir_effect := ref_make_dir_effect;
  has_ciftify_recon_all_run := fun work sid f => path_exists f (ref_marker work sid);
  section_header := fun title => "-- " +:+ title +:+ " --";
  ciftify_logo := "ciftify";
  check_input_readable := fun p f => path_isfile f p;
  get_registration_mode := fun args =>
    if String.eqb (arg_surf_reg args) "MSMSulc" then Some "MSMSulc"
    else if String.eqb (arg_surf_reg args) "FS" then Some "FS"
    else None;
  workflow_init := fun _ _ => Some (WorkFlow "/work" "164" ["32"] ["2"] 1);
  get_config_entry := fun _ key =>
    if String.eqb key "registration" then Some ref_registration else None;
  get_dscalars_entry := fun _ => Some ref_dscalars;
  get_resolution_config := fun _ _ _ => Some ref_resolution;
  find_ciftify_global := Some "/data";
  find_freesurfer_data := Some "/fs";
  verify_msm_available := true;
  read_fslog := fun _ _ => FSLog "Mon Jan 1" "stable-pub-v6.0.0" "v6.0.0" "-all" "";
  system_info := "System: reference";
  ciftify_version := fun file => file +:+ ": ciftify 2";
  wb_command_version := "wb_command: 1.5";
  freesurfer_version := "FreeSurfer: 6.0.0";
  fsl_version := "FSL: 6.0";
  makedirs_raises := fun _ _ => false;
  realpath := fun _ p => p;
  relpath := fun p _ => p;
  dirname := fun p => p;
  basename := ref_basename;
  mkdtemp := fun _ => "/tmp/tmpciftify";
  uname_nodename := "host";
  environ_FS_LICENSE := None
|}.

(** the registration settings that [Settings.__init__] builds from those
    of the platform when the user gives no transform *)
Definition ref_registration_built : gmap string cfgval :=
  <["User_AtlasTransform_Linear" := VFalse]>
    (<["User_AtlasTransform_NonLinear" := VFalse]>
       (ref_resolution
        ∪ <["xfms_dir" := VStr "/work/sub-01/MNINonLinear/xfms"]>
            (<["dest_dir" := VStr "/work/sub-01/MNINonLinear"]>
               (<["src_dir" := VStr "/work/sub-01/T1w"]> ref_registration)))).

(** the scalar maps of a run in FS mode *)
Definition ref_dscalars_FS : list (string * dscalar) :=
  [ ("sulc", Dscalar "sulc" (Some "sulc") "_Sulc" "MODE_AUTO_SCALE_PERCENTAGE" "-pos-percent" false);
    ("thickness",
     Dscalar "thickness" (Some "thickness") "_Thickness" "MODE_AUTO_SCALE_PERCENTAGE"
             "-pos-percent" true);
    ("ArealDistortion_FS",
     Dscalar "ArealDistortion_FS" None "_ArealDistortion_FS" "MODE_USER_SCALE" "-pos-user" false) ].

(** The settings of a resample-only run; with the registration name 'FS'
    they are those that [Settings.__init__] builds on a completed output. *)
Definition ref_settings_with (reg : string) (nosym : bool) : settings :=
  Settings (WorkFlow "/work" "164" ["32"] ["2"] 1) reg None true nosym "/fs"
    (Subject "sub-01" "/fs/sub-01" "/work/sub-01" "/work/sub-01/T1w"
             "/work/sub-01/MNINonLinear" "/work/sub-01/cifti_recon_all.log")
    "/data" None None ref_dscalars_FS ref_registration_built true.

Definition ref_settings (reg : string) : settings := ref_settings_with reg false.

Definition ref_meshes : list (string * mesh) :=
  ref_define_meshes "/work/sub-01" "/tmp/tmpciftify" "164" ["32"] true.

Definition ref_native : mesh :=
  Mesh "native" "/work/sub-01/MNINonLinear/Native" "/tmp/tmpciftify/native"
       "/work/sub-01/MNINonLinear/T1w.nii.gz" None.

Definition ref_lowres : mesh :=
  Mesh "32k_fs_LR" "/work/sub-01/MNINonLinear/fsaverage_LR32k" "/tmp/tmpciftify/32k_fs_LR"
       "/work/sub-01/MNINonLinear/T1w.nii.gz" None.

(** the reference platform with another dry-run flag, another output of
    mri_info and other return codes *)
Definition platform_with (dry : bool) (stdout : string)
  (returncode : list string -> gmap string node -> Z) : Collaborators := {|
  DRYRUN := dry;
  surf_file := ref_surf_file;
  metric_file := ref_metric_file;
  label_file := ref_label_file;
  medial_wall_roi_file := fun sid h m => ref_metric_file sid "roi" h m;
  spec_file := ref_spec_file;
  define_meshes := ref_define_meshes;
  tool_returncode := returncode;
  tool_effect := ref_tool_effect;
  get_stdout := fun _ _ => stdout;
  msm_printoptions := fun _ => "--simval --sigma_in --sigma_ref --lambda --it --opt --CPgrid";
  make_dir_effect := ref_make_dir_effect;
  has_ciftify_recon_all_run := fun work sid f => path_exists f (ref_marker work sid);
  section_header := fun title => "-- " +:+ title +:+ " --";
  ciftify_logo := "ciftify";
  check_input_readable := fun p f => path_isfile f p;
  get_registration_mode := fun args =>
    if String.eqb (arg_surf_reg args) "MSMSulc" then Some "MSMSulc"
    else if String.eqb (arg_surf_reg args) "FS" then Some "FS"
    else None;
  workflow_init := fun _ _ => Some (WorkFlow "/work" "164" ["32"] ["2"] 1);
  get_config_entry := fun _ key =>
    if String.eqb key "registration" then Some ref_registration else None;
  get_dscalars_entry := fun _ => Some ref_dscalars;
  get_resolution_config := fun _ _ _ => Some ref_resolution;
  find_ciftify_global := Some "/data";
  find_freesurfer_data := Some "/fs";
  verify_msm_available := true;
  read_fslog := fun _ _ => FSLog "Mon Jan 1" "stable-pub-v6.0.0" "v6.0.0" "-all" "";
  system_info := "System: reference";
  ciftify_version := fun file => file +:+ ": ciftify 2";
  wb_command_version := "wb_command: 1.5";
  freesurfer_version := "FreeSurfer: 6.0.0";
  fsl_version := "FSL: 6.0";
  makedirs_raises := fun _ _ => false;
  realpath := fun _ p => p;
  relpath := fun p _ => p;
  dirname := fun p => p;
  basename := ref_basename;
  mkdtemp := fun _ => "/tmp/tmpciftify";
  uname_nodename := "host";
  environ_FS_LICENSE := None
|}.

(** a dry run, a platform where mri_info prints nothing, and one where
    mri_convert fails *)
Definition dry_platform : Collaborators :=
  platform_with true ref_mri_info (fun _ _ => 0%Z).

Definition silent_platform : Collaborators :=
  platform_with false "" (fun _ _ => 0%Z).

Definition failing_platform : Collaborators :=
  platform_with false ref_mri_info
    (fun c _ => if String.eqb (hd "" c) "mri_convert" then 1%Z else 0%Z).

(** settings of a resample-only run that copies the templates *)
Definition ref_settings_copying : settings := ref_settings_with "FS" true.

(** settings of a full run whose registration settings are empty *)
Definition ref_settings_unconfigured : settings :=
  Settings (WorkFlow "/work" "164" ["32"] ["2"] 1) "FS" None false false "/fs"
    (Subject "sub-01" "/fs/sub-01" "/work/sub-01" "/work/sub-01/T1w"
             "/work/sub-01/MNINonLinear" "/work/sub-01/cifti_recon_all.log")
    "/data" None None ref_dscalars ∅ false.

(** a command line *)
Definition args_FS (rs : bool) (nonlin lin : option string) : arguments :=
  MkArguments "sub-01" rs false None None nonlin lin None "FS".

Definition args_FS_copying : arguments :=
  MkArguments "sub-01" true true None None None None None "FS".

Definition args_MSM (conf : option string) : arguments :=
  MkArguments "sub-01" false false None None None None conf "MSMSulc".

(** the FreeSurfer output of the subject, and nothing else *)
Definition fresh_fs : gmap string node :=
  {[ "/fs/sub-01" := Dir; "/fs/sub-01/mri/T1.mgz" := File "T1"; "/xfm/warp.nii.gz" := File "warp"; "/xfm/premat.mat" := File "mat" ]}.

Definition fresh : world := World fresh_fs [] [] [] [].

(** a completed output made without symbolic links: the template cache is
    empty *)
Definition completed_fs : gmap string node :=
  {[ "/fs/sub-01" := Dir;
     "/work/sub-01" := Dir;
     "/work/sub-01/cifti_recon_all.log" := File "Done";
     "/work/sub-01/MNINonLinear/fsaverage_LR32k/sub-01.32k_fs_LR.wb.spec" := File "spec";
     "/work/sub-01/MNINonLinear/Native/sub-01.L.sphere.reg.reg_LR.native.surf.gii" := File "sphere";
     "/work/sub-01/MNINonLinear/Native/sub-01.R.sphere.reg.reg_LR.native.surf.gii" := File "sphere" ]}.

Definition completed : world := World completed_fs [] [] [] [].

(** the same output once [main] has attached the log of the subject *)
Definition completed_logging : world :=
  World completed_fs [] [] [] ["/work/sub-01/cifti_recon_all.log"].

(** an interrupted output: the root is there, the marker is not *)
Definition incomplete : world :=
  World {[ "/fs/sub-01" := Dir; "/work/sub-01" := Dir ]} [] [] [] [].

(** an MSM configuration the installed tool accepts, and one it does not *)
Definition msm_conf_ok : string :=
  "--simval=2,2" +:+ newline +:+ "--sigma_in=10,7.5" +:+ newline +:+ "--dopt" +:+ newline.

Definition msm_conf_bad : string :=
  "--simval=2,2" +:+ newline +:+ "--regoption=3" +:+ newline.

Definition with_msm_conf (text : string) : world :=
  World (<["/conf/MSMSulc" := File text]> fresh_fs) [] [] [] [].

End Reference.

(** * Properties *)

(** ** Strings and paths *)

Section StringFacts.
Import PyStr OsPath.

Lemma append_nil_l (b : string) : "" +:+ b = b.
Proof. reflexivity. Qed.

Lemma append_cons x (a b : string) : String x a +:+ b = String x (a +:+ b).
Proof. reflexivity. Qed.

Lemma append_assoc (a b c : string) : (a +:+ b) +:+ c = a +:+ (b +:+ c).
Proof.
  induction a as [|x a IH]; [done|].
  by rewrite !append_cons, IH.
Qed.

Lemma has_char_app c a b : has_char c (a +:+ b) = has_char c a || has_char c b.
Proof.
  induction a as [|x a IH]; [done|].
  rewrite append_cons. cbn [has_char]. rewrite IH. by rewrite orb_assoc.
Qed.

Lemma eqb_empty_app_nonempty a b : b <> "" -> String.eqb "" (a +:+ b) = false.
Proof.
  destruct a; [rewrite append_nil_l|rewrite append_cons]; destruct b; simpl; congruence.
Qed.

Lemma endswith_slash_app a b :
  b <> "" -> endswith "/" b = false -> endswith "/" (a +:+ b) = false.
Proof.
  intros Hb He. induction a as [|x a IH]; [exact He|].
  rewrite append_cons.
  cbn [endswith]. rewrite IH, orb_false_r.
  cbn [String.eqb]. destruct (Ascii.eqb "/" x); [|done].
  by apply eqb_empty_app_nonempty.
Qed.

Lemma app_nonempty_r a b : b <> "" -> String.eqb (a +:+ b) "" = false.
Proof.
  destruct a; [rewrite append_nil_l|rewrite append_cons]; destruct b; simpl; congruence.
Qed.

Lemma join_nonabsolute a b :
  startswith "/" b = false ->
  join a [b] = a +:+ b \/ join a [b] = a +:+ "/" +:+ b.
Proof.
  intros Hb. unfold join; simpl. unfold join2. rewrite Hb.
  destruct (String.eqb a "" || endswith "/" a); auto.
Qed.

(** A path joined under a directory named [mri] has a slash in it, or is
    the absolute last component. *)
Lemma join_mri_shape folder b :
  (startswith "/" b = true /\ join folder ["mri"; b] = b)
  \/ (exists pre, join folder ["mri"; b] = pre +:+ "/" +:+ b).
Proof.
  unfold join; simpl. set (P := join2 folder "mri").
  assert (HP : exists x, P = x +:+ "mri").
  { unfold P, join2; simpl.
    destruct (String.eqb folder "" || endswith "/" folder); [by exists folder|].
    exists (folder +:+ "/"). by rewrite append_assoc. }
  destruct HP as [x HP].
  unfold join2. destruct (startswith "/" b) eqn:Hb; [by left|right].
  rewrite HP, app_nonempty_r by done.
  rewrite endswith_slash_app by done. simpl. by eexists.
Qed.

Lemma startswith_slash_has_char b : startswith "/" b = true -> has_char "/" b = true.
Proof.
  destruct b as [|c b]; cbn [startswith has_char]; [done|].
  by destruct (Ascii.eqb "/" c).
Qed.

Lemma join_mri_has_slash folder b : has_char "/" (join folder ["mri"; b]) = true.
Proof.
  destruct (join_mri_shape folder b) as [[Hs ->]|[pre ->]].
  - by apply startswith_slash_has_char.
  - rewrite !has_char_app. simpl. by rewrite orb_true_r.
Qed.

(** The path built by [convert_freesurfer_mgz] is never the bare file name. *)
Lemma mgz_path_not_bare folder image_name :
  join folder ["mri"; image_name +:+ ".mgz"] <> "wmparc.mgz".
Proof.
  intros E. pose proof (join_mri_has_slash folder (image_name +:+ ".mgz")) as Hs.
  rewrite E in Hs. simpl in Hs. discriminate.
Qed.

End StringFacts.

(** ** Stepping through the program *)

Section Steps.
Context `{Collaborators}.

Lemma bind_Done {A B} (m : M A) (k : A -> M B) w a w' :
  m w = Done a w' -> (m ≫= k) w = k a w'.
Proof. intros E. unfold mbind, M_bind. by rewrite E. Qed.

Lemma bind_Exited {A B} (m : M A) (k : A -> M B) w s w' :
  m w = Exited s w' -> (m ≫= k) w = Exited s w'.
Proof. intros E. unfold mbind, M_bind. by rewrite E. Qed.

Lemma bind_Raised {A B} (m : M A) (k : A -> M B) w e w' :
  m w = Raised e w' -> (m ≫= k) w = Raised e w'.
Proof. intros E. unfold mbind, M_bind. by rewrite E. Qed.

(** [run] skips in dry-run mode; otherwise it issues the command, and ends
    the process when the tool fails. *)
Lemma run_cases cmd d w :
  (DRYRUN || d = true /\ run cmd d w = Done 0%Z w)
  \/ (DRYRUN || d = false /\
      (run cmd d w = Done 0%Z (issued cmd w)
       \/ run cmd d w = Exited ToolFailure (issued cmd w))).
Proof.
  unfold run, utils_run, mbind, M_bind, issued.
  destruct (DRYRUN || d); [left; done|right; split; [done|]].
  destruct (tool_returncode cmd (fs w) =? 0)%Z eqn:E; [left|right; reflexivity].
  apply Z.eqb_eq in E. by rewrite E.
Qed.

Lemma run_dry cmd d w : DRYRUN || d = true -> run cmd d w = Done 0%Z w.
Proof. intros E. unfold run, utils_run, mbind, M_bind. by rewrite E. Qed.

Lemma run_ok cmd d w :
  DRYRUN || d = false -> tool_returncode cmd (fs w) = 0%Z ->
  run cmd d w = Done 0%Z (issued cmd w).
Proof. intros E E'. unfold run, utils_run, mbind, M_bind, issued. by rewrite E, E'. Qed.

Lemma run_failed cmd d w :
  DRYRUN || d = false -> tool_returncode cmd (fs w) <> 0%Z ->
  run cmd d w = Exited ToolFailure (issued cmd w).
Proof.
  intros E E'. unfold run, utils_run, mbind, M_bind. rewrite E.
  by apply Z.eqb_neq in E' as ->.
Qed.

Lemma bind_Done_inv {A B} (m : M A) (k : A -> M B) w b w' :
  (m ≫= k) w = Done b w' -> exists a w1, m w = Done a w1 /\ k a w1 = Done b w'.
Proof.
  unfold mbind, M_bind. destruct (m w) as [a w1| |]; [|done..].
  intros E. by exists a, w1.
Qed.

End Steps.

(** ** The log files *)

Section LogFacts.

Lemma append_line_other p msg f q : q <> p -> append_line p msg f !! q = f !! q.
Proof.
  intros Hq. unfold append_line. destruct (f !! p) as [[|c|t]|]; try done.
  by rewrite lookup_insert_ne.
Qed.

Lemma emit_other hs l msg f q : ~ In q hs -> emit hs l msg f !! q = f !! q.
Proof.
  unfold emit. destruct (reaches_file l); [|done].
  revert f. induction hs as [|p hs IH]; intros f Hq; [done|]. simpl.
  rewrite IH by (intros Hin; apply Hq; by right).
  apply append_line_other. intros ->. apply Hq. by left.
Qed.

Lemma emit_nil l msg f : emit [] l msg f = f.
Proof. unfold emit. by destruct (reaches_file l). Qed.

Lemma only_logged_logged l msg w : only_logged w (logged l msg w).
Proof. repeat split. intros p Hp. simpl. by apply emit_other. Qed.

(** without file handler, calls of the logger leave the file system as it is *)
Lemma only_logged_unattached w w' : only_logged w w' -> handlers w = [] -> fs w' = fs w.
Proof.
  intros (_ & _ & _ & Hf) Hh. apply map_eq. intros p. apply Hf. rewrite Hh. by intros [].
Qed.

Lemma logged_unattached l msg w : handlers w = [] -> fs (logged l msg w) = fs w.
Proof. intros Hh. simpl. rewrite Hh. apply emit_nil. Qed.

End LogFacts.

#[local] Instance only_logged_preorder : PreOrder only_logged.
Proof.
  split.
  - by intros w.
  - intros w1 w2 w3 (C1 & K1 & H1 & F1) (C2 & K2 & H2 & F2).
    repeat split; [congruence..|].
    intros p Hp. rewrite F2 by (by rewrite H1). by apply F1.
Qed.

(** ** Relations preserved by the program *)

Section Preservation.
Context `{Collaborators}.
Context (R : world -> world -> Prop) `{!PreOrder R}.
Hypothesis R_same : forall w w', only_logged w w' -> R w w'.

Lemma preserves_same {A} (m : M A) : preserves only_logged m -> preserves R m.
Proof. intros Hm w. apply R_same, Hm. Qed.

Lemma preserves_ret {A} (a : A) : preserves R (mret a).
Proof. intros w. simpl. reflexivity. Qed.

Lemma preserves_bind {A B} (m : M A) (k : A -> M B) :
  preserves R m -> (forall a, preserves R (k a)) -> preserves R (m ≫= k).
Proof.
  intros Hm Hk w. specialize (Hm w). unfold mbind, M_bind.
  destruct (m w) as [a w'|s w'|e w']; simpl in *; [|done..].
  etrans; [exact Hm|apply Hk].
Qed.

Lemma preserves_for_each {A} (l : list A) (f : A -> M unit) :
  (forall x, preserves R (f x)) -> preserves R (for_each l f).
Proof.
  intros Hf. induction l as [|x l IH]; simpl.
  - apply preserves_ret.
  - apply preserves_bind; [apply Hf|intros _; apply IH].
Qed.

Lemma preserves_exit {A} s : preserves R (@sys_exit A s).
Proof. intros w. simpl. reflexivity. Qed.

Lemma preserves_raise {A} e : preserves R (@raise A e).
Proof. intros w. simpl. reflexivity. Qed.

Lemma preserves_log l msg : preserves R (log l msg).
Proof. intros w. apply R_same, only_logged_logged. Qed.

Lemma preserves_get_fs : preserves R get_fs.
Proof. intros w. simpl. reflexivity. Qed.

Lemma preserves_collaborator {A} name (r : option A) : preserves R (collaborator name r).
Proof. destruct r; [apply preserves_ret|apply preserves_exit]. Qed.

Lemma preserves_getitem d key : preserves R (getitem d key).
Proof. unfold getitem. destruct (d !! key); [apply preserves_ret|apply preserves_raise]. Qed.

Lemma preserves_reg_get d key : preserves R (reg_get d key).
Proof.
  apply preserves_bind; [apply preserves_getitem|intros; apply preserves_ret].
Qed.

Lemma preserves_get_mesh meshes name : preserves R (get_mesh meshes name).
Proof.
  unfold get_mesh. destruct (List.find _ _); [apply preserves_ret|apply preserves_raise].
Qed.

Lemma preserves_mesh_image m t : preserves R (mesh_image m t).
Proof.
  unfold mesh_image. destruct (String.eqb _ _); [apply preserves_ret|apply preserves_raise].
Qed.

(** a command preserves [R] as soon as issuing it does *)
Lemma preserves_run cmd d :
  (forall w, R w (issued cmd w)) -> preserves R (run cmd d).
Proof.
  intros Hc w.
  destruct (run_cases cmd d w) as [[_ ->]|[_ [->| ->]]]; simpl; [reflexivity|apply Hc..].
Qed.

End Preservation.

#[local] Instance same_state_preorder : PreOrder same_state.
Proof.
  split.
  - by intros w.
  - intros w1 w2 w3 [? ?] [? ?]. split; congruence.
Qed.

#[local] Instance issued_only_preorder P : PreOrder (issued_only P).
Proof.
  split.
  - intros w. exists []. by rewrite app_nil_r.
  - intros w1 w2 w3 (l1 & E1 & F1) (l2 & E2 & F2). exists (l1 ++ l2). split.
    + by rewrite E2, E1, app_assoc.
    + by apply Forall_app.
Qed.

#[local] Instance written_within_preorder T : PreOrder (written_within T).
Proof.
  split.
  - by intros w.
  - intros w1 w2 w3 [E1 H1] [E2 H2]. split; [congruence|].
    intros p Hp Hh. rewrite H2 by (by rewrite ?E1). by apply H1.
Qed.

#[local] Instance same_cmds_preorder : PreOrder same_cmds.
Proof.
  split.
  - by intros w.
  - intros w1 w2 w3 E1 E2. unfold same_cmds in *. congruence.
Qed.

Lemma same_state_same_cmds w w' : only_logged w w' -> same_cmds w w'.
Proof. by intros [E _]. Qed.

Lemma same_state_issued_only P w w' : only_logged w w' -> issued_only P w w'.
Proof. intros [E _]. exists []. by rewrite app_nil_r. Qed.

Lemma same_state_written_within T w w' : only_logged w w' -> written_within T w w'.
Proof. intros (_ & _ & E & Hf). split; [done|]. intros p _ Hp. by apply Hf. Qed.

(** The side condition of the lemmas above, for the relations in use. *)
Ltac same_side :=
  first
    [ exact _
    | done
    | intros ? ?; apply same_state_same_cmds
    | intros ? ?; apply same_state_issued_only
    | intros ? ?; apply same_state_written_within ].

(** Stepping and case analysis inside a goal about [preserves]. *)
Ltac preserved_step :=
  first
    [ apply preserves_ret; [same_side..]
    | apply preserves_exit; [same_side..]
    | apply preserves_raise; [same_side..]
    | apply preserves_log; [same_side..]
    | apply preserves_get_fs; [same_side..]
    | apply preserves_collaborator; [same_side..]
    | apply preserves_getitem; [same_side..]
    | apply preserves_reg_get; [same_side..]
    | apply preserves_get_mesh; [same_side..]
    | apply preserves_mesh_image; [same_side..]
    | apply preserves_bind; [same_side..| |intros ?]
    | apply preserves_for_each; [same_side..|intros ?]
    | progress cbv zeta
    | match goal with
      | |- preserves _ (if ?b then _ else _) => destruct b
      | |- preserves _ (match ?x with _ => _ end) => destruct x
      end ].

Ltac preserved := repeat preserved_step.

(** ** Computations that only read when they return *)

Section Returns.
Context `{Collaborators}.

Lemma returns_ret {A} (a : A) : returns_unchanged (mret a).
Proof. intros w a' w' E. by injection E as _ <-. Qed.

Lemma returns_exit {A} s : returns_unchanged (@sys_exit A s).
Proof. by intros w a w' E. Qed.

Lemma returns_raise {A} e : returns_unchanged (@raise A e).
Proof. by intros w a w' E. Qed.

Lemma returns_get_fs : returns_unchanged get_fs.
Proof. intros w a w' E. by injection E as _ <-. Qed.

Lemma returns_bind {A B} (m : M A) (k : A -> M B) :
  returns_unchanged m -> (forall a, returns_unchanged (k a)) -> returns_unchanged (m ≫= k).
Proof.
  intros Hm Hk w b w' E. unfold mbind, M_bind in E.
  destruct (m w) as [a w1| |] eqn:E1; [|done..].
  apply Hm in E1 as ->. by apply Hk in E.
Qed.

(** an error message followed by the exit *)
Lemma returns_before_exit {A B} (m : M A) s :
  returns_unchanged (m ≫= fun _ => @sys_exit B s).
Proof. intros w b w' E. unfold mbind, M_bind in E. by destruct (m w). Qed.

Lemma returns_collaborator {A} name (r : option A) : returns_unchanged (collaborator name r).
Proof. destruct r; [apply returns_ret|apply returns_exit]. Qed.

Lemma returns_getitem d key : returns_unchanged (getitem d key).
Proof. unfold getitem. destruct (d !! key); [apply returns_ret|apply returns_raise]. Qed.

End Returns.

Ltac returns_step :=
  first
    [ apply returns_before_exit
    | apply returns_ret
    | apply returns_exit
    | apply returns_raise
    | apply returns_get_fs
    | apply returns_collaborator
    | apply returns_getitem
    | apply returns_bind; [|intros ?]
    | progress cbv zeta
    | match goal with
      | |- returns_unchanged (if ?b then _ else _) => destruct b
      | |- returns_unchanged (match ?x with _ => _ end) => destruct x
      end ].

Ltac returns := repeat returns_step.

(** ** Equations of the monad, at a world *)

Section Equations.
Context `{Collaborators}.

Lemma bind_assoc_at {A B C} (m : M A) (f : A -> M B) (g : B -> M C) w :
  ((m ≫= f) ≫= g) w = (m ≫= (fun a => f a ≫= g)) w.
Proof. unfold mbind, M_bind. by destruct (m w). Qed.

Lemma bind_ret_at {A B} (a : A) (k : A -> M B) w : (mret a ≫= k) w = k a w.
Proof. reflexivity. Qed.

Lemma bind_get_fs_at {B} (k : gmap string node -> M B) w : (get_fs ≫= k) w = k (fs w) w.
Proof. reflexivity. Qed.

Lemma bind_set_fs_at {B} f (k : unit -> M B) w :
  (set_fs f ≫= k) w = k tt (wrote f w).
Proof. reflexivity. Qed.

Lemma bind_log_at {B} l msg (k : unit -> M B) w :
  (log l msg ≫= k) w = k tt (logged l msg w).
Proof. reflexivity. Qed.

Lemma bind_exit_at {A B} s (k : A -> M B) w : (sys_exit s ≫= k) w = Exited s w.
Proof. reflexivity. Qed.

Lemma bind_raise_at {A B} e (k : A -> M B) w : (raise e ≫= k) w = Raised e w.
Proof. reflexivity. Qed.

Lemma log_at l msg w : log l msg w = Done tt (logged l msg w).
Proof. reflexivity. Qed.

Lemma bind_collaborator_at {A B} name (a : A) (k : A -> M B) w :
  (collaborator name (Some a) ≫= k) w = k a w.
Proof. reflexivity. Qed.

End Equations.

(** Bring the first action of a computation to the front and run it when
    it is a primitive one. *)
Ltac step :=
  first
    [ rewrite bind_assoc_at
    | rewrite bind_ret_at
    | rewrite bind_get_fs_at
    | rewrite bind_set_fs_at
    | rewrite bind_log_at
    | rewrite bind_exit_at
    | rewrite bind_raise_at ].

Ltac steps := repeat (step; cbv beta).

(** Case analysis on the first command of a computation. *)
Ltac step_run :=
  steps;
  match goal with
  | |- context [(run ?c ?d ≫= ?k) ?w] =>
      let E := fresh "E" in
      destruct (run_cases c d w) as [[_ E]|[_ [E|E]]];
      [ rewrite (bind_Done _ k _ _ _ E)
      | rewrite (bind_Done _ k _ _ _ E)
      | rewrite (bind_Exited _ k _ _ _ E) ];
      clear E; cbv beta; steps
  end.

(** ** Conversion of the FreeSurfer volumes *)

Section ConvertMgz.
Context `{Collaborators}.
Import PyStr OsPath.

(** C10. In [convert_freesurfer_mgz] the fatal branch for a missing
    'wmparc.mgz' cannot be reached: the path that is compared with the bare
    name 'wmparc.mgz' is the joined path, which is never that name.  For
    every input the function does not leave through that exit, and when the
    mgz image is missing it logs a warning, converts nothing and returns. *)
Theorem convert_freesurfer_mgz_never_fatal_on_missing
  (image_name T1w_nii hcp_templates freesurfer_folder out_dir : string) (w : world) :
  let freesurfer_mgz := join freesurfer_folder ["mri"; image_name +:+ ".mgz"] in
  let result :=
    convert_freesurfer_mgz image_name T1w_nii hcp_templates freesurfer_folder out_dir w in
  String.eqb freesurfer_mgz "wmparc.mgz" = false
  /\ (forall w', result <> Exited WmparcMissing w')
  /\ (path_isfile (fs w) freesurfer_mgz = false ->
      result = Done tt (logged Warning (freesurfer_mgz +:+ " not found") w)).
Proof.
  intros freesurfer_mgz result.
  assert (Hne : String.eqb freesurfer_mgz "wmparc.mgz" = false).
  { apply String.eqb_neq, mgz_path_not_bare. }
  split; [exact Hne|].
  subst result. unfold convert_freesurfer_mgz.
  fold freesurfer_mgz. rewrite Hne. step.
  destruct (path_isfile (fs w) freesurfer_mgz) eqn:Hf; cbn [negb].
  - split; [|done]. intros w'.
    unfold resample_freesurfer_mgz. steps.
    step_run; [| |done]; step_run; done.
  - split; [done|]. intros _. reflexivity.
Qed.

End ConvertMgz.

(** The missing-file case on the reference platform. *)
Lemma convert_freesurfer_mgz_never_fatal_on_missing_witness :
  path_isfile (fs Reference.fresh) "/fs/sub-01/mri/wmparc.mgz" = false
  /\ @convert_freesurfer_mgz Reference.platform "wmparc" "/work/sub-01/T1w/T1w.nii.gz" "/data"
       "/fs/sub-01" "/work/sub-01/T1w" Reference.fresh
     = Done tt (logged Warning "/fs/sub-01/mri/wmparc.mgz not found" Reference.fresh).
Proof.
  split; [reflexivity|].
  apply (proj2 (proj2 (@convert_freesurfer_mgz_never_fatal_on_missing Reference.platform
    "wmparc" "/work/sub-01/T1w/T1w.nii.gz" "/data" "/fs/sub-01" "/work/sub-01/T1w"
    Reference.fresh))).
  reflexivity.
Defined.

(** ** Label maps *)

Section Labels.
Context `{Collaborators}.

(** C7. For every label map name and hemisphere: when the source label
    file is absent from the source mesh space, [resample_label] does
    nothing and raises no error; when it is present, exactly one command is
    issued, the barycentric [-label-resample] with [-largest] into the
    destination mesh space. *)
Theorem resample_label_absent_or_resampled
  (sid label_name h : string) (src dest : mesh) (current_sphere dest_sphere : string)
  (w : world) :
  let label_in := label_file sid label_name h src in
  let cmd := label_resample_cmd sid label_name h src dest current_sphere dest_sphere in
  let result := resample_label sid label_name h src dest current_sphere dest_sphere w in
  (path_exists (fs w) label_in = false -> result = Done tt w)
  /\ (path_exists (fs w) label_in = true -> DRYRUN = false ->
      cmds (final result) = cmds w ++ [cmd]
      /\ (tool_returncode cmd (fs w) = 0%Z -> result = Done tt (issued cmd w))
      /\ (tool_returncode cmd (fs w) <> 0%Z -> result = Exited ToolFailure (issued cmd w)))
  /\ (path_exists (fs w) label_in = true -> DRYRUN = true -> result = Done tt w).
Proof.
  intros label_in cmd result. subst result. unfold resample_label. fold label_in.
  step. fold cmd. split; [|split].
  - by intros ->.
  - intros -> Hdry.
    assert (Hd : DRYRUN || false = false) by (by rewrite Hdry).
    split; [|split].
    + destruct (run_cases cmd false w) as [[E _]|[_ [E|E]]]; [congruence|..].
      * by rewrite (bind_Done _ _ _ _ _ E).
      * by rewrite (bind_Exited _ _ _ _ _ E).
    + intros E. by rewrite (bind_Done _ _ _ _ _ (run_ok cmd false w Hd E)).
    + intros E. by rewrite (bind_Exited _ _ _ _ _ (run_failed cmd false w Hd E)).
  - intros -> Hdry.
    assert (Hd : DRYRUN || false = true) by (by rewrite Hdry).
    by rewrite (bind_Done _ _ _ _ _ (run_dry cmd false w Hd)).
Qed.

End Labels.

(** Both cases on the reference platform: no 'BA' label in the source mesh
    space, and an 'aparc' label that is there. *)
Lemma resample_label_absent_or_resampled_witness :
  let w := World {[ "/tmp/tmpciftify/native/sub-01.L.aparc.native.label.gii" := File "aparc" ]}
                 [] [] [] [] in
  @resample_label Reference.platform "sub-01" "BA" "L" Reference.ref_native
    Reference.ref_lowres "sphere.reg.reg_LR" "sphere" w = Done tt w
  /\ cmds (final (@resample_label Reference.platform "sub-01" "aparc" "L" Reference.ref_native
       Reference.ref_lowres "sphere.reg.reg_LR" "sphere" w))
     = [ ["wb_command"; "-label-resample";
          "/tmp/tmpciftify/native/sub-01.L.aparc.native.label.gii";
          "/work/sub-01/MNINonLinear/Native/sub-01.L.sphere.reg.reg_LR.native.surf.gii";
          "/work/sub-01/MNINonLinear/fsaverage_LR32k/sub-01.L.sphere.32k_fs_LR.surf.gii";
          "BARYCENTRIC";
          "/tmp/tmpciftify/32k_fs_LR/sub-01.L.aparc.32k_fs_LR.label.gii";
          "-largest"] ].
Proof.
  intros w. split.
  - apply (proj1 (@resample_label_absent_or_resampled Reference.platform "sub-01" "BA" "L"
      Reference.ref_native Reference.ref_lowres "sphere.reg.reg_LR" "sphere" w)).
    reflexivity.
  - apply (proj1 (proj1 (proj2 (@resample_label_absent_or_resampled Reference.platform
      "sub-01" "aparc" "L" Reference.ref_native Reference.ref_lowres "sphere.reg.reg_LR"
      "sphere" w)) eq_refl eq_refl)).
Defined.

(** ** The registration sphere of the resampling step *)

Section RegSphere.
Context `{Collaborators}.

Lemma get_mesh_Some meshes name m w :
  mesh_of meshes name = Some m -> get_mesh meshes name w = Done m w.
Proof.
  unfold mesh_of, get_mesh. destruct (List.find _ _) as [kv|]; [|done].
  simpl. by intros [= <-].
Qed.

Lemma get_mesh_None meshes name w :
  mesh_of meshes name = None -> get_mesh meshes name w = Raised (KeyError name) w.
Proof.
  unfold mesh_of, get_mesh. by destruct (List.find _ _) as [kv|].
Qed.

(** C9. The resampling step locates the registration sphere by name,
    'sphere.MSMSulc' when the registration mode is MSMSulc and
    'sphere.reg.reg_LR' otherwise; when the (left) sphere file of that name
    is missing from the native atlas-space mesh, the program exits at once:
    nothing has been written and no command has been issued. *)
Theorem resampling_exits_without_reg_sphere
  (temp_dir : string) (st : settings) (meshes : list (string * mesh))
  (expected_labels : list string) (native : mesh) (w : world) :
  let reg_sphere :=
    if String.eqb (reg_name st) "MSMSulc" then "sphere.MSMSulc" else "sphere.reg.reg_LR" in
  let reg_sphere_file := surf_file (id (subj st)) reg_sphere "L" native in
  mesh_of meshes "AtlasSpaceNative" = Some native ->
  path_exists (fs w) reg_sphere_file = false ->
  resampling_to_t1w_32k temp_dir st meshes expected_labels w
  = Exited RegSphereMissing
      (logged Critical ("Cannot find registration sphere " +:+ reg_sphere_file +:+ ", exiting")
              w).
Proof.
  intros reg_sphere reg_sphere_file Hm Hf.
  unfold resampling_to_t1w_32k. cbv beta iota zeta delta [get_reg_sphere_names].
  rewrite (bind_Done _ _ _ _ _ (get_mesh_Some _ _ _ w Hm)).
  fold reg_sphere. fold reg_sphere_file. steps.
  rewrite Hf. cbn [negb]. by steps.
Qed.

End RegSphere.

(** On the reference platform, in FS mode, with an output that has no
    registration sphere. *)
Lemma resampling_exits_without_reg_sphere_witness :
  mesh_of Reference.ref_meshes "AtlasSpaceNative" = Some Reference.ref_native
  /\ path_exists (fs Reference.incomplete)
       "/work/sub-01/MNINonLinear/Native/sub-01.L.sphere.reg.reg_LR.native.surf.gii" = false
  /\ @resampling_to_t1w_32k Reference.platform "/tmp/tmpciftify" (Reference.ref_settings "FS")
       Reference.ref_meshes ["aparc"] Reference.incomplete
     = Exited RegSphereMissing
         (logged Critical
            ("Cannot find registration sphere "
             +:+ "/work/sub-01/MNINonLinear/Native/sub-01.L.sphere.reg.reg_LR.native.surf.gii"
             +:+ ", exiting")
            Reference.incomplete).
Proof.
  split; [reflexivity|]. split; [reflexivity|].
  apply (@resampling_exits_without_reg_sphere Reference.platform "/tmp/tmpciftify"
    (Reference.ref_settings "FS") Reference.ref_meshes ["aparc"] Reference.ref_native
    Reference.incomplete); reflexivity.
Defined.

(** ** Construction of the settings *)

Section SettingsFacts.
Context `{Collaborators}.
Import PyStr OsPath.

Lemma check_msm_config_reads conf : preserves only_logged (check_msm_config conf).
Proof. unfold check_msm_config. preserved. Qed.

Lemma set_registration_mode_reads args : preserves only_logged (set_registration_mode args).
Proof.
  unfold set_registration_mode. preserved; apply check_msm_config_reads.
Qed.

Lemma set_fs_subjects_dir_reads args : preserves only_logged (set_fs_subjects_dir args).
Proof. unfold set_fs_subjects_dir. preserved. Qed.

Lemma get_subject_reads wf fs_root rs args :
  preserves only_logged (get_subject wf fs_root rs args).
Proof. unfold get_subject, Subject_init. preserved. Qed.

Lemma get_freesurfer_license_reads a : preserves only_logged (get_freesurfer_license a).
Proof. unfold get_freesurfer_license. preserved. Qed.

Lemma define_dscalars_reads wf rn : preserves only_logged (define_dscalars wf rn).
Proof. unfold define_dscalars. preserved. Qed.

Lemma fold_keys_reads f keys cfg :
  (forall c k, preserves only_logged (f c k)) -> preserves only_logged (fold_keys f keys cfg).
Proof.
  intros Hf. revert cfg. induction keys as [|k ks IH]; intros cfg; simpl; preserved.
  - apply Hf.
  - apply IH.
Qed.

Lemma join_subfolder_reads p cfg key : preserves only_logged (join_subfolder p cfg key).
Proof. unfold join_subfolder. preserved. Qed.

Lemma define_registration_settings_reads wf s nonlin lin method res :
  preserves only_logged (define_registration_settings wf s nonlin lin method res).
Proof.
  unfold define_registration_settings. preserved; apply join_subfolder_reads.
Qed.

(** the steps of the construction that return leave the world as it was:
    their messages are those of the exits *)
Lemma check_msm_config_returns conf : returns_unchanged (check_msm_config conf).
Proof. unfold check_msm_config. returns. Qed.

Lemma set_registration_mode_returns args : returns_unchanged (set_registration_mode args).
Proof. unfold set_registration_mode. returns; apply check_msm_config_returns. Qed.

Lemma set_fs_subjects_dir_returns args : returns_unchanged (set_fs_subjects_dir args).
Proof. unfold set_fs_subjects_dir. returns. Qed.

Lemma get_subject_returns wf fs_root rs args :
  returns_unchanged (get_subject wf fs_root rs args).
Proof. unfold get_subject, Subject_init. returns. Qed.

Lemma get_freesurfer_license_returns a : returns_unchanged (get_freesurfer_license a).
Proof. unfold get_freesurfer_license. returns. Qed.

Lemma define_dscalars_returns wf rn : returns_unchanged (define_dscalars wf rn).
Proof. unfold define_dscalars. returns. Qed.

Lemma join_subfolder_returns p cfg key : returns_unchanged (join_subfolder p cfg key).
Proof. unfold join_subfolder. returns. Qed.

Lemma fold_keys_returns f keys cfg :
  (forall c k, returns_unchanged (f c k)) -> returns_unchanged (fold_keys f keys cfg).
Proof.
  intros Hf. revert cfg. induction keys as [|k ks IH]; intros cfg; simpl; returns.
  - apply Hf.
  - apply IH.
Qed.

Lemma define_registration_settings_returns wf s nonlin lin method res :
  returns_unchanged (define_registration_settings wf s nonlin lin method res).
Proof.
  unfold define_registration_settings. returns; apply join_subfolder_returns.
Qed.

Lemma has_been_run_before_no_command wf s rs :
  preserves same_cmds (has_been_run_before wf s rs).
Proof.
  unfold has_been_run_before. preserved. by intros w.
Qed.

(** What a construction of the settings that returns has gone through:
    each step returned in the world in which the construction started, and
    the resume decision came last. *)
Lemma Settings_init_steps args w st w' :
  Settings_init args w = Done st w' ->
  exists wf rn msm fs_root s data_dir lic ds reg,
    st = Settings wf rn msm (arg_resample_to_T1w32k args) (arg_no_symlinks args) fs_root s
           data_dir lic (get_T2 args s) ds reg (skip_main_wf st)
    /\ workflow_init args (fs w) = Some wf
    /\ set_registration_mode args w = Done (rn, msm) w
    /\ set_fs_subjects_dir args w = Done fs_root w
    /\ get_subject wf fs_root (arg_resample_to_T1w32k args) args w = Done s w
    /\ get_freesurfer_license (arg_fs_license args) w = Done lic w
    /\ define_dscalars wf rn w = Done ds w
    /\ define_registration_settings wf s (arg_read_non_lin_xfm args)
         (arg_read_lin_premat args) "FSL_fnirt" "2mm" w = Done reg w
    /\ has_been_run_before wf s (arg_resample_to_T1w32k args) w = Done (skip_main_wf st) w'.
Proof.
  unfold Settings_init. intros E.
  rewrite bind_get_fs_at in E.
  apply bind_Done_inv in E as (wf & w1 & E1 & E).
  pose proof (returns_collaborator _ _ _ _ _ E1) as ->.
  apply bind_Done_inv in E as ([rn msm] & w2 & E2 & E).
  pose proof (set_registration_mode_returns _ _ _ _ E2) as ->.
  apply bind_Done_inv in E as (fs_root & w3 & E3 & E).
  pose proof (set_fs_subjects_dir_returns _ _ _ _ E3) as ->.
  apply bind_Done_inv in E as (s & w4 & E4 & E).
  pose proof (get_subject_returns _ _ _ _ _ _ _ E4) as ->.
  apply bind_Done_inv in E as (data_dir & w5 & E5 & E).
  pose proof (returns_collaborator _ _ _ _ _ E5) as ->.
  apply bind_Done_inv in E as (lic & w6 & E6 & E).
  pose proof (get_freesurfer_license_returns _ _ _ _ E6) as ->.
  apply bind_Done_inv in E as (ds & w7 & E7 & E).
  pose proof (define_dscalars_returns _ _ _ _ _ E7) as ->.
  apply bind_Done_inv in E as (reg & w8 & E8 & E).
  pose proof (define_registration_settings_returns _ _ _ _ _ _ _ _ _ E8) as ->.
  apply bind_Done_inv in E as (skip & w9 & E9 & E).
  injection E as <- <-. simpl.
  exists wf, rn, msm, fs_root, s, data_dir, lic, ds, reg.
  repeat split; try done.
  unfold collaborator in E1. by destruct (workflow_init args (fs w)); [injection E1 as ->|].
Qed.

(** Everything that [Settings.__init__] does before the resume decision
    only reads the file system. *)
Lemma Settings_init_decides_last args w st w' :
  Settings_init args w = Done st w' ->
  exists w0, same_state w w0
    /\ has_been_run_before (base st) (subj st) (resample st) w0 = Done (skip_main_wf st) w'.
Proof.
  intros E. exists w. split; [done|].
  apply Settings_init_steps in E
    as (wf & rn & msm & fs_root & s & dd & lic & ds & reg & -> & _ & _ & _ & _ & _ & _ & _ & E).
  exact E.
Qed.

(** Resample-only mode is only selected with the resample flag. *)
Lemma skip_main_wf_needs_resample_flag args w st w' :
  Settings_init args w = Done st w' -> skip_main_wf st = true -> resample st = true.
Proof.
  intros E Hskip. apply Settings_init_decides_last in E as (w0 & _ & E).
  rewrite Hskip in E. unfold has_been_run_before in E. rewrite bind_get_fs_at in E.
  destruct (resample st); [done|].
  destruct (path_exists (fs w0) (path (subj st))).
  - by rewrite bind_log_at in E.
  - destruct (makedirs_raises _ _).
    + by rewrite bind_assoc_at, bind_log_at in E.
    + by rewrite bind_set_fs_at in E.
Qed.

Lemma Settings_init_no_command args : preserves same_cmds (Settings_init args).
Proof.
  unfold Settings_init. preserved;
    first [ by intros w
          | apply (preserves_same same_cmds); [same_side|] ];
    first [ apply set_fs_subjects_dir_reads | apply get_freesurfer_license_reads
          | apply join_subfolder_reads ].
Qed.

(** C1. The resume decision of [Settings.__has_been_run_before]:
    - no output root: the full pipeline is chosen ([False] is returned) and
      the root is created; the run ends there when the root cannot be made;
    - root present, no resample flag: the run aborts, whatever the
      completeness marker says;
    - root present, resample flag, marker present: resample only ([True]),
      with a line of information;
    - root present, resample flag, no marker: the run aborts.
    The decision is the last step of the construction of the settings,
    which issues no command, and it is taken on the file system as the
    program found it. *)
Theorem resume_decision (wf : workflow) (s : subject) (rs : bool) (w : world) :
  let decision := has_been_run_before wf s rs w in
  let marker := has_ciftify_recon_all_run (work_dir wf) (id s) (fs w) in
  (path_exists (fs w) (path s) = false ->
     (makedirs_raises (path s) (fs w) = false ->
        decision = Done false (wrote (<[path s := Dir]> (fs w)) w))
     /\ (makedirs_raises (path s) (fs w) = true ->
        decision = Exited CannotMakeSubjectPath
          (logged Error ("Cannot make subject path " +:+ path s +:+ ", exiting") w)))
  /\ (path_exists (fs w) (path s) = true -> rs = false ->
      exists msg, decision = Exited OutputExists (logged Error msg w))
  /\ (path_exists (fs w) (path s) = true -> rs = true -> marker = true ->
      decision
      = Done true
          (logged Info "Found completed ciftify output, only resampling to T1w/fsaverage_LR32k"
                  w))
  /\ (path_exists (fs w) (path s) = true -> rs = true -> marker = false ->
      exists msg, decision = Exited IncompleteOutput (logged Error msg w))
  /\ (forall args w0, cmds (final (Settings_init args w0)) = cmds w0)
  /\ (forall args w0 st w',
        Settings_init args w0 = Done st w' ->
        exists w1, same_state w0 w1
          /\ has_been_run_before (base st) (subj st) (resample st) w1
             = Done (skip_main_wf st) w').
Proof.
  intros decision marker. subst decision marker. unfold has_been_run_before.
  rewrite bind_get_fs_at.
  split; [|split; [|split; [|split; [|split]]]].
  - intros ->. split; intros ->; by steps.
  - intros -> ->. eexists. by steps.
  - intros -> -> ->. by steps.
  - intros -> -> ->. eexists. by steps.
  - intros args w0. apply Settings_init_no_command.
  - apply Settings_init_decides_last.
Qed.

End SettingsFacts.

(** The four cases on the reference platform: a fresh subject, a completed
    output with and without the resample flag, an interrupted output. *)
Lemma resume_decision_witness :
  let wf := WorkFlow "/work" "164" ["32"] ["2"] 1 in
  let s := subj (Reference.ref_settings "FS") in
  @has_been_run_before Reference.platform wf s false Reference.fresh
    = Done false (wrote (<["/work/sub-01" := Dir]> Reference.fresh_fs) Reference.fresh)
  /\ (exists msg, @has_been_run_before Reference.platform wf s false Reference.completed
        = Exited OutputExists (logged Error msg Reference.completed))
  /\ @has_been_run_before Reference.platform wf s true Reference.completed
     = Done true
         (logged Info "Found completed ciftify output, only resampling to T1w/fsaverage_LR32k"
                 Reference.completed)
  /\ (exists msg, @has_been_run_before Reference.platform wf s true Reference.incomplete
        = Exited IncompleteOutput (logged Error msg Reference.incomplete)).
Proof.
  intros wf s. split; [|split; [|split]].
  - apply (proj1 (proj1 (@resume_decision Reference.platform wf s false Reference.fresh)
                    eq_refl) eq_refl).
  - apply (proj1 (proj2 (@resume_decision Reference.platform wf s false Reference.completed))
             eq_refl eq_refl).
  - apply (proj1 (proj2 (proj2 (@resume_decision Reference.platform wf s true
             Reference.completed))) eq_refl eq_refl eq_refl).
  - apply (proj1 (proj2 (proj2 (proj2 (@resume_decision Reference.platform wf s true
             Reference.incomplete)))) eq_refl eq_refl eq_refl).
Defined.

(** ** The user-supplied transforms *)

Section Transforms.
Context `{Collaborators}.
Import PyStr OsPath.

Lemma never_returns_bind_l {A B} (m : M A) (k : A -> M B) :
  never_returns m -> never_returns (m ≫= k).
Proof.
  intros Hm w. specialize (Hm w). unfold mbind, M_bind. by destruct (m w).
Qed.

Lemma never_returns_bind_r {A B} (m : M A) (k : A -> M B) :
  (forall a, never_returns (k a)) -> never_returns (m ≫= k).
Proof.
  intros Hk w. unfold mbind, M_bind. destruct (m w) as [a w'| |]; [apply Hk|simpl; tauto..].
Qed.

Lemma join_subfolder_present p cfg key v w :
  cfg !! key = Some v ->
  join_subfolder p cfg key w = Done (<[key := VStr (join p [cfg_str v])]> cfg) w.
Proof. intros E. unfold join_subfolder. by rewrite E. Qed.

(** the three folders of the registration settings, made absolute *)
Lemma fold_keys_present p cfg src dst xfm w :
  cfg !! "src_dir" = Some src -> cfg !! "dest_dir" = Some dst ->
  cfg !! "xfms_dir" = Some xfm ->
  fold_keys (join_subfolder p) ["src_dir"; "dest_dir"; "xfms_dir"] cfg w
  = Done (<["xfms_dir" := VStr (join p [cfg_str xfm])]>
            (<["dest_dir" := VStr (join p [cfg_str dst])]>
               (<["src_dir" := VStr (join p [cfg_str src])]> cfg))) w.
Proof.
  intros E1 E2 E3. cbn [fold_keys].
  rewrite (bind_Done _ _ _ _ _ (join_subfolder_present p _ _ _ w E1)).
  assert (E2' : <["src_dir" := VStr (join p [cfg_str src])]> cfg !! "dest_dir" = Some dst)
    by (by rewrite lookup_insert_ne).
  rewrite (bind_Done _ _ _ _ _ (join_subfolder_present p _ _ _ w E2')).
  assert (E3' : <["dest_dir" := VStr (join p [cfg_str dst])]>
                  (<["src_dir" := VStr (join p [cfg_str src])]> cfg) !! "xfms_dir"
                = Some xfm)
    by (by rewrite !lookup_insert_ne).
  by rewrite (bind_Done _ _ _ _ _ (join_subfolder_present p _ _ _ w E3')).
Qed.

Lemma define_registration_settings_one_missing wf s nonlin lin method res :
  truthy nonlin <> truthy lin ->
  never_returns (define_registration_settings wf s nonlin lin method res).
Proof.
  intros Hone. unfold define_registration_settings.
  do 3 (apply never_returns_bind_r; intros ?). cbv zeta.
  destruct (truthy nonlin), (truthy lin); try done; cbn [orb andb];
    apply never_returns_bind_r; intros ? w; simpl; tauto.
Qed.

Lemma aborts_reading_bind_l {A B} (m : M A) (k : A -> M B) :
  preserves only_logged m /\ never_returns m ->
  preserves only_logged (m ≫= k) /\ never_returns (m ≫= k).
Proof.
  intros [Hp Hn]. split; [|by apply never_returns_bind_l].
  intros w. specialize (Hp w). specialize (Hn w). unfold mbind, M_bind.
  by destruct (m w).
Qed.

Lemma aborts_reading_bind_r {A B} (m : M A) (k : A -> M B) :
  preserves only_logged m ->
  (forall a, preserves only_logged (k a) /\ never_returns (k a)) ->
  preserves only_logged (m ≫= k) /\ never_returns (m ≫= k).
Proof.
  intros Hm Hk. split.
  - apply preserves_bind; [exact _|done|]. intros a. apply Hk.
  - apply never_returns_bind_r. intros a. apply Hk.
Qed.

(** With one transform only, [Settings.__init__] ends the run before the
    resume decision: it has only read the file system and called the
    logger. *)
Lemma Settings_init_one_missing args :
  truthy (arg_read_non_lin_xfm args) <> truthy (arg_read_lin_premat args) ->
  preserves only_logged (Settings_init args) /\ never_returns (Settings_init args).
Proof.
  intros Hone. unfold Settings_init.
  apply aborts_reading_bind_r; [by intros w|intros f].
  apply aborts_reading_bind_r; [apply preserves_collaborator; same_side|intros wf].
  apply aborts_reading_bind_r; [apply set_registration_mode_reads|intros [rn msm]].
  apply aborts_reading_bind_r; [apply set_fs_subjects_dir_reads|intros fs_root].
  apply aborts_reading_bind_r; [apply get_subject_reads|intros sb].
  apply aborts_reading_bind_r; [apply preserves_collaborator; same_side|intros dd].
  apply aborts_reading_bind_r; [apply get_freesurfer_license_reads|intros lic].
  apply aborts_reading_bind_r; [apply define_dscalars_reads|intros ds].
  apply aborts_reading_bind_l. split.
  - apply define_registration_settings_reads.
  - by apply define_registration_settings_one_missing.
Qed.

End Transforms.

Section TransformPair.
Context `{Collaborators}.
Import PyStr OsPath.

(** C4. The optional user transforms (non-linear warp, linear premat):
    - exactly one supplied: [__define_registration_settings] ends the run
      (critical message, exit), and so does [Settings.__init__], which by
      then has only read the file system and called the logger: no command
      has been issued and, with no log file attached to the logger (as in
      [main], which attaches it after the construction of the settings),
      nothing has been written: the output root has not been created;
    - both supplied (and readable): both are recorded in the registration
      settings;
    - none supplied: both entries are [False] and the settings are
      returned. *)
Theorem transform_pair_both_or_neither
  (wf : workflow) (s : subject) (nonlin lin : option string)
  (cfg0 rc : gmap string cfgval) (src dst xfm : cfgval) (w : world) :
  get_config_entry wf "registration" = Some cfg0 ->
  cfg0 !! "src_dir" = Some src ->
  cfg0 !! "dest_dir" = Some dst ->
  cfg0 !! "xfms_dir" = Some xfm ->
  get_resolution_config wf "FSL_fnirt" "2mm" = Some rc ->
  let result := define_registration_settings wf s nonlin lin "FSL_fnirt" "2mm" w in
  (truthy nonlin <> truthy lin ->
     result = Exited TransformPairIncomplete
       (logged Critical
          "if inputing user transforms, both linear and non-linear input files are needed" w))
  /\ (truthy nonlin = true -> truthy lin = true ->
      check_input_readable (default "" nonlin) (fs w) = true ->
      check_input_readable (default "" lin) (fs w) = true ->
      exists cfg, result = Done cfg w
        /\ cfg !! "User_AtlasTransform_NonLinear" = VStr <$> nonlin
        /\ cfg !! "User_AtlasTransform_Linear" = VStr <$> lin)
  /\ (truthy nonlin = false -> truthy lin = false ->
      exists cfg, result = Done cfg w
        /\ cfg !! "User_AtlasTransform_NonLinear" = Some VFalse
        /\ cfg !! "User_AtlasTransform_Linear" = Some VFalse)
  /\ (forall args w0,
        truthy (arg_read_non_lin_xfm args) <> truthy (arg_read_lin_premat args) ->
        ~ is_Done (Settings_init args w0)
        /\ only_logged w0 (final (Settings_init args w0))
        /\ (handlers w0 = [] -> same_state w0 (final (Settings_init args w0)))).
Proof.
  intros Hcfg Hsrc Hdst Hxfm Hres result. subst result.
  unfold define_registration_settings.
  rewrite Hcfg, Hres. rewrite bind_collaborator_at.
  rewrite (bind_Done _ _ _ _ _ (fold_keys_present (path s) cfg0 src dst xfm w Hsrc Hdst Hxfm)).
  rewrite bind_collaborator_at. cbv zeta.
  split; [|split; [|split]].
  - intros Hone. destruct (truthy nonlin), (truthy lin); try done; cbn [orb andb]; by steps.
  - intros Hn Hl R1 R2. rewrite Hn, Hl. cbn [orb andb].
    steps. rewrite R1. steps. rewrite R2. steps.
    eexists. split; [reflexivity|].
    destruct nonlin as [x|]; [|done]. destruct lin as [y|]; [|done]. simpl. split.
    + by rewrite lookup_insert_ne, lookup_insert_eq.
    + by rewrite lookup_insert_eq.
  - intros -> ->. cbn [orb]. eexists. split; [reflexivity|]. split.
    + by rewrite lookup_insert_ne, lookup_insert_eq.
    + by rewrite lookup_insert_eq.
  - intros args w0 Hone.
    destruct (Settings_init_one_missing args Hone) as [Hp Hn].
    split; [apply Hn|]. split; [apply Hp|]. intros Hh. split.
    + by apply only_logged_unattached.
    + apply (Hp w0).
Qed.

End TransformPair.

(** On the reference platform: the warp alone, both files, and none. *)
Lemma transform_pair_both_or_neither_witness :
  let wf := WorkFlow "/work" "164" ["32"] ["2"] 1 in
  let s := subj (Reference.ref_settings "FS") in
  let define := @define_registration_settings Reference.platform wf s in
  define (Some "/xfm/warp.nii.gz") None "FSL_fnirt" "2mm" Reference.fresh
    = Exited TransformPairIncomplete
        (logged Critical
           "if inputing user transforms, both linear and non-linear input files are needed"
           Reference.fresh)
  /\ (exists cfg,
        define (Some "/xfm/warp.nii.gz") (Some "/xfm/premat.mat") "FSL_fnirt" "2mm"
               Reference.fresh = Done cfg Reference.fresh
        /\ cfg !! "User_AtlasTransform_NonLinear" = Some (VStr "/xfm/warp.nii.gz")
        /\ cfg !! "User_AtlasTransform_Linear" = Some (VStr "/xfm/premat.mat"))
  /\ (exists cfg,
        define None None "FSL_fnirt" "2mm" Reference.fresh = Done cfg Reference.fresh
        /\ cfg !! "User_AtlasTransform_NonLinear" = Some VFalse
        /\ cfg !! "User_AtlasTransform_Linear" = Some VFalse).
Proof.
  intros wf s define. split; [|split].
  - refine (proj1 (@transform_pair_both_or_neither Reference.platform wf s
      (Some "/xfm/warp.nii.gz") None Reference.ref_registration Reference.ref_resolution
      (VStr "T1w") (VStr "MNINonLinear") (VStr "MNINonLinear/xfms") Reference.fresh
      eq_refl eq_refl eq_refl eq_refl eq_refl) _).
    simpl. discriminate.
  - exact (proj1 (proj2 (@transform_pair_both_or_neither Reference.platform wf s
      (Some "/xfm/warp.nii.gz") (Some "/xfm/premat.mat") Reference.ref_registration
      Reference.ref_resolution
      (VStr "T1w") (VStr "MNINonLinear") (VStr "MNINonLinear/xfms") Reference.fresh
      eq_refl eq_refl eq_refl eq_refl eq_refl)) eq_refl eq_refl eq_refl eq_refl).
  - exact (proj1 (proj2 (proj2 (@transform_pair_both_or_neither Reference.platform wf s
      None None Reference.ref_registration Reference.ref_resolution
      (VStr "T1w") (VStr "MNINonLinear") (VStr "MNINonLinear/xfms") Reference.fresh
      eq_refl eq_refl eq_refl eq_refl eq_refl))) eq_refl eq_refl).
Defined.

(** ** The MSM configuration *)

Section MsmConfig.
Context `{Collaborators}.
Import PyStr OsPath.

Lemma check_msm_config_file conf text w :
  fs w !! conf = Some (File text) ->
  check_msm_config conf w
  = Done (forallb (msm_arg_ok (msm_printoptions (fs w))) (msm_arg_list text)) w.
Proof. intros E. unfold check_msm_config. rewrite bind_get_fs_at. by rewrite E. Qed.

(** up to the check, [__set_registration_mode] in MSMSulc mode *)
Lemma set_registration_mode_msm args conf text w :
  get_registration_mode args = Some "MSMSulc" ->
  verify_msm_available = true ->
  msm_config_in_use args = Some conf ->
  fs w !! conf = Some (File text) ->
  set_registration_mode args w
  = if forallb (msm_arg_ok (msm_printoptions (fs w))) (msm_arg_list text)
    then Done ("MSMSulc", Some conf) w
    else Exited MsmConfigMismatch
           (logged Error ("Running version of MSM does not match config " +:+ conf) w).
Proof.
  intros Hmode Hmsm Hconf Hfile. unfold set_registration_mode.
  rewrite Hmode, bind_collaborator_at. cbn [String.eqb Ascii.eqb Bool.eqb].
  rewrite Hmsm. steps.
  unfold msm_config_in_use in Hconf.
  destruct (truthy (arg_MSM_config args)) eqn:Ht; cbn [negb andb].
  - rewrite Hconf. change (default "" (Some conf)) with conf.
    unfold path_exists. rewrite Hfile. cbn [negb]. steps.
    rewrite (bind_Done _ _ _ _ _ (check_msm_config_file conf text w Hfile)).
    by destruct (forallb _ _); steps.
  - destruct find_ciftify_global as [g|]; [|done].
    rewrite bind_assoc_at, bind_collaborator_at, bind_ret_at.
    replace (join g ["hcp_config"; "MSMSulcStrainFinalconf"]) with conf
      by (by injection Hconf).
    rewrite (bind_Done _ _ _ _ _ (check_msm_config_file conf text w Hfile)).
    by destruct (forallb _ _); steps.
Qed.


End MsmConfig.


(** C5 as stated fails, both ways.  The test of [check_msm_config] is a
    substring test on the text that the tool prints, and the options are
    cut out of the lines by position.  On the reference platform, whose
    tool reports --simval, --sigma_in, --sigma_ref, --lambda, --it, --opt
    and --CPgrid: a configuration that names the option '--sigma', which
    the tool does not report, is accepted and the settings are built; and a
    configuration whose only line is '--dopt' without a line end is read as
    '--dop' and refused. *)
Lemma msm_config_test_is_textual :
  let args := Reference.args_MSM (Some "/conf/MSMSulc") in
  let err := @msm_printoptions Reference.platform Reference.fresh_fs in
  let partial := "--sigma=2" +:+ newline in
  let unterminated := "--dopt" in
  (spec_options_named partial = ["--sigma"]
   /\ "--sigma" <> "--dopt"
   /\ ~ In "--sigma" (spec_options_reported err)
   /\ @set_registration_mode Reference.platform args (Reference.with_msm_conf partial)
      = Done ("MSMSulc", Some "/conf/MSMSulc") (Reference.with_msm_conf partial)
   /\ is_Done (@Settings_init Reference.platform args (Reference.with_msm_conf partial)))
  /\ (spec_options_named unterminated = ["--dopt"]
      /\ msm_arg_list unterminated = ["--dop"]
      /\ @main Reference.platform args (Reference.with_msm_conf unterminated)
         = Exited MsmConfigMismatch
             (logged Error "Running version of MSM does not match config /conf/MSMSulc"
                     (Reference.with_msm_conf unterminated))).
Proof.
  intros args err partial unterminated. split.
  - split; [reflexivity|]. split; [discriminate|]. split.
    + vm_compute. intros Hin. repeat (destruct Hin as [Hin|Hin]; [discriminate Hin|]).
      exact Hin.
    + split; [reflexivity|]. vm_compute. exact I.
  - split; [reflexivity|]. split; reflexivity.
Qed.

(** ** Areal distortion *)

Section ArealDistortion.
Context `{Collaborators}.
Local Open Scope R_scope.

Lemma metric_mathR_nth e bindings v :
  (v < nvertices bindings)%nat ->
  nth v (metric_mathR e bindings) 0
  = evalR e (fun x => nth v (file_of bindings x) 0).
Proof.
  intros Hv. unfold metric_mathR.
  rewrite (nth_indep _ 0 (evalR e (fun x => nth 0%nat (file_of bindings x) 0))).
  2:{ by rewrite length_map, length_seq. }
  rewrite (map_nth (fun v => evalR e (fun x => nth v (file_of bindings x) 0))).
  by rewrite seq_nth.
Qed.

Lemma ln_2_neq_0 : ln 2 <> 0.
Proof. pose proof ln_lt_2. lra. Qed.

(** the commands of [calc_areal_distortion_gii], with the scratch
    directory [d] *)
Lemma calc_areal_distortion_gii_commands sphere_pre sphere_reg out map_prefix map_postfix w :
  DRYRUN = false ->
  (forall c f, tool_returncode c f = 0%Z) ->
  let d := mkdtemp (fs w) in
  let pre_va := OsPath.join d ["sphere_pre_va.shape.gii"] in
  let reg_va := OsPath.join d ["sphere_reg_va.shape.gii"] in
  cmds (final (calc_areal_distortion_gii sphere_pre sphere_reg out map_prefix map_postfix w))
  = (cmds w ++
     [ ["wb_command"; "-surface-vertex-areas"; sphere_pre; pre_va];
       ["wb_command"; "-surface-vertex-areas"; sphere_reg; reg_va];
       ["wb_command"; "-metric-math"; PyStr.quoted (show areal_distortion_expr);
        out; "-var"; "sphere"; pre_va; "-var"; "spherereg"; reg_va];
       ["wb_command"; "-set-map-names"; out; "-map"; "1";
        map_prefix +:+ "_Areal_Distortion_" +:+ map_postfix];
       ["wb_command"; "-metric-palette"; out; "MODE_AUTO_SCALE"; "-palette-name";
        "ROY-BIG-BL"; "-thresholding"; "THRESHOLD_TYPE_NORMAL";
        "THRESHOLD_TEST_SHOW_OUTSIDE"; "-1"; "1"] ])%list.
Proof.
  intros Hdry Hok d pre_va reg_va.
  assert (Hd : DRYRUN || DRYRUN = false) by (by rewrite Hdry).
  unfold calc_areal_distortion_gii, with_TempDir. fold d. fold pre_va. fold reg_va.
  do 5 (rewrite (bind_Done _ _ _ _ _ (run_ok _ _ _ Hd (Hok _ _))); cbv beta).
  simpl. by rewrite <- !app_assoc.
Qed.

(** C2. The areal distortion written by [calc_areal_distortion_gii] is,
    at every vertex, ln(post / pre) / ln(2) of the vertex areas of the
    sphere after and before registration, that is the base-2 logarithm of
    their ratio; where the two areas are equal (and positive) it is 0.
    Vertex areas are taken as real numbers. *)
Theorem areal_distortion_is_log2_of_area_ratio (pre_va reg_va : list R) (v : nat) :
  (v < length pre_va)%nat ->
  let pre := nth v pre_va 0 in
  let post := nth v reg_va 0 in
  let distortion := nth v (areal_distortion pre_va reg_va) 0 in
  show areal_distortion_expr = "(ln(spherereg / sphere) / ln(2))"
  /\ (forall sphere_pre sphere_reg out map_prefix map_postfix w,
        DRYRUN = false -> (forall c f, tool_returncode c f = 0%Z) ->
        let d := mkdtemp (fs w) in
        let pre_file := OsPath.join d ["sphere_pre_va.shape.gii"] in
        let reg_file := OsPath.join d ["sphere_reg_va.shape.gii"] in
        exists after,
          cmds (final (calc_areal_distortion_gii sphere_pre sphere_reg out map_prefix
                         map_postfix w))
          = (cmds w ++
             [ ["wb_command"; "-surface-vertex-areas"; sphere_pre; pre_file];
               ["wb_command"; "-surface-vertex-areas"; sphere_reg; reg_file];
               ["wb_command"; "-metric-math"; PyStr.quoted (show areal_distortion_expr);
                out; "-var"; "sphere"; pre_file; "-var"; "spherereg"; reg_file] ]
             ++ after)%list)
  /\ distortion = ln (post / pre) / ln 2
  /\ (0 < pre -> 0 < post -> Rpower 2 distortion = post / pre)
  /\ (0 < pre -> post = pre -> distortion = 0).
Proof.
  intros Hv pre post distortion.
  assert (E : distortion = ln (post / pre) / ln 2).
  { subst distortion. unfold areal_distortion. by rewrite metric_mathR_nth. }
  split; [by vm_compute|]. split.
  { intros sphere_pre sphere_reg out map_prefix map_postfix w Hdry Hok d pre_file reg_file.
    rewrite (calc_areal_distortion_gii_commands _ _ _ _ _ _ Hdry Hok).
    fold d. fold pre_file. fold reg_file. eexists. reflexivity. }
  split; [exact E|]. split.
  - intros Hpre Hpost. rewrite E. unfold Rpower.
    replace (ln (post / pre) / ln 2 * ln 2) with (ln (post / pre)).
    + apply exp_ln. by apply Rdiv_lt_0_compat.
    + field. apply ln_2_neq_0.
  - intros Hpre ->. rewrite E. unfold Rdiv at 2. rewrite Rinv_r by lra.
    rewrite ln_1. unfold Rdiv. apply Rmult_0_l.
Qed.

End ArealDistortion.

(** Two vertices: the area is doubled at the first one and kept at the
    second one. *)
Lemma areal_distortion_is_log2_of_area_ratio_witness :
  (Rpower 2 (nth 0 (areal_distortion [1; 3] [2; 3]) 0) = 2 / 1
   /\ nth 1 (areal_distortion [1; 3] [2; 3]) 0 = 0)%R.
Proof.
  split.
  - refine (proj1 (proj2 (proj2 (proj2 (@areal_distortion_is_log2_of_area_ratio
      Reference.platform [1; 3] [2; 3] 0 _)))) _ _)%R;
      simpl; [lia|lra|lra].
  - refine (proj2 (proj2 (proj2 (proj2 (@areal_distortion_is_log2_of_area_ratio
      Reference.platform [1; 3] [2; 3] 1 _)))) _ _)%R;
      simpl; [lia|lra|reflexivity].
Defined.

(** ** The medial wall ROI *)

Section MedialWall.

Lemma mapM_total {A B} (f : A -> option B) (g : A -> B) (l : list A) :
  (forall x, f x = Some (g x)) -> mapM f l = Some (g <$> l).
Proof.
  intros Hf. induction l as [|x l IH]; [done|].
  cbn [mapM]. rewrite Hf. simpl. by rewrite IH.
Qed.

Lemma nth_roi_of_mask (m : list bool) (v : nat) (b : bool) :
  m !! v = Some b -> nth v (roi_of_mask m) 0%Z = if b then 1%Z else 0%Z.
Proof.
  intros E. rewrite nth_lookup. unfold roi_of_mask.
  by rewrite list_lookup_fmap, E.
Qed.

(** the merged ROI, vertex by vertex *)
Lemma merge_roi_values (atlas individual : list Z) :
  merge_roi atlas individual
  = Some ((fun v => if (0 <? nth v atlas 0 + nth v individual 0)%Z then 1%Z else 0%Z)
            <$> seq 0 (length atlas)).
Proof.
  unfold merge_roi, metric_mathZ. by apply mapM_total.
Qed.

Lemma merge_roi_of_masks (atlas individual : list bool) :
  length atlas = length individual ->
  merge_roi (roi_of_mask atlas) (roi_of_mask individual)
  = Some (roi_of_mask (zip_with orb individual atlas)).
Proof.
  intros Hlen. rewrite merge_roi_values. f_equal.
  apply list_eq. intros v.
  assert (Hl : length (roi_of_mask atlas) = length atlas)
    by (unfold roi_of_mask; by rewrite length_fmap).
  rewrite Hl. unfold roi_of_mask at 3.
  rewrite !list_lookup_fmap, lookup_zip_with.
  destruct (decide (v < length atlas)%nat) as [Hv|Hv].
  - rewrite lookup_seq_lt by done.
    destruct (lookup_lt_is_Some_2 atlas v Hv) as [a Ha].
    destruct (lookup_lt_is_Some_2 individual v ltac:(lia)) as [i Hi].
    rewrite Ha, Hi. simpl.
    rewrite (nth_roi_of_mask _ _ _ Ha), (nth_roi_of_mask _ _ _ Hi).
    by destruct a, i.
  - rewrite lookup_seq_ge by lia.
    rewrite (lookup_ge_None_2 atlas) by lia.
    by destruct (individual !! v).
Qed.

(** the subject's ROI keeps the vertices of positive thickness *)
Lemma thickness_roi_values (thickness : list Z) :
  thickness_roi thickness
  = Some ((fun t => if (0 <? t)%Z then 1%Z else 0%Z) <$> thickness).
Proof.
  unfold thickness_roi, metric_mathZ.
  rewrite (mapM_total _ (fun v => if (0 <? nth v thickness 0)%Z then 1%Z else 0%Z))
    by done.
  f_equal. apply list_eq. intros v. rewrite !list_lookup_fmap. simpl.
  destruct (decide (v < length thickness)%nat) as [Hv|Hv].
  - rewrite lookup_seq_lt by done.
    destruct (lookup_lt_is_Some_2 thickness v Hv) as [t Ht].
    rewrite Ht. simpl. by rewrite nth_lookup, Ht.
  - rewrite lookup_seq_ge by lia. by rewrite (lookup_ge_None_2 thickness) by lia.
Qed.

(** C3, as amended.  On 0/1 ROI masks of the same length, the merge of
    [merge_subject_medial_wall_with_atlas_template] is the vertex-wise OR of
    the subject's mask and the atlas mask.  The value 1 keeps a vertex in
    the ROI (the subject's mask is [thickness > 0]): every vertex that the
    atlas mask keeps is kept by the merged mask, a vertex is left out
    (non-cortex) by the merged mask exactly when both masks leave it out,
    and merging a mask with itself gives the mask back. *)
Theorem merge_roi_is_union_of_kept_vertices (atlas individual : list bool) :
  length atlas = length individual ->
  let merged := roi_of_mask (zip_with orb individual atlas) in
  show merge_roi_expr = "(atlas + individual) > 0"
  /\ (forall thickness,
        thickness_roi thickness
        = Some ((fun t => if (0 <? t)%Z then 1%Z else 0%Z) <$> thickness))
  /\ merge_roi (roi_of_mask atlas) (roi_of_mask individual) = Some merged
  /\ (forall v, in_roi (roi_of_mask atlas) v -> in_roi merged v)
  /\ (forall v, non_cortex merged v
        <-> non_cortex (roi_of_mask atlas) v /\ non_cortex (roi_of_mask individual) v)
  /\ merge_roi (roi_of_mask atlas) (roi_of_mask atlas) = Some (roi_of_mask atlas).
Proof.
  intros Hlen merged. split; [by vm_compute|].
  split; [apply thickness_roi_values|].
  split; [by apply merge_roi_of_masks|].
  assert (Hm : forall v a i, atlas !! v = Some a -> individual !! v = Some i ->
                 merged !! v = Some (if i || a then 1%Z else 0%Z)).
  { intros v a i Ha Hi. unfold merged, roi_of_mask.
    by rewrite list_lookup_fmap, lookup_zip_with, Hi, Ha. }
  split; [|split].
  - intros v. unfold in_roi. unfold roi_of_mask at 1. rewrite list_lookup_fmap.
    destruct (atlas !! v) as [a|] eqn:Ha; [|done].
    destruct (lookup_lt_is_Some_2 individual v) as [i Hi].
    { rewrite <- Hlen. by eapply lookup_lt_Some. }
    rewrite (Hm v a i Ha Hi). destruct a; [|done]. by rewrite orb_true_r.
  - intros v. unfold non_cortex.
    destruct (atlas !! v) as [a|] eqn:Ha.
    + destruct (lookup_lt_is_Some_2 individual v) as [i Hi].
      { rewrite <- Hlen. by eapply lookup_lt_Some. }
      rewrite (Hm v a i Ha Hi). unfold roi_of_mask. rewrite !list_lookup_fmap, Ha, Hi.
      destruct a, i; simpl; intuition congruence.
    + unfold merged, roi_of_mask.
      rewrite !list_lookup_fmap, lookup_zip_with, Ha.
      destruct (individual !! v); simpl; intuition congruence.
  - rewrite merge_roi_of_masks by done. do 2 f_equal.
    apply list_eq. intros v. rewrite lookup_zip_with.
    destruct (atlas !! v) as [[]|]; done.
Qed.

End MedialWall.

(** Two vertices: the atlas keeps the first one only, the subject the
    second one only; the merged mask keeps both. *)
Lemma merge_roi_is_union_of_kept_vertices_witness :
  merge_roi (roi_of_mask [true; false]) (roi_of_mask [false; true])
  = Some (roi_of_mask [true; true]).
Proof.
  exact (proj1 (proj2 (proj2 (merge_roi_is_union_of_kept_vertices [true; false]
                                [false; true] eq_refl)))).
Defined.

(** C3 as stated fails: the atlas mask leaves a vertex out (non-cortex,
    value 0), the subject has cortex of positive thickness there, and the
    merged mask keeps the vertex: the non-cortex mark of the atlas is not
    kept. *)
Lemma merge_roi_drops_atlas_non_cortex :
  exists atlas individual merged v,
    atlas = roi_of_mask [false]
    /\ thickness_roi [2%Z] = Some individual
    /\ merge_roi atlas individual = Some merged
    /\ non_cortex atlas v
    /\ ~ non_cortex merged v.
Proof.
  exists [0%Z], [1%Z], [1%Z], 0%nat.
  split; [reflexivity|]. split; [reflexivity|]. split; [reflexivity|].
  split; [reflexivity|]. unfold non_cortex. simpl. discriminate.
Qed.

(** ** Order of a resampling pass *)

Section ResamplingOrder.
Context `{Collaborators}.

Lemma bind_run_ext {B} c d (k k' : Z -> M B) w :
  (forall rc w', k rc w' = k' rc w') -> (run c d ≫= k) w = (run c d ≫= k') w.
Proof.
  intros Hk. unfold mbind, M_bind. destruct (run c d w); auto.
Qed.

(** a command preserves [R] as soon as issuing it for real does *)
Lemma preserves_run_real (R : world -> world -> Prop) `{!PreOrder R} cmd d :
  (DRYRUN = false -> forall w, R w (issued cmd w)) -> preserves R (run cmd d).
Proof.
  intros Hc w.
  destruct (run_cases cmd d w) as [[_ ->]|[Hd [->| ->]]]; simpl; [reflexivity|..];
    apply Hc; by destruct DRYRUN.
Qed.

Lemma issued_only_issued (P : list string -> Prop) cmd w :
  P cmd -> issued_only P w (issued cmd w).
Proof. intros Hp. exists [cmd]. split; [done|]. by constructor. Qed.

Lemma run_all_trace cs d w :
  exists l,
    cmds (final (run_all cs d w)) = cmds w ++ l
    /\ l `prefix_of` cs
    /\ (is_Done (run_all cs d w) -> DRYRUN || d = false -> l = cs)
    /\ (DRYRUN || d = true -> run_all cs d w = Done tt w).
Proof.
  revert w. induction cs as [|c cs IH]; intros w.
  - exists []. simpl. rewrite app_nil_r. by repeat split.
  - unfold run_all in *. cbn [for_each]. rewrite bind_assoc_at.
    destruct (run_cases c d w) as [[Hd E]|[Hd [E|E]]].
    + rewrite (bind_Done _ _ _ _ _ E), bind_ret_at.
      destruct (IH w) as (l & E1 & E2 & E3 & E4).
      exists []. rewrite (E4 Hd). simpl. rewrite app_nil_r.
      repeat split; [apply prefix_nil|congruence].
    + rewrite (bind_Done _ _ _ _ _ E), bind_ret_at.
      destruct (IH (issued c w)) as (l & E1 & E2 & E3 & E4).
      exists (c :: l). rewrite E1. simpl. rewrite <- app_assoc. simpl.
      repeat split.
      * by apply prefix_cons.
      * intros Hdone Hd'. by rewrite (E3 Hdone Hd').
      * congruence.
    + rewrite (bind_Exited _ _ _ _ _ E). exists [c]. simpl.
      repeat split; [by apply prefix_cons, prefix_nil|done|congruence].
Qed.

(** the surface phase of the code is the list [surface_phase] *)
Lemma resample_surfs_is_surface_phase sid src dest sphere w :
  resample_surfs_and_add_to_spec sid src dest sphere "sphere" None w
  = run_all (surface_phase sid src dest sphere) false w.
Proof.
  unfold resample_surfs_and_add_to_spec, run_all, surface_phase, hemispheres.
  unfold surface_resample_cmd, add_surface_to_spec_cmd.
  cbn [for_each default]. steps.
  repeat (apply bind_run_ext; intros ? ?; steps).
  reflexivity.
Qed.

Lemma make_inflated_is_inflation_phase sid dest scale w :
  make_inflated_surfaces sid dest scale w
  = run_all (inflation_phase sid dest scale) DRYRUN w.
Proof.
  unfold make_inflated_surfaces, run_all, inflation_phase, hemispheres.
  unfold generate_inflated_cmd, add_surface_to_spec_cmd.
  cbn [for_each]. steps.
  repeat (apply bind_run_ext; intros ? ?; steps).
  reflexivity.
Qed.

End ResamplingOrder.

(** Every command of a computation satisfies a property that can be read
    off the command. *)
Ltac issues_only :=
  repeat first
    [ apply preserves_run_real;
      [ exact _
      | intros ? ?; apply issued_only_issued; repeat split;
        first [ assumption | by unfold operation; simpl ] ]
    | preserved_step ].

Section ResamplingPass.
Context `{Collaborators}.

Lemma resample_metric_and_label_after_surfaces sid ds labels src dest sphere :
  preserves (issued_only after_surfaces)
    (resample_metric_and_label sid ds labels src dest sphere).
Proof.
  unfold resample_metric_and_label, resample_and_mask_metric, resample_label.
  issues_only.
Qed.

Lemma make_dense_map_after_surfaces sid m ds labels :
  preserves (issued_only after_surfaces) (make_dense_map sid m ds labels).
Proof.
  unfold make_dense_map, create_dlabel, create_dscalar, add_dense_maps_to_spec_file.
  issues_only.
Qed.

Lemma phases_before_maps sid src dest sphere scale :
  Forall before_maps (surface_phase sid src dest sphere ++ inflation_phase sid dest scale).
Proof.
  unfold surface_phase, inflation_phase. simpl.
  repeat (constructor; [by split|]). constructor.
Qed.

(** C6. One resampling pass of [deform_to_native].  The commands issued
    by the pass are [first ++ rest] where
    - [first] is a beginning of the surface phase (the white, midthickness
      and pial surfaces of both hemispheres resampled into the destination
      mesh) followed by the inflation phase (inflated and very inflated
      surfaces generated from the midthickness surface of the destination
      mesh), none of which resamples a scalar or label map;
    - [rest] holds no surface resampling and no generation of inflated
      surfaces, and as soon as it holds a command, [first] is the two
      phases in full.
    So every surface, the new midthickness included, is resampled before
    the first scalar map, and the inflated surfaces are never resampled:
    they are regenerated from the new midthickness. *)
Theorem deform_to_native_resamples_surfaces_first
  (native dest : mesh) (ds : list (string * dscalar)) (labels : list string)
  (sid sphere scale : string) (w : world) :
  let result := deform_to_native native dest ds labels sid sphere scale w in
  let phases := surface_phase sid native dest sphere ++ inflation_phase sid dest scale in
  exists first rest,
    cmds (final result) = cmds w ++ first ++ rest
    /\ first `prefix_of` phases
    /\ Forall before_maps phases
    /\ Forall after_surfaces rest
    /\ (rest <> [] -> first = phases)
    /\ (is_Done result -> DRYRUN = false -> first = phases).
Proof.
  intros result phases.
  pose proof (phases_before_maps sid native dest sphere scale) as Hbefore.
  fold phases in Hbefore.
  assert (Hstop : forall l w', cmds w' = cmds w ++ l -> l `prefix_of` phases ->
            ~ is_Done result -> final result = w' ->
            exists first rest,
              cmds (final result) = cmds w ++ first ++ rest
              /\ first `prefix_of` phases
              /\ Forall before_maps phases
              /\ Forall after_surfaces rest
              /\ (rest <> [] -> first = phases)
              /\ (is_Done result -> DRYRUN = false -> first = phases)).
  { intros l w' E P Hn ->. exists l, []. rewrite app_nil_r.
    split_and!; [done|done|done|constructor|by intros []|by intros ?]. }
  destruct (run_all_trace (surface_phase sid native dest sphere) false w)
    as (l1 & E1 & P1 & F1 & D1).
  rewrite <- resample_surfs_is_surface_phase in E1, F1, D1.
  destruct (resample_surfs_and_add_to_spec sid native dest sphere "sphere" None w)
    as [[] w1|s1 w1|e1 w1] eqn:R1; simpl in E1.
  2:{ apply (Hstop l1 w1 E1); [by apply prefix_app_r|..];
        subst result; unfold deform_to_native; rewrite (bind_Exited _ _ _ _ _ R1);
        simpl; first [tauto|reflexivity]. }
  2:{ apply (Hstop l1 w1 E1); [by apply prefix_app_r|..];
        subst result; unfold deform_to_native; rewrite (bind_Raised _ _ _ _ _ R1);
        simpl; first [tauto|reflexivity]. }
  destruct (run_all_trace (inflation_phase sid dest scale) DRYRUN w1)
    as (l2 & E2 & P2 & F2 & D2).
  rewrite <- make_inflated_is_inflation_phase in E2, F2, D2.
  assert (Hfirst : l1 ++ l2 `prefix_of` phases
                   /\ (DRYRUN = false -> is_Done (make_inflated_surfaces sid dest scale w1) ->
                       l1 ++ l2 = phases)).
  { destruct DRYRUN eqn:Hdry.
    - specialize (D1 eq_refl). injection D1 as ->.
      rewrite D2 in E2 by done. simpl in E2.
      assert (l1 = []) as -> by (apply (app_inv_head (cmds w)); by rewrite app_nil_r).
      assert (l2 = []) as -> by (apply (app_inv_head (cmds w)); by rewrite app_nil_r).
      split; [apply prefix_nil|done].
    - rewrite (F1 I eq_refl). split.
      + by apply prefix_app.
      + intros _ Hd. by rewrite (F2 Hd eq_refl). }
  destruct Hfirst as [Hpre Hfull].
  assert (E12 : cmds (final (make_inflated_surfaces sid dest scale w1))
                = cmds w ++ l1 ++ l2) by (by rewrite E2, E1, <- app_assoc).
  destruct (make_inflated_surfaces sid dest scale w1) as [[] w2|s2 w2|e2 w2] eqn:R2;
    simpl in E12.
  2:{ apply (Hstop (l1 ++ l2) w2 E12 Hpre);
        subst result; unfold deform_to_native;
        rewrite (bind_Done _ _ _ _ _ R1), (bind_Exited _ _ _ _ _ R2);
        simpl; first [tauto|reflexivity]. }
  2:{ apply (Hstop (l1 ++ l2) w2 E12 Hpre);
        subst result; unfold deform_to_native;
        rewrite (bind_Done _ _ _ _ _ R1), (bind_Raised _ _ _ _ _ R2);
        simpl; first [tauto|reflexivity]. }
  assert (Hres : result
            = (resample_metric_and_label sid ds labels native dest sphere
               ≫= fun _ => make_dense_map sid dest ds labels) w2).
  { subst result. unfold deform_to_native.
    by rewrite (bind_Done _ _ _ _ _ R1), (bind_Done _ _ _ _ _ R2). }
  assert (Hrest : issued_only after_surfaces w2 (final result)).
  { rewrite Hres. apply (preserves_bind (issued_only after_surfaces)).
    - apply resample_metric_and_label_after_surfaces.
    - intros _. apply make_dense_map_after_surfaces. }
  destruct Hrest as (l3 & E3 & F3).
  exists (l1 ++ l2), l3. rewrite E3, E12, <- !app_assoc.
  split_and!; [done|done|done|done| |].
  - intros Hne. destruct l3 as [|c l3]; [done|].
    apply Forall_cons in F3 as [[Hdry _] _]. by apply Hfull.
  - intros _ Hdry. by apply Hfull.
Qed.

End ResamplingPass.

(** ** The resample-only run *)

Section PathFacts.
Import PyStr OsPath.

Lemma under_refl d : under d d.
Proof. unfold under, underb. by rewrite String.eqb_refl. Qed.

Lemma startswith_app a b : startswith a (a +:+ b) = true.
Proof.
  induction a as [|x a IH]; [done|].
  rewrite append_cons. cbn [startswith]. by rewrite Ascii.eqb_refl.
Qed.

Lemma under_child d b : under d (d +:+ "/" +:+ b).
Proof.
  unfold under, underb. rewrite <- append_assoc, startswith_app. apply orb_true_r.
Qed.

(** a relative name joined to the template cache lies in the cache *)
Lemma join_in_zz_templates work b :
  startswith "/" b = false ->
  under (join work ["zz_templates"]) (join (join work ["zz_templates"]) [b]).
Proof.
  intros Hb. set (zz := join work ["zz_templates"]).
  assert (Hz : exists x, zz = x +:+ "zz_templates").
  { unfold zz, join; simpl. unfold join2; simpl.
    destruct (String.eqb work "" || endswith "/" work); [by exists work|].
    exists (work +:+ "/"). by rewrite append_assoc. }
  destruct Hz as [x Hz].
  unfold join; simpl. unfold join2. rewrite Hb.
  rewrite Hz, app_nonempty_r by done. rewrite endswith_slash_app by done.
  simpl. apply under_child.
Qed.

End PathFacts.

Section ResampleOnly.
Context `{Collaborators}.
Variables (st : settings) (meshes : list (string * mesh)).
Hypothesis Htools : tools_write_outputs.
Hypothesis Hplaced : forall m, dest_mesh st meshes m -> files_in_folder (id (subj st)) m.

Local Abbreviation T := (resample_target st meshes).
Local Abbreviation W := (written_within (resample_target st meshes)).

Lemma target_surf m surface h :
  dest_mesh st meshes m -> T (surf_file (id (subj st)) surface h m).
Proof. intros Hm. left. exists m. split; [done|]. by apply (Hplaced m Hm). Qed.

Lemma target_spec m : dest_mesh st meshes m -> T (spec_file (id (subj st)) m).
Proof. intros Hm. left. exists m. split; [done|]. by apply (Hplaced m Hm). Qed.

Lemma target_real_spec m f :
  dest_mesh st meshes m -> T (realpath f (spec_file (id (subj st)) m)).
Proof.
  intros Hm. destruct (Hplaced m Hm) as (_ & _ & ->). by apply target_spec.
Qed.

Lemma target_folder m : dest_mesh st meshes m -> T (Folder m).
Proof. intros Hm. left. exists m. split; [done|]. apply under_refl. Qed.

Lemma target_zz : T (OsPath.join (work_dir (base st)) ["zz_templates"]).
Proof. right. apply under_refl. Qed.

Lemma target_via b :
  PyStr.startswith "/" b = false ->
  T (OsPath.join (OsPath.join (work_dir (base st)) ["zz_templates"]) [b]).
Proof. intros Hb. right. by apply join_in_zz_templates. Qed.

Lemma written_within_issued cmd w :
  (forall q, In q (cmd_outputs cmd) -> T q) -> W w (issued cmd w).
Proof.
  intros Hout. split; [done|]. intros p Hp _. simpl.
  apply (proj1 Htools). intros Hin. by apply Hp, Hout.
Qed.

Lemma writes_run cmd d :
  (forall q, In q (cmd_outputs cmd) -> T q) -> preserves W (run cmd d).
Proof.
  intros Hout. apply preserves_run; [exact _|]. intros w. by apply written_within_issued.
Qed.

Lemma writes_make_dir p d s : T p -> preserves W (make_dir p d s).
Proof.
  intros Hp w. split; [done|]. intros q Hq _. simpl. apply (proj2 Htools). by intros ->.
Qed.

Lemma writes_os_symlink target link : T link -> preserves W (os_symlink target link).
Proof.
  intros Hl w. unfold os_symlink. rewrite bind_get_fs_at.
  destruct (path_exists (fs w) link); simpl; [done|]. split; [done|].
  intros q Hq _. simpl. rewrite lookup_insert_ne; [done|]. by intros ->.
Qed.

Lemma preserves_for_each_in (R : world -> world -> Prop) `{!PreOrder R} {A}
  (l : list A) (f : A -> M unit) :
  (forall x, In x l -> preserves R (f x)) -> preserves R (for_each l f).
Proof.
  induction l as [|x l IH]; intros Hf; simpl.
  - apply preserves_ret; exact _.
  - apply preserves_bind; [exact _|apply Hf; by left|].
    intros _. apply IH. intros y Hy. apply Hf. by right.
Qed.

Lemma preserves_bind_get_mesh (R : world -> world -> Prop) `{!PreOrder R} {B}
  name (k : mesh -> M B) :
  (forall m, mesh_of meshes name = Some m -> preserves R (k m)) ->
  preserves R (get_mesh meshes name ≫= k).
Proof.
  intros Hk w. destruct (mesh_of meshes name) as [m|] eqn:E.
  - rewrite (bind_Done _ _ _ _ _ (get_mesh_Some meshes name m w E)). by apply Hk.
  - rewrite (bind_Raised _ _ _ _ _ (get_mesh_None meshes name w E)). simpl. reflexivity.
Qed.

Lemma writes_link_to_template_file subject_file global_file via_file :
  T subject_file -> PyStr.startswith "/" via_file = false ->
  preserves W (link_to_template_file st subject_file global_file via_file).
Proof.
  intros Hs Hv. unfold link_to_template_file.
  repeat first
    [ apply writes_os_symlink; assumption
    | apply writes_run; cbn [cmd_outputs]; simpl;
      intros q [<-|[]]; first [assumption | apply target_zz | by apply target_via]
    | preserved_step ].
Qed.

Lemma hemisphere_name_relative hemisphere structure rest :
  In (hemisphere, structure) hemispheres ->
  PyStr.startswith "/" (hemisphere +:+ rest) = false.
Proof. intros [[= <- <-]|[[= <- <-]|[]]]; reflexivity. Qed.

Lemma writes_copy_sphere_mesh m :
  dest_mesh st meshes m -> preserves W (copy_sphere_mesh_from_template st m).
Proof.
  intros Hm. unfold copy_sphere_mesh_from_template.
  apply preserves_for_each_in; [exact _|]. intros [hemisphere structure] Hh.
  apply preserves_bind; [exact _| |intros _].
  - apply writes_link_to_template_file; [by apply target_surf|].
    destruct (String.eqb _ _); [reflexivity|].
    by eapply hemisphere_name_relative.
  - apply preserves_bind; [exact _| |intros _; apply preserves_ret; exact _].
    apply writes_run. simpl. intros q [<-|[]]. by apply target_spec.
Qed.

Lemma writes_resample_to_native t1 m sphere labels an :
  dest_mesh st meshes m ->
  preserves W (resample_to_native t1 m st (id (subj st)) sphere labels an).
Proof.
  intros Hm. unfold resample_to_native.
  apply preserves_bind; [exact _|by apply writes_copy_sphere_mesh|intros _].
  unfold resample_surfs_and_add_to_spec, make_inflated_surfaces,
    add_dense_maps_to_spec_file.
  repeat first
    [ apply writes_run; simpl;
      intros q Hq; repeat (destruct Hq as [<-|Hq]); try done;
      first [ by apply target_surf | by apply target_spec | by apply target_real_spec ]
    | preserved_step ].
Qed.

Lemma writes_resampling temp_dir labels :
  preserves W (resampling_to_t1w_32k temp_dir st meshes labels).
Proof.
  unfold resampling_to_t1w_32k. cbv beta iota zeta delta [get_reg_sphere_names].
  apply preserves_bind; [exact _|apply preserves_get_mesh; same_side|intros an].
  apply preserves_bind; [exact _|apply preserves_get_fs; same_side|intros f].
  apply preserves_bind; [exact _|preserved|intros _].
  apply preserves_for_each_in; [exact _|]. intros res Hres. cbv zeta.
  apply preserves_bind; [exact _|apply preserves_log; same_side|intros _].
  apply preserves_bind_get_mesh; [exact _|]. intros m Hm.
  assert (Hd : dest_mesh st meshes m) by (by exists res).
  apply preserves_bind; [exact _|apply preserves_get_fs; same_side|intros f'].
  apply preserves_bind; [exact _| |intros _].
  { destruct (negb _); [|apply preserves_ret; exact _].
    apply preserves_bind_get_mesh; [exact _|]. intros m' Hm'.
    apply writes_make_dir. rewrite Hm in Hm'. injection Hm' as <-. by apply target_folder. }
  apply preserves_bind_get_mesh; [exact _|]. intros m1 Hm1.
  rewrite Hm in Hm1. injection Hm1 as <-.
  apply preserves_bind; [exact _| |intros _].
  { unfold add_anat_images_to_spec_files. cbn [for_each snd].
    repeat first
      [ apply writes_run; simpl; intros q [<-|[]]; by apply target_real_spec
      | preserved_step ]. }
  apply preserves_bind; [exact _|apply preserves_get_mesh; same_side|intros t1].
  apply preserves_bind_get_mesh; [exact _|]. intros m2 Hm2.
  rewrite Hm in Hm2. injection Hm2 as <-.
  apply preserves_bind; [exact _|apply preserves_get_mesh; same_side|intros an'].
  by apply writes_resample_to_native.
Qed.

End ResampleOnly.

Section ResampleOnlyRun.
Context `{Collaborators}.

Lemma preserves_set_fs_cmds P f : preserves (issued_only P) (set_fs f).
Proof. intros w. exists []. simpl. by rewrite app_nil_r. Qed.

Lemma resampling_issues_resampling_commands temp_dir st meshes labels :
  preserves (issued_only resampling_command)
    (resampling_to_t1w_32k temp_dir st meshes labels).
Proof.
  unfold resampling_to_t1w_32k, add_anat_images_to_spec_files, resample_to_native,
    copy_sphere_mesh_from_template, link_to_template_file, os_symlink, make_dir,
    resample_surfs_and_add_to_spec, make_inflated_surfaces, add_dense_maps_to_spec_file.
  cbv beta iota zeta delta [get_reg_sphere_names].
  repeat first
    [ apply preserves_set_fs_cmds
    | apply preserves_run; [exact _|];
      intros ?; apply issued_only_issued;
      unfold resampling_command, operation; simpl; auto 10
    | preserved_step ].
Qed.

Lemma pars_recon_all_logs_reads fs_dir : preserves only_logged (pars_recon_all_logs fs_dir).
Proof. unfold pars_recon_all_logs. preserved. Qed.

Lemma log_inputs_reads fs_dir work subject_id reg msm :
  preserves only_logged (log_inputs fs_dir work subject_id reg msm).
Proof. unfold log_inputs. preserved. Qed.

Lemma log_build_environment_reads st : preserves only_logged (log_build_environment st).
Proof. unfold log_build_environment. preserved. Qed.

(** the run in resample-only mode *)
Lemma run_resample_only temp_dir st w :
  skip_main_wf st = true ->
  run_ciftify_recon_all temp_dir st w
  = (log_inputs (fs_root_dir st) (work_dir (base st)) (id (subj st)) (registration st)
       (msm_config st);;
     log_build_environment st;;
     fs_version ← pars_recon_all_logs (fs_folder (subj st));
     log Debug "Defining Settings";;
     log Info "Found completed ciftify output, only resampling to T1w/fsaverage_LR32k";;
     (if resample st
      then resampling_to_t1w_32k temp_dir st
             (define_meshes (path (subj st)) temp_dir (high_res (base st)) (low_res (base st))
                (resample st))
             (define_expected_labels fs_version)
      else mret tt);;
     log Info (section_header "Done");;
     mret 0%Z) w.
Proof. intros Hskip. unfold run_ciftify_recon_all. by rewrite Hskip. Qed.

(** every step of the run in resample-only mode keeps a relation that
    calls of the logger and the resampling step keep *)
Lemma run_resample_only_preserves (R : world -> world -> Prop) `{!PreOrder R}
  temp_dir st :
  (forall w w', only_logged w w' -> R w w') ->
  skip_main_wf st = true ->
  (forall labels,
     preserves R
       (resampling_to_t1w_32k temp_dir st
          (define_meshes (path (subj st)) temp_dir (high_res (base st)) (low_res (base st))
             (resample st))
          labels)) ->
  preserves R (run_ciftify_recon_all temp_dir st).
Proof.
  intros HR Hskip Hres w. rewrite (run_resample_only _ _ _ Hskip). revert w.
  apply preserves_bind; [exact _|by apply preserves_same, log_inputs_reads|intros _].
  apply preserves_bind; [exact _|by apply preserves_same, log_build_environment_reads|intros _].
  apply preserves_bind; [exact _|by apply preserves_same, pars_recon_all_logs_reads|intros v].
  apply preserves_bind; [exact _|by apply preserves_log|intros _].
  apply preserves_bind; [exact _|by apply preserves_log|intros _].
  apply preserves_bind; [exact _| |intros _].
  { destruct (resample st); [apply Hres|by apply preserves_ret]. }
  apply preserves_bind; [exact _|by apply preserves_log|intros _].
  by apply preserves_ret.
Qed.


(** What [main] does between the construction of the settings and the
    run: it attaches the log of the subject, which it makes when it is not
    there, and writes the first lines.  The run then starts in a scratch
    directory, with that log attached. *)
Lemma main_attaches_subject_log args w st w1 :
  Settings_init args w = Done st w1 ->
  fs w1 !! subject_log (subj st) <> Some Dir ->
  exists w2,
    handlers w2 = handlers w1 ++ [subject_log (subj st)]
    /\ (forall p, p <> subject_log (subj st) -> ~ In p (handlers w1) ->
                  fs w2 !! p = fs w1 !! p)
    /\ main args w
       = with_TempDir (fun tmpdir =>
           log Info ("Creating tempdir:" +:+ tmpdir +:+ " on host:" +:+ uname_nodename);;
           run_ciftify_recon_all tmpdir st) w2.
Proof.
  intros E Hd. unfold main. rewrite (bind_Done _ _ _ _ _ E).
  unfold get_subject_log_handler. rewrite bind_assoc_at, bind_get_fs_at.
  set (p := subject_log (subj st)) in *.
  assert (Hemit : forall f l1 m1 l2 m2 q, q <> p -> ~ In q (handlers w1) ->
            emit (handlers w1 ++ [p]) l2 m2 (emit (handlers w1 ++ [p]) l1 m1 f) !! q = f !! q).
  { intros f l1 m1 l2 m2 q Hq Hin.
    rewrite !emit_other; [done|..]; intros [?|[Eq|[]]]%in_app_or; by try apply Hq. }
  destruct (fs w1 !! p) as [[|c|t]|] eqn:Ep; [done|..].
  - eexists. split; [|split; [|reflexivity]]; [reflexivity|].
    intros q Hq Hin. simpl. by apply Hemit.
  - eexists. split; [|split; [|reflexivity]]; [reflexivity|].
    intros q Hq Hin. simpl. by apply Hemit.
  - eexists. split; [|split; [|reflexivity]]; [reflexivity|].
    intros q Hq Hin. simpl. rewrite Hemit by done. by rewrite lookup_insert_ne.
Qed.

End ResampleOnlyRun.

(** ** The reference platform meets the assumptions *)

Section ReferenceFacts.
Import Reference.

Lemma ref_tool_effect_frame cmd f p :
  ~ In p (cmd_outputs cmd) -> ref_tool_effect cmd f !! p = f !! p.
Proof.
  unfold ref_tool_effect. generalize (File (operation cmd)). intros n.
  induction (cmd_outputs cmd) as [|q outs IH]; intros Hp; [done|].
  simpl. rewrite lookup_insert_ne.
  - apply IH. intros Hin. apply Hp. by right.
  - intros ->. apply Hp. by left.
Qed.

Lemma ref_make_dir_effect_frame d dry s f p :
  p <> d -> ref_make_dir_effect d dry s f !! p = f !! p.
Proof.
  intros Hp. unfold ref_make_dir_effect. destruct dry; [done|].
  destruct (f !! d); [done|]. by rewrite lookup_insert_ne.
Qed.

Lemma ref_tools_write_outputs : @tools_write_outputs platform.
Proof. split; [apply ref_tool_effect_frame|apply ref_make_dir_effect_frame]. Qed.

Lemma ref_files_in_folder m :
  dest_mesh (ref_settings "FS") ref_meshes m -> @files_in_folder platform "sub-01" m.
Proof.
  intros (res & Hres & Hm). destruct Hres as [<-|[]].
  vm_compute in Hm. injection Hm as <-.
  split; [|split]; [intros surface h|..]; reflexivity.
Qed.

End ReferenceFacts.




(** * More properties of the program *)

(** ** The commands of a whole run *)

Section InventoryFacts.
Context `{Collaborators}.

Lemma preserves_with_TempDir_cmds P {A} (body : string -> M A) :
  (forall d, preserves (issued_only P) (body d)) ->
  preserves (issued_only P) (with_TempDir body).
Proof.
  intros Hb w. unfold with_TempDir.
  specialize (Hb (mkdtemp (fs w)) (wrote (<[mkdtemp (fs w) := Dir]> (fs w)) w)).
  destruct (body _ _); exact Hb.
Qed.

Lemma preserves_bind_getitem (R : world -> world -> Prop) `{!PreOrder R} {B}
  d key (k : cfgval -> M B) :
  (forall v, d !! key = Some v -> preserves R (k v)) ->
  preserves R (getitem d key ≫= k).
Proof.
  intros Hk w. unfold getitem. destruct (d !! key) as [v|] eqn:E.
  - rewrite bind_ret_at. by apply Hk.
  - rewrite bind_raise_at. simpl. reflexivity.
Qed.

Lemma cras_field_reads line : preserves only_logged (cras_field line).
Proof. unfold cras_field. preserved. Qed.

Lemma cras_scan_reads lines x y z : preserves only_logged (cras_scan lines x y z).
Proof.
  revert x y z. induction lines as [|line rest IH]; intros x y z; cbn [cras_scan].
  - preserved.
  - repeat first [apply cras_field_reads | apply IH | preserved_step].
Qed.

Lemma preserves_addHandler_cmds P fh : preserves (issued_only P) (addHandler fh).
Proof. intros w. exists []. simpl. by rewrite app_nil_r. Qed.

Lemma preserves_log_handler_cmds P s :
  preserves (issued_only P) (get_subject_log_handler s).
Proof.
  intros w. exists []. rewrite app_nil_r. split; [|constructor].
  unfold get_subject_log_handler. rewrite bind_get_fs_at.
  by destruct (fs w !! subject_log s) as [[| |]|].
Qed.

Lemma issued_only_weaken (P Q : list string -> Prop) w w' :
  (forall c, P c -> Q c) -> issued_only P w w' -> issued_only Q w w'.
Proof.
  intros HPQ (l & E & F). exists l. split; [done|]. eapply Forall_impl; eauto.
Qed.

End InventoryFacts.

(** the function at the head of an application *)
Ltac head_of t := lazymatch t with ?f _ => head_of f | _ => t end.

(** A command built by the program is an expected one: the facts about
    msm, flirt and fnirt are read off the branch in which it is issued. *)
Ltac expected_command_holds :=
  unfold expected_command, program; cbn [hd nth];
  split; [assumption|];
  split; [simpl; tauto|];
  split;
  [ let Hp := fresh in
    intros Hp; first [discriminate Hp | split; [by apply String.eqb_eq|reflexivity]]
  | let Hp := fresh in intros [Hp|Hp]; first [discriminate Hp | eauto] ].

(** One step through a computation, for the commands that it issues; a
    function of the program is unfolded when it is reached. *)
Ltac inventory_step :=
  cbv beta;
  lazymatch goal with
  | |- preserves _ (mbind _ (getitem _ _)) =>
      apply preserves_bind_getitem; [exact _|intros ? ?]
  | |- preserves _ (mbind _ _) => apply preserves_bind; [exact _| |intros ?]
  | |- preserves _ (mret _) => apply preserves_ret; exact _
  | |- preserves _ (run _ _) =>
      apply preserves_run_real;
      [ exact _ | intros ? ?; apply issued_only_issued; expected_command_holds ]
  | |- preserves _ (for_each _ _) => apply preserves_for_each; [exact _|intros ?]
  | |- preserves _ (sys_exit _) => apply preserves_exit; exact _
  | |- preserves _ (raise _) => apply preserves_raise; exact _
  | |- preserves _ (log _ _) => apply preserves_log; same_side
  | |- preserves _ get_fs => apply preserves_get_fs; exact _
  | |- preserves _ (set_fs _) => apply preserves_set_fs_cmds
  | |- preserves _ (addHandler _) => apply preserves_addHandler_cmds
  | |- preserves _ (get_subject_log_handler _) => apply preserves_log_handler_cmds
  | |- preserves _ (collaborator _ _) => apply preserves_collaborator; exact _
  | |- preserves _ (reg_get _ _) => apply preserves_reg_get; exact _
  | |- preserves _ (get_mesh _ _) => apply preserves_get_mesh; exact _
  | |- preserves _ (mesh_image _ _) => apply preserves_mesh_image; exact _
  | |- preserves _ (getitem _ _) => apply preserves_getitem; exact _
  | |- preserves _ (cras_scan _ _ _ _) =>
      apply (preserves_same _); [same_side|apply cras_scan_reads]
  | |- preserves _ (with_TempDir _) => apply preserves_with_TempDir_cmds; intros ?
  | |- preserves _ (if ?b then _ else _) => destruct b eqn:?
  | |- preserves _ (match ?x with _ => _ end) => destruct x eqn:?
  | |- preserves _ (let _ := _ in _) => cbv zeta
  | |- preserves _ ?m => let h := head_of m in unfold h
  end.

Section Pipeline.
Context `{Collaborators}.
Variable st : settings.

Lemma default_workflow_commands temp_dir meshes labels v :
  preserves (issued_only (expected_command st))
    (run_default_workflow temp_dir st meshes labels v).
Proof. repeat inventory_step. Qed.

Lemma resampling_commands temp_dir meshes labels :
  preserves (issued_only (expected_command st))
    (resampling_to_t1w_32k temp_dir st meshes labels).
Proof. repeat inventory_step. Qed.

Lemma recon_all_commands temp_dir :
  preserves (issued_only (expected_command st)) (run_ciftify_recon_all temp_dir st).
Proof.
  unfold run_ciftify_recon_all.
  repeat
    lazymatch goal with
    | |- preserves _ (run_default_workflow _ _ _ _ _) => apply default_workflow_commands
    | |- preserves _ (resampling_to_t1w_32k _ _ _ _) => apply resampling_commands
    | _ => inventory_step
    end.
Qed.

End Pipeline.

(** ** What the settings keep of their construction *)

Section SettingsInversion.
Context `{Collaborators}.
Import PyStr OsPath.

Lemma check_msm_config_Done conf w ok w' :
  check_msm_config conf w = Done ok w' ->
  w' = w /\ exists text, fs w !! conf = Some (File text)
    /\ ok = forallb (msm_arg_ok (msm_printoptions (fs w))) (msm_arg_list text).
Proof.
  unfold check_msm_config. rewrite bind_get_fs_at.
  destruct (fs w !! conf) as [[|text|]|] eqn:E; try done.
  intros [= <- <-]. split; [done|]. by exists text.
Qed.

(** what [__set_registration_mode] returns: outside MSMSulc mode no
    configuration; in MSMSulc mode the configuration in use, which is a file
    whose options have all been accepted *)
Lemma set_registration_mode_Done args w rn msm w' :
  set_registration_mode args w = Done (rn, msm) w' ->
  get_registration_mode args = Some rn
  /\ (rn <> "MSMSulc" -> msm = None)
  /\ (rn = "MSMSulc" ->
      exists conf text, msm = Some conf /\ msm_config_in_use args = Some conf
        /\ fs w !! conf = Some (File text)
        /\ forallb (msm_arg_ok (msm_printoptions (fs w))) (msm_arg_list text) = true).
Proof.
  unfold set_registration_mode. intros E.
  destruct (get_registration_mode args) as [surf_reg|] eqn:Hmode; [|done].
  rewrite bind_collaborator_at in E.
  destruct (String.eqb surf_reg "MSMSulc") eqn:Hmsm.
  - apply String.eqb_eq in Hmsm as ->.
    destruct verify_msm_available; [|by rewrite bind_exit_at in E].
    rewrite bind_ret_at in E. cbv zeta in E. rewrite bind_get_fs_at in E.
    assert (Hconf : exists conf, msm_config_in_use args = Some conf
              /\ (check_msm_config conf ≫= fun ok : bool =>
                    if negb ok
                    then log Error ("Running version of MSM does not match config " +:+ conf);;
                         sys_exit MsmConfigMismatch
                    else mret ("MSMSulc", Some conf)) w = Done (rn, msm) w').
    { unfold msm_config_in_use.
      destruct (truthy (arg_MSM_config args)) eqn:Ht; cbn [negb andb] in E.
      - destruct (arg_MSM_config args) as [conf|] eqn:Hc; [|done]. simpl in E.
        destruct (path_exists (fs w) conf); cbn [negb] in E.
        + rewrite bind_ret_at in E. by exists conf.
        + by rewrite !bind_assoc_at, bind_log_at, bind_exit_at in E.
      - destruct find_ciftify_global as [g|]; [|done].
        rewrite bind_assoc_at, bind_collaborator_at, bind_ret_at in E.
        by eexists. }
    destruct Hconf as (conf & Hconf & E').
    apply bind_Done_inv in E' as (ok & w1 & E1 & E2).
    apply check_msm_config_Done in E1 as (-> & text & Hfile & ->).
    destruct (forallb _ _) eqn:Hok; cbn [negb] in E2.
    + injection E2 as <- <- <-. split; [done|]. split; [done|]. intros _.
      by exists conf, text.
    + by rewrite bind_log_at in E2.
  - injection E as <- <- <-. split; [done|]. split; [done|].
    intros ->. by rewrite String.eqb_refl in Hmsm.
Qed.

(** what [__define_registration_settings] returns: the two entries for the
    user's transforms are always there, both set or both [False] *)
Lemma define_registration_settings_Done wf s nonlin lin method res w cfg w' :
  define_registration_settings wf s nonlin lin method res w = Done cfg w' ->
  (truthy nonlin = true /\ truthy lin = true
   /\ cfg !! "User_AtlasTransform_NonLinear" = VStr <$> nonlin
   /\ cfg !! "User_AtlasTransform_Linear" = VStr <$> lin)
  \/ (truthy nonlin = false /\ truthy lin = false
      /\ cfg !! "User_AtlasTransform_NonLinear" = Some VFalse
      /\ cfg !! "User_AtlasTransform_Linear" = Some VFalse).
Proof.
  unfold define_registration_settings. intros E.
  apply bind_Done_inv in E as (c0 & w0 & _ & E).
  apply bind_Done_inv in E as (c1 & w1 & _ & E).
  apply bind_Done_inv in E as (rc & w2 & _ & E). cbv zeta in E.
  destruct (truthy nonlin) eqn:Hn, (truthy lin) eqn:Hl; cbn [orb andb] in E.
  - left. rewrite bind_get_fs_at in E.
    destruct (check_input_readable (default "" nonlin) (fs w2));
      [|by rewrite bind_exit_at in E].
    rewrite bind_ret_at in E. cbv zeta in E.
    destruct (check_input_readable (default "" lin) (fs w2));
      [|by rewrite bind_exit_at in E].
    rewrite bind_ret_at in E. injection E as <- <-.
    destruct nonlin as [x|]; [|done]. destruct lin as [y|]; [|done].
    split; [done|]. split; [done|]. split.
    + by rewrite lookup_insert_ne, lookup_insert_eq.
    + by rewrite lookup_insert_eq.
  - by rewrite bind_log_at in E.
  - by rewrite bind_log_at in E.
  - right. injection E as <- <-. split; [done|]. split; [done|]. split.
    + by rewrite lookup_insert_ne, lookup_insert_eq.
    + by rewrite lookup_insert_eq.
Qed.

(** the steps of [Settings.__init__] that the settings keep *)
Lemma Settings_init_inv args w st w' :
  Settings_init args w = Done st w' ->
  exists w1 w2 w3 w4,
    fs w1 = fs w /\ fs w3 = fs w
    /\ set_registration_mode args w1 = Done (reg_name st, msm_config st) w2
    /\ define_registration_settings (base st) (subj st) (arg_read_non_lin_xfm args)
         (arg_read_lin_premat args) "FSL_fnirt" "2mm" w3 = Done (registration st) w4
    /\ use_T2 st = None.
Proof.
  intros E. apply Settings_init_steps in E
    as (wf & rn & msm & fs_root & s & dd & lic & ds & reg
        & -> & _ & E2 & _ & _ & _ & _ & E8 & _).
  exists w, w, w, w. cbn [reg_name msm_config base subj registration use_T2]. done.
Qed.

End SettingsInversion.

Section MainCommands.
Context `{Collaborators}.
Import PyStr OsPath.

Lemma main_commands args w :
  match Settings_init args w with
  | Done st _ => issued_only (expected_command st) w (final (main args w))
  | _ => cmds (final (main args w)) = cmds w
  end.
Proof.
  pose proof (Settings_init_no_command args w) as Hc. unfold main.
  destruct (Settings_init args w) as [st w1|s w1|e w1] eqn:E; simpl in Hc.
  - rewrite (bind_Done _ _ _ _ _ E).
    assert (Hp : preserves (issued_only (expected_command st))
                   (fh ← get_subject_log_handler (subj st);
                    addHandler fh;;
                    log Info ciftify_logo;;
                    log Info (section_header "Starting cifti_recon_all");;
                    with_TempDir (fun tmpdir =>
                      log Info ("Creating tempdir:" +:+ tmpdir +:+ " on host:"
                                +:+ uname_nodename);;
                      run_ciftify_recon_all tmpdir st))).
    { repeat
        lazymatch goal with
        | |- preserves _ (run_ciftify_recon_all _ _) => apply recon_all_commands
        | _ => inventory_step
        end. }
    destruct (Hp w1) as (l & El & Fl). exists l. split; [|done].
    rewrite El. unfold same_cmds in Hc. by rewrite Hc.
  - by rewrite (bind_Exited _ _ _ _ _ E).
  - by rewrite (bind_Raised _ _ _ _ _ E).
Qed.

(** every command of [main] has what the commands of a run have, for the
    settings that [main] has built *)
Lemma main_commands_when (Q : list string -> Prop) args w :
  (forall st w1 c, Settings_init args w = Done st w1 -> expected_command st c -> Q c) ->
  issued_only Q w (final (main args w)).
Proof.
  intros HQ. pose proof (main_commands args w) as Hm.
  destruct (Settings_init args w) as [st w1|s w1|e w1] eqn:E.
  - eapply issued_only_weaken; [|exact Hm]. intros c. by apply (HQ st w1).
  - exists []. rewrite app_nil_r. split; [done|constructor].
  - exists []. rewrite app_nil_r. split; [done|constructor].
Qed.

(** X1. Every command that [main] issues through [run], whatever the
    command line and the state of the disk, calls one of twelve programs:
    wb_command, mri_convert, fslreorient2std, fslmaths, flirt, fnirt,
    invwarp, applywarp, mris_convert, cp, mkdir and msm.  (mri_info and
    [msm --printoptions] are queried outside of [run].) *)
Theorem main_calls_known_tools_only (args : arguments) (w : world) :
  issued_only (fun c => In (program c) known_tools) w (final (main args w)).
Proof.
  apply main_commands_when. intros st w1 c _ Hc. apply Hc.
Qed.

(** X2. With the dry-run flag set, [main] issues no command through
    [run], however it ends: every call of [run] passes the flag on, also
    the calls that do not name it. *)
Theorem dry_run_issues_no_command (args : arguments) (w : world) :
  DRYRUN = true -> cmds (final (main args w)) = cmds w.
Proof.
  intros Hdry.
  destruct (main_commands_when (fun _ => DRYRUN = false) args w) as (l & E & F).
  { intros st w1 c _ Hc. apply Hc. }
  destruct l as [|c l]; [by rewrite app_nil_r in E|].
  apply Forall_cons in F as [F _]. congruence.
Qed.

(** X3. Every msm command that [main] issues is of the form
    [msm --conf=<conf> ...] where the registration mode is MSMSulc and
    <conf> is the configuration in use (the user's or the default one),
    which at the start of the run was a file whose options all passed the
    check of [check_msm_config].  Outside MSMSulc mode msm is not run. *)
Theorem msm_runs_with_checked_config (args : arguments) (w : world) :
  issued_only
    (fun c =>
       program c = "msm" ->
       exists conf text,
         nth 1 c "" = "--conf=" +:+ conf
         /\ get_registration_mode args = Some "MSMSulc"
         /\ msm_config_in_use args = Some conf
         /\ fs w !! conf = Some (File text)
         /\ forallb (msm_arg_ok (msm_printoptions (fs w))) (msm_arg_list text) = true)
    w (final (main args w)).
Proof.
  apply main_commands_when. intros st w1 c E (_ & _ & Hmsm & _) Hp.
  destruct (Hmsm Hp) as [Hrn Hconf].
  apply Settings_init_inv in E as (wa & wb & _ & _ & Fa & _ & Ea & _).
  apply set_registration_mode_Done in Ea as (Hmode & _ & Hin).
  destruct (Hin Hrn) as (conf & text & Hm & Huse & Hfile & Hok).
  exists conf, text. rewrite Hconf, Hm, <- Hrn. rewrite Fa in Hfile, Hok. done.
Qed.

End MainCommands.

(** A dry run of the reference pipeline on a fresh subject. *)
Lemma dry_run_issues_no_command_witness :
  cmds (final (@main Reference.dry_platform (Reference.args_FS false None None)
                 Reference.fresh))
  = cmds Reference.fresh.
Proof.
  exact (@dry_run_issues_no_command Reference.dry_platform
           (Reference.args_FS false None None) Reference.fresh eq_refl).
Defined.

(** ** Failing tools *)

Section FailureFacts.
Context `{Collaborators}.

Lemma stops_quiet {A} (m : M A) : quiet m -> stops_at_failure m.
Proof.
  intros Hq w. destruct (Hq w) as (Hc & Hk & Hn). exists [], [].
  rewrite !app_nil_r. split; [done|]. split; [done|]. split; [done|].
  destruct (m w) as [a w'|s w'|e w']; [constructor| |constructor].
  destruct s; first [constructor | by destruct (Hn w')].
Qed.

Lemma stops_ret {A} (a : A) : stops_at_failure (mret a).
Proof. apply stops_quiet. by intros w. Qed.

Lemma stops_exit {A} s : s <> ToolFailure -> stops_at_failure (@sys_exit A s).
Proof.
  intros Hs. apply stops_quiet. intros w. split; [done|]. split; [done|].
  intros w' [= ? ?]. done.
Qed.

Lemma stops_raise {A} e : stops_at_failure (@raise A e).
Proof. apply stops_quiet. by intros w. Qed.

Lemma stops_log l msg : stops_at_failure (log l msg).
Proof. apply stops_quiet. by intros w. Qed.

Lemma stops_get_fs : stops_at_failure get_fs.
Proof. apply stops_quiet. by intros w. Qed.

Lemma stops_set_fs f : stops_at_failure (set_fs f).
Proof. apply stops_quiet. by intros w. Qed.

Lemma stops_addHandler fh : stops_at_failure (addHandler fh).
Proof. apply stops_quiet. by intros w. Qed.

Lemma stops_bind {A B} (m : M A) (k : A -> M B) :
  stops_at_failure m -> (forall a, stops_at_failure (k a)) -> stops_at_failure (m ≫= k).
Proof.
  intros Hm Hk w. destruct (Hm w) as (l1 & rc1 & E1 & K1 & L1 & F1). unfold mbind, M_bind.
  destruct (m w) as [a w1|s w1|e w1]; simpl in E1, K1.
  - destruct (Hk a w1) as (l2 & rc2 & E2 & K2 & L2 & F2). exists (l1 ++ l2), (rc1 ++ rc2).
    rewrite E2, E1, K2, K1, !app_assoc, !length_app, L1, L2.
    split; [done|]. split; [done|]. split; [done|].
    destruct (k a w1) as [b w2|s w2|e w2].
    + by apply Forall_app.
    + destruct s; try (by apply Forall_app).
      destruct F2 as (rc0 & r & -> & F0 & Fr). exists (rc1 ++ rc0), r.
      rewrite app_assoc. split; [done|]. split; [by apply Forall_app|done].
    + by apply Forall_app.
  - exists l1, rc1. by repeat split.
  - exists l1, rc1. by repeat split.
Qed.

Lemma stops_for_each {A} (l : list A) (f : A -> M unit) :
  (forall x, stops_at_failure (f x)) -> stops_at_failure (for_each l f).
Proof.
  intros Hf. induction l as [|x l IH]; simpl.
  - apply stops_ret.
  - apply stops_bind; [apply Hf|intros _; apply IH].
Qed.

(** [run] issues its command, and ends the run when the tool fails *)
Lemma stops_run cmd d : stops_at_failure (run cmd d).
Proof.
  intros w. unfold run, utils_run, mbind, M_bind.
  destruct (DRYRUN || d).
  - exists [], []. simpl. rewrite !app_nil_r. repeat split; constructor.
  - exists [cmd], [tool_returncode cmd (fs w)].
    destruct (tool_returncode cmd (fs w) =? 0)%Z eqn:E; simpl.
    + repeat split. constructor; [|constructor]. by apply Z.eqb_eq.
    + repeat split. exists [], (tool_returncode cmd (fs w)).
      split; [done|]. split; [constructor|]. by apply Z.eqb_neq.
Qed.

Lemma stops_with_TempDir {A} (body : string -> M A) :
  (forall d, stops_at_failure (body d)) -> stops_at_failure (with_TempDir body).
Proof.
  intros Hb w. unfold with_TempDir.
  destruct (Hb (mkdtemp (fs w)) (wrote (<[mkdtemp (fs w) := Dir]> (fs w)) w))
    as (l & rc & E & K & L & F).
  exists l, rc. destruct (body _ _); simpl in *; by repeat split.
Qed.

Lemma stops_collaborator {A} name (r : option A) : stops_at_failure (collaborator name r).
Proof. destruct r; [apply stops_ret|by apply stops_exit]. Qed.

Lemma stops_getitem d key : stops_at_failure (getitem d key).
Proof. unfold getitem. destruct (d !! key); [apply stops_ret|apply stops_raise]. Qed.

Lemma stops_get_mesh meshes name : stops_at_failure (get_mesh meshes name).
Proof. unfold get_mesh. destruct (List.find _ _); [apply stops_ret|apply stops_raise]. Qed.

Lemma stops_log_handler s : stops_at_failure (get_subject_log_handler s).
Proof.
  apply stops_quiet. intros w. unfold get_subject_log_handler. rewrite bind_get_fs_at.
  by destruct (fs w !! subject_log s) as [[| |]|].
Qed.

End FailureFacts.

(** One step through a computation, for the outcome of its commands. *)
Ltac stops_step :=
  cbv beta;
  lazymatch goal with
  | |- stops_at_failure (mbind _ _) => apply stops_bind; [|intros ?]
  | |- stops_at_failure (mret _) => apply stops_ret
  | |- stops_at_failure (run _ _) => apply stops_run
  | |- stops_at_failure (for_each _ _) => apply stops_for_each; intros ?
  | |- stops_at_failure (sys_exit _) => apply stops_exit; discriminate
  | |- stops_at_failure (raise _) => apply stops_raise
  | |- stops_at_failure (log _ _) => apply stops_log
  | |- stops_at_failure get_fs => apply stops_get_fs
  | |- stops_at_failure (set_fs _) => apply stops_set_fs
  | |- stops_at_failure (addHandler _) => apply stops_addHandler
  | |- stops_at_failure (get_subject_log_handler _) => apply stops_log_handler
  | |- stops_at_failure (collaborator _ _) => apply stops_collaborator
  | |- stops_at_failure (get_mesh _ _) => apply stops_get_mesh
  | |- stops_at_failure (getitem _ _) => apply stops_getitem
  | |- stops_at_failure (with_TempDir _) => apply stops_with_TempDir; intros ?
  | |- stops_at_failure (if ?b then _ else _) => destruct b
  | |- stops_at_failure (match ?x with _ => _ end) => destruct x
  | |- stops_at_failure (let _ := _ in _) => cbv zeta
  | |- stops_at_failure ?m => let h := head_of m in unfold h
  end.

Section FailFast.
Context `{Collaborators}.

Lemma stops_cras_scan lines x y z : stops_at_failure (cras_scan lines x y z).
Proof.
  revert x y z. induction lines as [|line rest IH]; intros x y z; cbn [cras_scan].
  - apply stops_ret.
  - repeat first [apply IH | stops_step].
Qed.

Lemma stops_fold_keys f keys cfg :
  (forall c k, stops_at_failure (f c k)) -> stops_at_failure (fold_keys f keys cfg).
Proof.
  intros Hf. revert cfg. induction keys as [|k ks IH]; intros cfg; cbn [fold_keys].
  - apply stops_ret.
  - apply stops_bind; [apply Hf|apply IH].
Qed.

(** X5. [main] stops at the first tool that fails.  Every command that
    [run] issues is recorded with the return code that the tool gave on the
    file system on which it ran.  In a run that ends with the exit of [run]
    all the return codes are 0 but the last one, which is not; in a run
    that ends in any other way (normally, with another exit, or with an
    exception) all the return codes are 0. *)
Theorem main_stops_at_first_failure (args : arguments) (w : world) :
  exists l rc,
    cmds (final (main args w)) = cmds w ++ l
    /\ codes (final (main args w)) = codes w ++ rc
    /\ length rc = length l
    /\ match main args w with
       | Exited ToolFailure _ =>
           exists rc0 r, rc = rc0 ++ [r] /\ Forall succeeded rc0 /\ ~ succeeded r
       | _ => Forall succeeded rc
       end.
Proof.
  revert w. change (stops_at_failure (main args)).
  repeat
    lazymatch goal with
    | |- stops_at_failure (cras_scan _ _ _ _) => apply stops_cras_scan
    | |- stops_at_failure (fold_keys _ _ _) => apply stops_fold_keys; intros ? ?
    | _ => stops_step
    end.
Qed.

End FailFast.

(** ** Exceptions *)

Section RaiseFacts.
Context `{Collaborators}.
Context (X : pyexn -> Prop).

Lemma raises_ret {A} (a : A) : raises_only X (mret a).
Proof. by intros w e w'. Qed.

Lemma raises_exit {A} s : raises_only X (@sys_exit A s).
Proof. by intros w e w'. Qed.

Lemma raises_raise {A} e : X e -> raises_only X (@raise A e).
Proof. intros He w e' w' [= <- _]. done. Qed.

Lemma raises_log l msg : raises_only X (log l msg).
Proof. by intros w e w'. Qed.

Lemma raises_get_fs : raises_only X get_fs.
Proof. by intros w e w'. Qed.

Lemma raises_set_fs f : raises_only X (set_fs f).
Proof. by intros w e w'. Qed.

Lemma raises_bind {A B} (m : M A) (k : A -> M B) :
  raises_only X m -> (forall a, raises_only X (k a)) -> raises_only X (m ≫= k).
Proof.
  intros Hm Hk w e w'. unfold mbind, M_bind.
  destruct (m w) as [a w1|s w1|e1 w1] eqn:E; [apply Hk|done|].
  intros [= <- <-]. by eapply Hm.
Qed.

Lemma raises_for_each_in {A} (l : list A) (f : A -> M unit) :
  (forall x, In x l -> raises_only X (f x)) -> raises_only X (for_each l f).
Proof.
  induction l as [|x l IH]; intros Hf; simpl.
  - apply raises_ret.
  - apply raises_bind; [apply Hf; by left|intros _; apply IH].
    intros y Hy. apply Hf. by right.
Qed.

Lemma raises_bind_getitem {B} d key (k : cfgval -> M B) :
  (d !! key = None -> X (KeyError key)) ->
  (forall v, d !! key = Some v -> raises_only X (k v)) ->
  raises_only X (getitem d key ≫= k).
Proof.
  intros Hn Hk w e w'. unfold getitem. destruct (d !! key) as [v|] eqn:E.
  - rewrite bind_ret_at. by apply Hk.
  - rewrite bind_raise_at. intros [= <- _]. by apply Hn.
Qed.

Lemma raises_bind_reg_get {B} d key (k : string -> M B) :
  (d !! key = None -> X (KeyError key)) ->
  (forall v, d !! key = Some v -> raises_only X (k (cfg_str v))) ->
  raises_only X (reg_get d key ≫= k).
Proof.
  intros Hn Hk w e w'. unfold reg_get. rewrite bind_assoc_at.
  apply raises_bind_getitem; [done|]. intros v Hv w1 e1 w1'. rewrite bind_ret_at.
  by apply Hk.
Qed.

Lemma raises_run cmd d : raises_only X (run cmd d).
Proof.
  intros w e w'. destruct (run_cases cmd d w) as [[_ ->]|[_ [->| ->]]]; done.
Qed.

Lemma raises_with_TempDir {A} (body : string -> M A) :
  (forall d, raises_only X (body d)) -> raises_only X (with_TempDir body).
Proof.
  intros Hb w e w'. unfold with_TempDir.
  destruct (body _ _) as [a w1|s w1|e1 w1] eqn:E; [done|done|].
  intros [= <- _]. by eapply Hb.
Qed.

Lemma raises_collaborator {A} name (r : option A) : raises_only X (collaborator name r).
Proof. destruct r; [apply raises_ret|apply raises_exit]. Qed.

End RaiseFacts.

(** The name of a mesh space that the workflow looks up is one that
    [mesh_name_read] lists. *)
Ltac mesh_name_holds :=
  unfold mesh_name_read;
  first
    [ left; simpl; tauto
    | left; match goal with Hin : In _ _ |- _ => simpl in Hin; simpl; tauto end
    | right; left; eexists; split; [eassumption|tauto]
    | right; right; do 2 eexists; split; [|split; [eassumption|reflexivity]]; simpl; tauto ].

(** An exception raised by the program is one that [workflow_exception]
    lists; the facts are read off the branch in which it is raised, and a
    branch that cannot be reached is closed. *)
Ltac exception_holds :=
  unfold workflow_exception;
  first
    [ exact I
    | left; split; [simpl; tauto|assumption]
    | right; left; split;
      [ mesh_name_holds
      | unfold mesh_of;
        match goal with E : List.find _ _ = None |- _ => rewrite E end; reflexivity ]
    | right; right; split; [reflexivity|assumption]
    | simpl; tauto
    | exfalso; congruence
    | exfalso;
      match goal with E : String.eqb _ _ = false |- _ => vm_compute in E; discriminate E end ].

(** One step through a computation, for the exceptions that it raises. *)
Ltac raises_step :=
  cbv beta;
  lazymatch goal with
  | |- raises_only _ (mbind _ (reg_get _ _)) =>
      apply raises_bind_reg_get; [intros ?; exception_holds|intros ? ?]
  | |- raises_only _ (mbind _ (getitem _ _)) =>
      apply raises_bind_getitem; [intros ?; exception_holds|intros ? ?]
  | |- raises_only _ (mbind _ _) => apply raises_bind; [|intros ?]
  | |- raises_only _ (mret _) => apply raises_ret
  | |- raises_only _ (run _ _) => apply raises_run
  | |- raises_only _ (for_each _ _) => apply raises_for_each_in; intros ? ?
  | |- raises_only _ (sys_exit _) => apply raises_exit
  | |- raises_only _ (raise _) => apply raises_raise; exception_holds
  | |- raises_only _ (log _ _) => apply raises_log
  | |- raises_only _ get_fs => apply raises_get_fs
  | |- raises_only _ (set_fs _) => apply raises_set_fs
  | |- raises_only _ (collaborator _ _) => apply raises_collaborator
  | |- raises_only _ (with_TempDir _) => apply raises_with_TempDir; intros ?
  | |- raises_only _ (if ?b then _ else _) => destruct b eqn:?
  | |- raises_only _ (match ?x with _ => _ end) => destruct x eqn:?
  | |- raises_only _ (let _ := _ in _) => cbv zeta
  | |- raises_only _ ?m => let h := head_of m in unfold h
  end.

Section Exceptions.
Context `{Collaborators}.

Lemma raises_cras_scan X lines x y z :
  X IndexError -> raises_only X (cras_scan lines x y z).
Proof.
  intros HX. revert x y z. induction lines as [|line rest IH]; intros x y z; cbn [cras_scan].
  - apply raises_ret.
  - repeat first
      [ apply IH
      | apply raises_raise; exact HX
      | raises_step ].
Qed.

(** X6. The exceptions that can end [run_ciftify_recon_all].  A KeyError
    is always for one of the seventeen keys that the workflow reads in the
    registration settings, missing there, or for a mesh name that the
    workflow looks up, missing from the registry, or for the T2 image of a
    mesh descriptor when a T2 image is in use; a NameError is for
    matrix_x, matrix_y or matrix_z (the parsing of the output of
    mri_info, which can also raise IndexError).  In particular a scalar
    map without 'fsname' raises no KeyError: it is skipped.  The entries
    of the scalar maps and the mesh descriptors are taken to hold their
    other fields. *)
Theorem recon_all_exceptions (temp_dir : string) (st : settings) (w : world)
  (e : pyexn) (w' : world) :
  let meshes :=
    define_meshes (path (subj st)) temp_dir (high_res (base st)) (low_res (base st))
      (resample st) in
  run_ciftify_recon_all temp_dir st w = Raised e w' ->
  workflow_exception st meshes e.
Proof.
  intros meshes. revert w e w'.
  change (raises_only (workflow_exception st meshes) (run_ciftify_recon_all temp_dir st)).
  unfold run_ciftify_recon_all. fold meshes. generalize meshes. clear meshes. intros meshes.
  repeat first
    [ apply raises_cras_scan; exact I
    | raises_step ].
Qed.

End Exceptions.

(** A full run with empty registration settings: the first key read, by
    [log_inputs], is missing. *)
Lemma recon_all_exceptions_witness :
  workflow_exception Reference.ref_settings_unconfigured
    (@define_meshes Reference.platform "/work/sub-01" "/tmp/tmpciftify" "164" ["32"] false)
    (KeyError "User_AtlasTransform_NonLinear").
Proof.
  exact (@recon_all_exceptions Reference.platform "/tmp/tmpciftify"
           Reference.ref_settings_unconfigured Reference.fresh
           (KeyError "User_AtlasTransform_NonLinear")
           (final (@run_ciftify_recon_all Reference.platform "/tmp/tmpciftify"
                     Reference.ref_settings_unconfigured Reference.fresh))
           eq_refl).
Defined.

(** ** Parsing of the MSM configuration and of the output of mri_info *)

Section Parsing.
Import PyStr OsPath.

Lemma length_append (a b : string) :
  String.length (a +:+ b) = (String.length a + String.length b)%nat.
Proof. induction a as [|x a IH]; [done|]. rewrite append_cons. simpl. by rewrite IH. Qed.

Lemma take_app_length (a b : string) : take (String.length a) (a +:+ b) = a.
Proof. induction a as [|x a IH]; [by destruct b|]. rewrite append_cons. simpl. by rewrite IH. Qed.

Lemma readlines_line (l rest : string) :
  has_char "010" l = false ->
  readlines (l +:+ newline +:+ rest) = (l +:+ newline) :: readlines rest.
Proof.
  intros Hl. induction l as [|c l IH].
  - reflexivity.
  - cbn [has_char] in Hl. apply orb_false_elim in Hl as [Hc Hl].
    rewrite !append_cons. cbn [readlines].
    rewrite Ascii.eqb_sym, Hc. by rewrite (IH Hl).
Qed.

Lemma readlines_last (l : string) :
  has_char "010" l = false -> l <> "" -> readlines l = [l].
Proof.
  intros Hl. induction l as [|c l IH]; [done|]. intros _.
  cbn [has_char] in Hl. apply orb_false_elim in Hl as [Hc Hl].
  cbn [readlines]. rewrite Ascii.eqb_sym, Hc.
  destruct l as [|c' l]; [done|]. by rewrite (IH Hl).
Qed.

Lemma rfind_from_absent c s i last :
  has_char c s = false -> rfind_from c s i last = last.
Proof.
  revert i last. induction s as [|b s IH]; intros i last Hs; [done|].
  cbn [has_char] in Hs. apply orb_false_elim in Hs as [Hb Hs].
  cbn [rfind_from]. rewrite Hb. by apply IH.
Qed.

Lemma rfind_from_app c a b i last :
  rfind_from c (a +:+ b) i last
  = rfind_from c b (i + Z.of_nat (String.length a)) (rfind_from c a i last).
Proof.
  revert i last. induction a as [|x a IH]; intros i last.
  - simpl. by rewrite Z.add_0_r.
  - rewrite append_cons. cbn [rfind_from String.length]. rewrite IH. f_equal. lia.
Qed.

(** the last '=' of [k=tail] when [tail] holds none *)
Lemma rfind_key (k tail : string) :
  has_char "=" tail = false ->
  rfind "=" (k +:+ "=" +:+ tail) = Z.of_nat (String.length k).
Proof.
  intros Ht. unfold rfind. rewrite rfind_from_app.
  rewrite (append_cons "=" ""), append_nil_l. cbn [rfind_from].
  rewrite Ascii.eqb_refl. by rewrite rfind_from_absent.
Qed.

Lemma slice_to_key (k tail : string) :
  slice_to (k +:+ tail) (Z.of_nat (String.length k)) = k.
Proof.
  unfold slice_to. rewrite length_append.
  assert ((Z.of_nat (String.length k) <? 0)%Z = false) as -> by (apply Z.ltb_ge; lia).
  rewrite Z.min_l by lia. rewrite Nat2Z.id. apply take_app_length.
Qed.

Lemma slice_to_minus_one (s : string) :
  slice_to s (-1) = take (String.length s - 1) s.
Proof.
  unfold slice_to. change (-1 <? 0)%Z with true. cbv iota. f_equal. lia.
Qed.

(** X7. The option names that [check_msm_config] reads from the
    configuration file, line by line: a line [key=value] gives [key]
    (everything before the last '='); a line without '=' that ends with a
    newline gives the line without the newline; a last line without '='
    and without a newline loses its last character; an empty file gives no
    option. *)
Theorem msm_arg_list_lines (k v l rest : string) :
  has_char "010" k = false -> has_char "010" v = false -> has_char "=" v = false ->
  has_char "010" l = false -> has_char "=" l = false ->
  msm_arg_list (k +:+ "=" +:+ v +:+ newline +:+ rest) = k :: msm_arg_list rest
  /\ msm_arg_list (l +:+ newline +:+ rest) = l :: msm_arg_list rest
  /\ (l <> "" -> msm_arg_list l = [take (String.length l - 1) l])
  /\ msm_arg_list "" = [].
Proof.
  intros Hk Hv Hv' Hl Hl'. unfold msm_arg_list. split; [|split; [|split]].
  - replace (k +:+ "=" +:+ v +:+ newline +:+ rest)
      with ((k +:+ "=" +:+ v) +:+ newline +:+ rest) by (by rewrite !append_assoc).
    rewrite readlines_line.
    2:{ rewrite !has_char_app, Hk, Hv. reflexivity. }
    cbn [map]. f_equal.
    rewrite !append_assoc. rewrite rfind_key.
    2:{ rewrite has_char_app, Hv'. reflexivity. }
    apply slice_to_key.
  - rewrite readlines_line by done. cbn [map]. f_equal.
    unfold rfind. rewrite rfind_from_absent.
    2:{ rewrite has_char_app, Hl'. reflexivity. }
    rewrite slice_to_minus_one, length_append. simpl.
    replace (String.length l + 1 - 1)%nat with (String.length l) by lia.
    apply take_app_length.
  - intros Hne. rewrite readlines_last by done. cbn [map]. f_equal.
    unfold rfind. rewrite rfind_from_absent by done. apply slice_to_minus_one.
  - reflexivity.
Qed.

Lemma split_on_field c (a rest : string) :
  has_char c a = false -> split_on c (a +:+ String c rest) = a :: split_on c rest.
Proof.
  intros Ha. induction a as [|x a IH].
  - rewrite append_nil_l. cbn [split_on]. by rewrite Ascii.eqb_refl.
  - cbn [has_char] in Ha. apply orb_false_elim in Ha as [Hx Ha].
    rewrite append_cons. cbn [split_on]. rewrite Ascii.eqb_sym, Hx. by rewrite (IH Ha).
Qed.

Lemma split_on_absent c (a : string) : has_char c a = false -> split_on c a = [a].
Proof.
  intros Ha. induction a as [|x a IH]; [done|].
  cbn [has_char] in Ha. apply orb_false_elim in Ha as [Hx Ha].
  cbn [split_on]. rewrite Ascii.eqb_sym, Hx. by rewrite (IH Ha).
Qed.

(** X8. The value that [write_cras_file] takes from a line of mri_info:
    on a line of five fields separated by '=' it is the fifth field with
    its blanks removed; a line of four fields raises IndexError. *)
Theorem cras_field_is_fifth_field (a b c d v : string) (w : world) :
  has_char "=" a = false -> has_char "=" b = false -> has_char "=" c = false ->
  has_char "=" d = false -> has_char "=" v = false ->
  cras_field (a +:+ "=" +:+ b +:+ "=" +:+ c +:+ "=" +:+ d +:+ "=" +:+ v) w
  = Done (remove_char " " v) w
  /\ cras_field (a +:+ "=" +:+ b +:+ "=" +:+ c +:+ "=" +:+ d) w = Raised IndexError w.
Proof.
  intros Ha Hb Hc Hd Hv. unfold cras_field.
  rewrite !(append_cons "=" ""), !append_nil_l.
  rewrite !split_on_field by done. rewrite !split_on_absent by done. by split.
Qed.

End Parsing.

(** A file of two lines, the last one without a newline. *)
Lemma msm_arg_list_lines_witness :
  msm_arg_list ("--simval" +:+ "=" +:+ "2,2" +:+ newline +:+ "--dopt")
  = "--simval" :: msm_arg_list "--dopt"
  /\ msm_arg_list "--dopt" = ["--dop"].
Proof.
  pose proof (msm_arg_list_lines "--simval" "2,2" "--dopt" "--dopt"
                eq_refl eq_refl eq_refl eq_refl eq_refl) as (H1 & _ & H3 & _).
  split; [exact H1|]. apply H3. discriminate.
Defined.

(** The c_r line of mri_info. *)
Lemma cras_field_is_fifth_field_witness :
  cras_field ("x_r " +:+ "=" +:+ " -1, y_r " +:+ "=" +:+ " 0, z_r " +:+ "=" +:+ " 0, c_r "
              +:+ "=" +:+ " -0.5") Reference.fresh
  = Done "-0.5" Reference.fresh.
Proof.
  exact (proj1 (cras_field_is_fifth_field "x_r " " -1, y_r " " 0, z_r " " 0, c_r " " -0.5"
                  Reference.fresh eq_refl eq_refl eq_refl eq_refl eq_refl)).
Defined.

(** ** The c_ras matrix file *)

Section CrasFile.
Context `{Collaborators}.
Import PyStr OsPath.

Lemma file_write_at {B} p text (k : unit -> M B) w content :
  fs w !! p = Some (File content) ->
  (file_write p text ≫= k) w
  = k tt (wrote (<[p := File (content +:+ text)]> (fs w)) w).
Proof.
  intros E. unfold file_write. rewrite bind_assoc_at, bind_get_fs_at, E.
  by rewrite bind_set_fs_at.
Qed.

(** X9. When the scan of the output of mri_info finds the three offsets
    x, y and z, [write_cras_file] returns and leaves in the matrix file
    exactly the four lines "1 0 0 x", "0 1 0 y", "0 0 1 z" and
    "0 0 0 1{}" (the braces are written as they are), whatever the file
    held before; nothing else is written and no command is issued, in a
    dry run as well. *)
Theorem write_cras_file_content (freesurfer_folder cras_mat x y z : string) (w : world) :
  let mri_info :=
    get_stdout ["mri_info"; join freesurfer_folder ["mri"; "brain.finalsurfs.mgz"]] (fs w) in
  cras_scan (split_on "010" mri_info) None None None w = Done (Some x, Some y, Some z) w ->
  write_cras_file freesurfer_folder cras_mat w
  = Done tt
      (wrote (<[cras_mat :=
                  File ("1 0 0 " +:+ x +:+ newline +:+ "0 1 0 " +:+ y +:+ newline
                        +:+ "0 0 1 " +:+ z +:+ newline +:+ "0 0 0 1{}" +:+ newline)]> (fs w))
             w).
Proof.
  intros mri_info Hscan. unfold write_cras_file. rewrite bind_get_fs_at. cbv zeta.
  fold mri_info. rewrite (bind_Done _ _ _ _ _ Hscan).
  rewrite bind_get_fs_at, bind_set_fs_at. cbn [local_var]. rewrite bind_ret_at.
  rewrite (file_write_at _ _ _ _ "") by (simpl; apply lookup_insert_eq).
  rewrite bind_ret_at.
  erewrite file_write_at by (simpl; apply lookup_insert_eq).
  rewrite bind_ret_at.
  erewrite file_write_at by (simpl; apply lookup_insert_eq).
  unfold file_write. rewrite bind_get_fs_at. simpl. rewrite lookup_insert_eq. simpl.
  unfold set_fs, wrote. simpl. do 2 f_equal.
  rewrite !insert_insert_eq. do 2 f_equal.
  rewrite !append_nil_l, !append_assoc. reflexivity.
Qed.

Lemma cras_scan_without_c_r lines y z w :
  Forall (fun line => contains "c_r" line = false) lines ->
  (exists y' z', cras_scan lines None y z w = Done (None, y', z') w)
  \/ cras_scan lines None y z w = Raised IndexError w.
Proof.
  intros Hl. revert y z. induction Hl as [|line rest Hline _ IH]; intros y z.
  - left. by exists y, z.
  - cbn [cras_scan]. rewrite Hline.
    assert (Hf : forall (k : string -> M (option string * option string * option string)),
              (forall v, (exists y' z', k v w = Done (None, y', z') w)
                         \/ k v w = Raised IndexError w) ->
              (exists y' z', (cras_field line ≫= k) w = Done (None, y', z') w)
              \/ (cras_field line ≫= k) w = Raised IndexError w).
    { intros k Hk. unfold cras_field. destruct (split_on "=" line !! 4%nat) as [bits|].
      - rewrite bind_ret_at. apply Hk.
      - right. reflexivity. }
    destruct (contains "c_a" line); [apply Hf; intros v; apply IH|].
    destruct (contains "c_s" line); [apply Hf; intros v; apply IH|].
    apply IH.
Qed.

(** X10. When no line of the output of mri_info mentions c_r (an empty
    output, for one), [write_cras_file] does not return: either a line
    with c_a or c_s has too few fields and IndexError is raised, nothing
    written, or NameError is raised for matrix_x after the matrix file
    has been opened, which leaves it empty. *)
Theorem write_cras_file_needs_c_r (freesurfer_folder cras_mat : string) (w : world) :
  let mri_info :=
    get_stdout ["mri_info"; join freesurfer_folder ["mri"; "brain.finalsurfs.mgz"]] (fs w) in
  Forall (fun line => contains "c_r" line = false) (split_on "010" mri_info) ->
  write_cras_file freesurfer_folder cras_mat w = Raised IndexError w
  \/ write_cras_file freesurfer_folder cras_mat w
     = Raised (NameError "matrix_x")
         (wrote (<[cras_mat := File ""]> (fs w)) w).
Proof.
  intros mri_info Hl. unfold write_cras_file. rewrite bind_get_fs_at. cbv zeta.
  fold mri_info.
  destruct (cras_scan_without_c_r _ None None w Hl) as [(y' & z' & E)|E].
  - right. rewrite (bind_Done _ _ _ _ _ E).
    by rewrite bind_get_fs_at, bind_set_fs_at.
  - left. by rewrite (bind_Raised _ _ _ _ _ E).
Qed.

End CrasFile.

(** The output of mri_info of the reference platform. *)
Lemma write_cras_file_content_witness :
  @write_cras_file Reference.platform "/fs/sub-01" "/tmp/cras.mat" Reference.fresh
  = Done tt
      (wrote (<["/tmp/cras.mat" :=
                  File ("1 0 0 " +:+ "-0.5" +:+ newline +:+ "0 1 0 " +:+ "17.5" +:+ newline
                        +:+ "0 0 1 " +:+ "2.0" +:+ newline +:+ "0 0 0 1{}" +:+ newline)]>
                (fs Reference.fresh))
             Reference.fresh).
Proof.
  exact (@write_cras_file_content Reference.platform "/fs/sub-01" "/tmp/cras.mat"
           "-0.5" "17.5" "2.0" Reference.fresh eq_refl).
Defined.

(** mri_info prints nothing. *)
Lemma write_cras_file_needs_c_r_witness :
  @write_cras_file Reference.silent_platform "/fs/sub-01" "/tmp/cras.mat" Reference.fresh
  = Raised (NameError "matrix_x")
      (wrote (<["/tmp/cras.mat" := File ""]> (fs Reference.fresh)) Reference.fresh).
Proof.
  destruct (@write_cras_file_needs_c_r Reference.silent_platform "/fs/sub-01"
              "/tmp/cras.mat" Reference.fresh) as [E|E].
  - repeat constructor.
  - discriminate E.
  - exact E.
Defined.

(** ** The scalar maps of the settings *)

Section Dscalars.
Context `{Collaborators}.

Lemma filter_absent {V} (key : string) (d : list (string * V)) :
  existsb (fun kv => String.eqb (fst kv) key) d = false ->
  List.filter (fun kv => negb (String.eqb (fst kv) key)) d = d.
Proof.
  induction d as [|kv d IH]; [done|]. cbn [existsb List.filter].
  intros E. apply orb_false_elim in E as [E1 E2]. rewrite E1. cbn [negb].
  by rewrite (IH E2).
Qed.

Lemma filter_both {V} (k1 k2 : string) (d : list (string * V)) :
  List.filter (fun kv => negb (String.eqb (fst kv) k2))
    (List.filter (fun kv => negb (String.eqb (fst kv) k1)) d)
  = List.filter (fun kv => negb (String.eqb (fst kv) k1) && negb (String.eqb (fst kv) k2)) d.
Proof.
  induction d as [|kv d IH]; [done|]. cbn [List.filter].
  destruct (String.eqb (fst kv) k1); cbn [negb andb]; [done|].
  cbn [List.filter]. destruct (String.eqb (fst kv) k2); cbn [negb]; by rewrite IH.
Qed.

(** X11. The scalar maps that [__define_dscalars] keeps.  In MSMSulc
    mode the configured maps are returned as they are.  In any other mode,
    when the configuration holds 'ArealDistortion_MSMSulc' the two MSMSulc
    maps are dropped and every other map is kept in order; when it does
    not, the configuration is returned as it is, an
    'EdgeDistortion_MSMSulc' entry included: the second deletion is
    skipped with the first. *)
Theorem define_dscalars_drops_msm_maps (wf : workflow) (rn : string)
  (cfg : list (string * dscalar)) (w : world) :
  get_dscalars_entry wf = Some cfg ->
  let has key := existsb (fun kv : string * dscalar => String.eqb (fst kv) key) cfg in
  let other (kv : string * dscalar) :=
    negb (String.eqb (fst kv) "ArealDistortion_MSMSulc")
    && negb (String.eqb (fst kv) "EdgeDistortion_MSMSulc") in
  (rn = "MSMSulc" -> define_dscalars wf rn w = Done cfg w)
  /\ (rn <> "MSMSulc" -> has "ArealDistortion_MSMSulc" = true ->
      define_dscalars wf rn w = Done (List.filter other cfg) w)
  /\ (rn <> "MSMSulc" -> has "ArealDistortion_MSMSulc" = false ->
      define_dscalars wf rn w = Done cfg w).
Proof.
  intros Hcfg has other. unfold define_dscalars. rewrite Hcfg, bind_collaborator_at.
  split; [|split].
  - intros ->. reflexivity.
  - intros Hrn Ha. apply String.eqb_neq in Hrn. rewrite Hrn. cbn [negb].
    unfold del_key. fold (has "ArealDistortion_MSMSulc"). rewrite Ha.
    destruct (existsb _ (List.filter _ cfg)) eqn:He.
    + by rewrite filter_both.
    + rewrite <- (filter_absent _ _ He). by rewrite filter_both.
  - intros Hrn Ha. apply String.eqb_neq in Hrn. rewrite Hrn. cbn [negb].
    unfold del_key. fold (has "ArealDistortion_MSMSulc"). by rewrite Ha.
Qed.

End Dscalars.

(** The maps of the reference configuration, in MSMSulc mode and in FS
    mode. *)
Lemma define_dscalars_drops_msm_maps_witness :
  let wf := WorkFlow "/work" "164" ["32"] ["2"] 1 in
  @define_dscalars Reference.platform wf "MSMSulc" Reference.fresh
  = Done Reference.ref_dscalars Reference.fresh
  /\ map fst <$> (match @define_dscalars Reference.platform wf "FS" Reference.fresh with
                  | Done ds _ => Some ds
                  | _ => None
                  end)
     = Some ["sulc"; "thickness"; "ArealDistortion_FS"].
Proof.
  intros wf.
  pose proof (@define_dscalars_drops_msm_maps Reference.platform wf "MSMSulc"
                Reference.ref_dscalars Reference.fresh eq_refl) as (H1 & _).
  pose proof (@define_dscalars_drops_msm_maps Reference.platform wf "FS"
                Reference.ref_dscalars Reference.fresh eq_refl) as (_ & H2 & _).
  split; [by apply H1|]. rewrite H2; [reflexivity|discriminate|reflexivity].
Defined.

(** ** The settings of the volume registration *)

Section FnirtKeys.
Context `{Collaborators}.

Lemma bind_getitem_at {B} d key (k : cfgval -> M B) w :
  (getitem d key ≫= k) w
  = match d !! key with
    | Some v => k v w
    | None => Raised (KeyError key) w
    end.
Proof. unfold getitem. by destruct (d !! key). Qed.

Lemma bind_reg_get_at {B} d key (k : string -> M B) w :
  (reg_get d key ≫= k) w
  = match d !! key with
    | Some v => k (cfg_str v) w
    | None => Raised (KeyError key) w
    end.
Proof.
  unfold reg_get. rewrite bind_assoc_at, bind_getitem_at. by destruct (d !! key).
Qed.

(** X12. [run_T1_FNIRT_registration] reads its fourteen settings before
    it issues anything: when some are missing it raises KeyError for the
    first missing one in the order of reading and leaves the world as it
    was (no command, nothing written); when all are there it raises no
    KeyError. *)
Theorem fnirt_registration_reads_settings_first
  (reg_settings : gmap string cfgval) (temp_dir : string) (w : world) :
  let result := run_T1_FNIRT_registration reg_settings temp_dir w in
  match List.find (missing_key reg_settings) fnirt_keys with
  | Some key => result = Raised (KeyError key) w
  | None => forall key w', result <> Raised (KeyError key) w'
  end.
Proof.
  intros result. subst result.
  unfold run_T1_FNIRT_registration, fnirt_keys, missing_key. cbn [List.find].
  do 12 (rewrite bind_reg_get_at;
         match goal with
         | |- context [(match reg_settings !! ?key with _ => _ end) = _] =>
             destruct (reg_settings !! key); [|reflexivity]
         end).
  do 2 (rewrite bind_getitem_at;
        match goal with
        | |- context [(match reg_settings !! ?key with _ => _ end) = _] =>
            destruct (reg_settings !! key); [|reflexivity]
        end).
  cbv zeta. intros key w'.
  match goal with |- ?m w <> _ => assert (Hm : raises_only (fun _ => False) m) end.
  { repeat raises_step. }
  intros E. exact (Hm w (KeyError key) w' E).
Qed.

End FnirtKeys.

(** The reference settings without the fnirt configuration (and without
    the entries of the user's transforms, which are read later). *)
Lemma fnirt_registration_reads_settings_first_witness :
  @run_T1_FNIRT_registration Reference.platform
    (delete "FNIRTConfig" (Reference.ref_resolution ∪ Reference.ref_registration))
    "/tmp/tmpciftify" Reference.fresh
  = Raised (KeyError "FNIRTConfig") Reference.fresh.
Proof.
  exact (@fnirt_registration_reads_settings_first Reference.platform
    (delete "FNIRTConfig" (Reference.ref_resolution ∪ Reference.ref_registration))
    "/tmp/tmpciftify" Reference.fresh).
Defined.

(** ** The thickness map and its ROI *)

Section ConvertedMaps.
Local Open Scope R_scope.

Lemma length_metric_mathR e bindings :
  length (metric_mathR e bindings) = nvertices bindings.
Proof. unfold metric_mathR. by rewrite length_map, length_seq. Qed.

(** X13. The values that [convert_freesurfer_maps] and
    [medial_wall_rois_from_thickness_maps] compute, vertex by vertex, from
    the values t converted from FreeSurfer: a map other than the thickness
    holds -t; the thickness map holds |t|, so it is never negative; and the
    ROI made from the thickness map (before holes are filled) is 1 where t
    is not zero, of either sign, and 0 where t is zero.  The ROI has one
    value per vertex. *)
Theorem thickness_roi_keeps_nonzero_thickness (fs_values : list R) (v : nat) :
  (v < length fs_values)%nat ->
  let t := nth v fs_values 0 in
  (forall map_name, map_name <> "thickness" ->
     nth v (converted_map map_name fs_values) 0 = - t)
  /\ nth v (converted_map "thickness" fs_values) 0 = Rabs t
  /\ nth v (thickness_roiR (converted_map "thickness" fs_values)) 0
     = (if Req_dec_T t 0 then 0 else 1)
  /\ length (thickness_roiR (converted_map "thickness" fs_values)) = length fs_values.
Proof.
  intros Hv t.
  assert (Hneg : nth v (metric_mathR negate_expr [("var", fs_values)]) 0 = - t).
  { rewrite metric_mathR_nth by done. simpl.
    change (file_of [("var", fs_values)] "var") with fs_values. fold t. lra. }
  assert (Hlen : length (metric_mathR negate_expr [("var", fs_values)]) = length fs_values)
    by apply length_metric_mathR.
  assert (Habs : nth v (converted_map "thickness" fs_values) 0 = Rabs t).
  { unfold converted_map. cbn [String.eqb Ascii.eqb Bool.eqb]. cbv zeta.
    rewrite metric_mathR_nth by (simpl; lia). simpl.
    change (file_of [("thickness", ?x)] "thickness") with x.
    rewrite Hneg. apply Rabs_Ropp. }
  assert (Hlen' : length (converted_map "thickness" fs_values) = length fs_values).
  { unfold converted_map. cbn [String.eqb Ascii.eqb Bool.eqb]. cbv zeta.
    rewrite length_metric_mathR. simpl. exact Hlen. }
  split; [|split; [exact Habs|split]].
  - intros map_name Hne. unfold converted_map.
    destruct (String.eqb map_name "thickness") eqn:E; [by apply String.eqb_eq in E|].
    exact Hneg.
  - unfold thickness_roiR. rewrite metric_mathR_nth by (simpl; lia). simpl.
    change (file_of [("thickness", ?x)] "thickness") with x.
    rewrite Habs. destruct (Rlt_dec 0 (Rabs t)) as [Hpos|Hnpos], (Req_dec_T t 0) as [Hz|Hnz];
      try reflexivity.
    + rewrite Hz, Rabs_R0 in Hpos. lra.
    + destruct Hnpos. by apply Rabs_pos_lt.
  - unfold thickness_roiR. rewrite length_metric_mathR. simpl. exact Hlen'.
Qed.

End ConvertedMaps.

(** Three vertices, the second one of negative thickness. *)
Lemma thickness_roi_keeps_nonzero_thickness_witness :
  (nth 1 (converted_map "thickness" [2; -3; 0]) 0 = Rabs (-3))%R
  /\ (nth 1 (thickness_roiR (converted_map "thickness" [2; -3; 0])) 0
      = if Req_dec_T (-3) 0 then 0 else 1)%R.
Proof.
  pose proof (thickness_roi_keeps_nonzero_thickness [2; -3; 0]%R 1) as Hw.
  simpl in Hw. specialize (Hw ltac:(lia)). split; apply Hw.
Defined.

(** ** What the construction of the settings leaves on the disk *)

Section Footprint.
Context `{Collaborators}.
Import PyStr OsPath.

Lemma fails_clean_bind {A B} (m : M A) (k : A -> M B) :
  preserves only_logged m -> (forall a, fails_clean (k a)) -> fails_clean (m ≫= k).
Proof.
  intros Hm Hk w. specialize (Hm w). unfold mbind, M_bind.
  destruct (m w) as [a w1|s w1|e w1]; simpl in Hm.
  - intros Hn. etrans; [exact Hm|]. by apply Hk.
  - intros _. exact Hm.
  - intros _. exact Hm.
Qed.

Lemma has_been_run_before_fails_clean {B} wf s rs (k : bool -> B) :
  fails_clean (has_been_run_before wf s rs ≫= fun skip => mret (k skip)).
Proof.
  intros w. unfold has_been_run_before. rewrite bind_assoc_at, bind_get_fs_at.
  destruct (path_exists (fs w) (path s)).
  - destruct rs; [destruct (has_ciftify_recon_all_run _ _ _)|];
      repeat (first [rewrite bind_assoc_at | rewrite bind_log_at | rewrite bind_exit_at
                    | rewrite bind_ret_at]); simpl;
      first [ tauto | intros _; apply only_logged_logged ].
  - destruct (makedirs_raises _ _);
      repeat (first [rewrite bind_assoc_at | rewrite bind_log_at | rewrite bind_exit_at
                    | rewrite bind_set_fs_at | rewrite bind_ret_at]); simpl;
      first [ tauto | intros _; apply only_logged_logged ].
Qed.

Lemma Settings_init_fails_clean args : fails_clean (Settings_init args).
Proof.
  unfold Settings_init.
  apply fails_clean_bind; [by intros w|intros f].
  apply fails_clean_bind; [apply preserves_collaborator; same_side|intros wf].
  apply fails_clean_bind; [apply set_registration_mode_reads|intros [rn msm]].
  apply fails_clean_bind; [apply set_fs_subjects_dir_reads|intros fs_root].
  apply fails_clean_bind; [apply get_subject_reads|intros sb].
  apply fails_clean_bind; [apply preserves_collaborator; same_side|intros dd].
  apply fails_clean_bind; [apply get_freesurfer_license_reads|intros lic].
  apply fails_clean_bind; [apply define_dscalars_reads|intros ds].
  apply fails_clean_bind; [apply define_registration_settings_reads|intros reg].
  apply has_been_run_before_fails_clean.
Qed.

(** X14. What [Settings.__init__] does to the disk.  It issues no
    command.  When it does not return (an exit or an exception, whatever
    the reason) it has only called the logger: with no log file attached
    to the logger, as in [main], which attaches the log of the subject
    after the construction of the settings, it has written nothing.  When
    it returns in resample-only mode the output root was there and it has
    only logged one line of information; when it returns for a full run
    the output root was not there and the only change is that it has been
    created. *)
Theorem Settings_init_footprint (args : arguments) (w : world) :
  let outcome := Settings_init args w in
  cmds (final outcome) = cmds w
  /\ (~ is_Done outcome ->
      only_logged w (final outcome)
      /\ (handlers w = [] -> fs (final outcome) = fs w))
  /\ (forall st w', outcome = Done st w' ->
        if skip_main_wf st
        then w' = logged Info
                    "Found completed ciftify output, only resampling to T1w/fsaverage_LR32k" w
             /\ (handlers w = [] -> fs w' = fs w)
             /\ path_exists (fs w) (path (subj st)) = true
        else path_exists (fs w) (path (subj st)) = false
             /\ fs w' = <[path (subj st) := Dir]> (fs w)).
Proof.
  intros outcome. split; [apply Settings_init_no_command|].
  split.
  { intros Hn. pose proof (Settings_init_fails_clean args w Hn) as Hl.
    split; [exact Hl|]. by apply only_logged_unattached. }
  intros st w' E. apply Settings_init_steps in E
    as (wf & rn & msm & fs_root & s & dd & lic & ds & reg
        & Est & _ & _ & _ & _ & _ & _ & _ & E).
  assert (Hs : subj st = s) by (by rewrite Est). rewrite Hs. clear Est Hs.
  unfold has_been_run_before in E. rewrite bind_get_fs_at in E.
  destruct (path_exists (fs w) (path s)).
  - destruct (arg_resample_to_T1w32k args).
    + destruct (has_ciftify_recon_all_run _ _ _).
      * rewrite bind_log_at in E. unfold mret, M_ret in E. injection E as <- <-.
        split; [done|]. split; [apply logged_unattached|done].
      * by rewrite bind_log_at in E.
    + by rewrite bind_log_at in E.
  - destruct (makedirs_raises _ _).
    + by rewrite bind_assoc_at, bind_log_at in E.
    + rewrite bind_set_fs_at in E. injection E as <- <-. done.
Qed.

Lemma log_inputs_returns fs_dir work subject_id reg msm v w1 :
  reg !! "User_AtlasTransform_NonLinear" = Some v ->
  (cfg_truthy v = true -> is_Some (reg !! "User_AtlasTransform_Linear")) ->
  is_Done (log_inputs fs_dir work subject_id reg msm w1).
Proof.
  intros En El. unfold log_inputs. rewrite !bind_log_at.
  destruct (truthy msm); [rewrite bind_log_at|rewrite bind_ret_at];
    rewrite bind_getitem_at, En;
    (destruct (cfg_truthy v); [|exact I]);
    destruct (El eq_refl) as [v' El'];
    by rewrite bind_log_at, bind_getitem_at, El', bind_log_at, bind_getitem_at, En.
Qed.


End Footprint.

(** A fresh subject on the reference platform: the settings are built
    and the output root is created. *)
Lemma Settings_init_footprint_witness :
  let outcome := @Settings_init Reference.platform (Reference.args_FS false None None)
                   Reference.fresh in
  is_Done outcome
  /\ fs (final outcome) = <["/work/sub-01" := Dir]> (fs Reference.fresh).
Proof.
  intros outcome.
  pose proof (proj2 (proj2 (@Settings_init_footprint Reference.platform
    (Reference.args_FS false None None) Reference.fresh))) as Hw. cbv zeta in Hw.
  fold outcome in Hw.
  assert (Hd : is_Done outcome) by (vm_compute; exact I).
  split; [exact Hd|].
  destruct outcome as [st w'|s w'|e w'] eqn:E; [|destruct Hd..].
  specialize (Hw st w' eq_refl).
  assert (Hs : skip_main_wf st = false).
  { change (match Done st w' with Done st _ => skip_main_wf st | _ => true end = false).
    rewrite <- E. vm_compute. reflexivity. }
  rewrite Hs in Hw. simpl. destruct Hw as [_ ->].
  f_equal.
  change (match Done st w' with Done st _ => path (subj st) | _ => "" end = "/work/sub-01").
  rewrite <- E. vm_compute. reflexivity.
Defined.


(** ** The resample-only run that copies its templates *)

Section ResampleOnlyCopies.
Context `{Collaborators}.
Variables (st : settings) (meshes : list (string * mesh)).
Hypothesis Htools : tools_write_outputs.
Hypothesis Hplaced : forall m, dest_mesh st meshes m -> files_in_folder (id (subj st)) m.
Hypothesis Hcopies : no_symlinks st = true.

Local Abbreviation N := (native_lowres_target st meshes).
Local Abbreviation WN := (written_within (native_lowres_target st meshes)).

Lemma native_surf m surface h :
  dest_mesh st meshes m -> N (surf_file (id (subj st)) surface h m).
Proof. intros Hm. exists m. split; [done|]. by apply (Hplaced m Hm). Qed.

Lemma native_spec m : dest_mesh st meshes m -> N (spec_file (id (subj st)) m).
Proof. intros Hm. exists m. split; [done|]. by apply (Hplaced m Hm). Qed.

Lemma native_real_spec m f :
  dest_mesh st meshes m -> N (realpath f (spec_file (id (subj st)) m)).
Proof.
  intros Hm. destruct (Hplaced m Hm) as (_ & _ & ->). by apply native_spec.
Qed.

Lemma native_folder m : dest_mesh st meshes m -> N (Folder m).
Proof. intros Hm. exists m. split; [done|]. apply under_refl. Qed.

Lemma copies_run cmd d :
  (forall q, In q (cmd_outputs cmd) -> N q) -> preserves WN (run cmd d).
Proof.
  intros Hout. apply preserves_run; [exact _|]. intros w. split; [done|].
  intros p Hp _. simpl. apply (proj1 Htools). intros Hin. by apply Hp, Hout.
Qed.

Lemma copies_make_dir p d s : N p -> preserves WN (make_dir p d s).
Proof.
  intros Hp w. split; [done|]. intros q Hq _. simpl. apply (proj2 Htools). by intros ->.
Qed.

(** with [--no-symlinks] a template is copied to its place, and the cache
    is left alone *)
Lemma copies_link_to_template_file subject_file global_file via_file :
  N subject_file ->
  preserves WN (link_to_template_file st subject_file global_file via_file).
Proof.
  intros Hs. unfold link_to_template_file. rewrite Hcopies.
  apply preserves_bind; [exact _| |intros _; apply preserves_ret; exact _].
  apply copies_run. simpl. by intros q [<-|[]].
Qed.

Lemma copies_sphere_mesh m :
  dest_mesh st meshes m -> preserves WN (copy_sphere_mesh_from_template st m).
Proof.
  intros Hm. unfold copy_sphere_mesh_from_template.
  apply preserves_for_each; [exact _|]. intros [hemisphere structure].
  apply preserves_bind; [exact _| |intros _].
  - apply copies_link_to_template_file. by apply native_surf.
  - apply preserves_bind; [exact _| |intros _; apply preserves_ret; exact _].
    apply copies_run. simpl. intros q [<-|[]]. by apply native_spec.
Qed.

Lemma copies_resample_to_native t1 m sphere labels an :
  dest_mesh st meshes m ->
  preserves WN (resample_to_native t1 m st (id (subj st)) sphere labels an).
Proof.
  intros Hm. unfold resample_to_native.
  apply preserves_bind; [exact _|by apply copies_sphere_mesh|intros _].
  unfold resample_surfs_and_add_to_spec, make_inflated_surfaces,
    add_dense_maps_to_spec_file.
  repeat first
    [ apply copies_run; simpl;
      intros q Hq; repeat (destruct Hq as [<-|Hq]); try done;
      first [ by apply native_surf | by apply native_spec | by apply native_real_spec ]
    | preserved_step ].
Qed.

Lemma copies_resampling temp_dir labels :
  preserves WN (resampling_to_t1w_32k temp_dir st meshes labels).
Proof.
  unfold resampling_to_t1w_32k. cbv beta iota zeta delta [get_reg_sphere_names].
  apply preserves_bind; [exact _|apply preserves_get_mesh; same_side|intros an].
  apply preserves_bind; [exact _|apply preserves_get_fs; same_side|intros f].
  apply preserves_bind; [exact _|preserved|intros _].
  apply preserves_for_each_in; [exact _|]. intros res Hres. cbv zeta.
  apply preserves_bind; [exact _|apply preserves_log; same_side|intros _].
  apply preserves_bind_get_mesh; [exact _|]. intros m Hm.
  assert (Hd : dest_mesh st meshes m) by (by exists res).
  apply preserves_bind; [exact _|apply preserves_get_fs; same_side|intros f'].
  apply preserves_bind; [exact _| |intros _].
  { destruct (negb _); [|apply preserves_ret; exact _].
    apply preserves_bind_get_mesh; [exact _|]. intros m' Hm'.
    apply copies_make_dir. rewrite Hm in Hm'. injection Hm' as <-. by apply native_folder. }
  apply preserves_bind_get_mesh; [exact _|]. intros m1 Hm1.
  rewrite Hm in Hm1. injection Hm1 as <-.
  apply preserves_bind; [exact _| |intros _].
  { unfold add_anat_images_to_spec_files. cbn [for_each snd].
    repeat first
      [ apply copies_run; simpl; intros q [<-|[]]; by apply native_real_spec
      | preserved_step ]. }
  apply preserves_bind; [exact _|apply preserves_get_mesh; same_side|intros t1].
  apply preserves_bind_get_mesh; [exact _|]. intros m2 Hm2.
  rewrite Hm in Hm2. injection Hm2 as <-.
  apply preserves_bind; [exact _|apply preserves_get_mesh; same_side|intros an'].
  by apply copies_resample_to_native.
Qed.

End ResampleOnlyCopies.

Section ResampleOnlyCopiesRun.
Context `{Collaborators}.


End ResampleOnlyCopiesRun.

Section ReferenceCopies.
Import Reference.

Lemma ref_files_in_folder_copying m :
  dest_mesh ref_settings_copying ref_meshes m -> @files_in_folder platform "sub-01" m.
Proof.
  intros (res & Hres & Hm). destruct Hres as [<-|[]].
  vm_compute in Hm. injection Hm as <-.
  split; [|split]; [intros surface h|..]; reflexivity.
Qed.

End ReferenceCopies.


(** ** The program at work on the reference platform *)

Section Examples.
Import PyStr OsPath Reference.
#[local] Existing Instance platform.

Example join_mri :
  join "/fs/sub-01" ["mri"; "wmparc.mgz"] = "/fs/sub-01/mri/wmparc.mgz".
Proof. reflexivity. Qed.

Example join_absolute_component : join "/fs/sub-01" ["mri"; "/x.mgz"] = "/x.mgz".
Proof. reflexivity. Qed.

Example join_trailing_slash : join "/work/" ["sub-01"] = "/work/sub-01".
Proof. reflexivity. Qed.

Example slice_without_equal_sign : slice_to "--dopt" (rfind "=" "--dopt") = "--dop".
Proof. reflexivity. Qed.

Example msm_arg_list_of_text :
  msm_arg_list msm_conf_ok = ["--simval"; "--sigma_in"; "--dopt"].
Proof. reflexivity. Qed.

Example expected_labels_v6 :
  define_expected_labels "v6.0.0" = ["aparc"; "aparc.a2009s"; "aparc.DKTatlas"; "BA_exvivo"].
Proof. reflexivity. Qed.

Example expected_labels_v5 :
  define_expected_labels "v5.3.0" = ["aparc"; "aparc.a2009s"; "BA"].
Proof. reflexivity. Qed.

Example metric_math_texts :
  show negate_expr = "(var * -1)"
  /\ show abs_thickness_expr = "(abs(thickness))"
  /\ show thickness_roi_expr = "(thickness > 0)"
  /\ show merge_roi_expr = "(atlas + individual) > 0".
Proof. by vm_compute. Qed.

(** A fresh subject in FS mode: the whole pipeline runs. *)
Example full_run_completes :
  let w := final (main (args_FS false None None) fresh) in
  is_Done (main (args_FS false None None) fresh)
  /\ length (cmds w) = 233%nat
  /\ path_exists (fs w) "/work/sub-01/MNINonLinear/fsaverage_LR32k/sub-01.32k_fs_LR.wb.spec"
     = true.
Proof. vm_compute. by split_and!. Qed.

(** Running again on the output of a full run, without the resample flag:
    the run aborts and issues no further command. *)
Example second_run_aborts :
  let w := final (main (args_FS false None None) fresh) in
  match main (args_FS false None None) w with
  | Exited OutputExists w' => length (cmds w') = length (cmds w)
  | _ => False
  end.
Proof. by vm_compute. Qed.

(** Running again with the resample flag: only the T1w low-resolution space
    is added; the templates are already in the cache. *)
Example second_run_resamples :
  let w := final (main (args_FS false None None) fresh) in
  let w' := final (main (args_FS true None None) w) in
  is_Done (main (args_FS true None None) w)
  /\ (length (cmds w') = length (cmds w) + 24)%nat
  /\ forallb (fun p =>
       underb "/work/sub-01/T1w/fsaverage_LR32k" p || path_exists (fs w) p)
       (map fst (map_to_list (fs w'))) = true.
Proof. vm_compute. by split_and!. Qed.

(** The operations of one resampling pass, in the order they are issued. *)
Example deform_to_native_operations :
  map operation
    (cmds (final (deform_to_native ref_native ref_lowres
                    [("thickness", Dscalar "thickness" (Some "thickness") "_Thickness"
                                     "MODE_AUTO_SCALE_PERCENTAGE" "-pos-percent" true)]
                    [] "sub-01" "sphere.reg.reg_LR" "0.75" fresh)))
  = ["-surface-resample"; "-add-to-spec-file"; "-surface-resample"; "-add-to-spec-file";
     "-surface-resample"; "-add-to-spec-file"; "-surface-resample"; "-add-to-spec-file";
     "-surface-resample"; "-add-to-spec-file"; "-surface-resample"; "-add-to-spec-file";
     "-surface-generate-inflated"; "-add-to-spec-file"; "-add-to-spec-file";
     "-surface-generate-inflated"; "-add-to-spec-file"; "-add-to-spec-file";
     "-metric-resample"; "-metric-mask"; "-metric-resample"; "-metric-mask";
     "-cifti-create-dense-scalar"; "-set-map-names"; "-cifti-palette";
     "-add-to-spec-file"].
Proof. by vm_compute. Qed.


(** A fresh subject in MSMSulc mode: msm is run for both hemispheres with
    the user's configuration. *)
Example msm_run_calls_msm :
  let w := final (main (args_MSM (Some "/conf/MSMSulc")) (with_msm_conf msm_conf_ok)) in
  map (fun c => nth 1 c "") (List.filter (fun c => String.eqb (program c) "msm") (cmds w))
  = ["--conf=/conf/MSMSulc"; "--conf=/conf/MSMSulc"].
Proof. by vm_compute. Qed.

(** When mri_convert fails, the run ends on its first call. *)
Example failing_tool_ends_run :
  match @main failing_platform (args_FS false None None) fresh with
  | Exited ToolFailure w =>
      cmds w = [["mri_convert"; "/fs/sub-01/mri/T1.mgz"; "/work/sub-01/T1w/T1w.nii.gz"]]
  | _ => False
  end.
Proof. by vm_compute. Qed.

(** A dry run goes through the whole pipeline and issues nothing. *)
Example dry_run_completes :
  is_Done (@main dry_platform (args_FS false None None) fresh).
Proof. by vm_compute. Qed.

End Examples.
